(** * streaming-solution-aws-cdk: the fan-out handler and the load generator

    A shallow embedding of [lib/src/fanout.py] and [scripts/producer.py].

    Python values are modelled by the inductive type [value]; a Python [str]
    is the list of its code points and a [bytes] object the list of its
    octets, both as [list Z].  Exceptions are values of [exn] and fallible
    code returns [result].  The library routines the two scripts call
    ([base64.b64decode], [bytes.decode], [json.loads], [json.dumps], the
    DynamoDB conditional [put_item], the SNS [publish]) are modelled next to
    the code that calls them.

    Not modelled: interpreter resource limits (recursion depth, the digit
    limit of integer conversion) and service quotas; any failure of a service
    call other than the ones written out below is supplied by the caller of
    the model as a fault. *)

From Stdlib Require Import ZArith Lia Strings.String Strings.Ascii.
From stdpp Require Import base option list gmap.

Local Open Scope Z_scope.

(** ** Python values *)

Module Py.

(** A [str] literal of the source, as code points. *)
Fixpoint py (s : string) : list Z :=
  match s with
  | EmptyString => []
  | String a r => Z.of_N (N_of_ascii a) :: py r
  end.

Inductive pykey : Type :=
| KStr (s : list Z)
| KInt (n : Z).

Inductive exn : Type :=
| KeyError (k : pykey)
| IndexError
| TypeError
| ValueError
| BinasciiError
| UnicodeDecodeError
| UnicodeEncodeError
| JSONDecodeError
| RecursionError
| EOFError
| ClientError (code : string).

Inductive result (A : Type) : Type :=
| Ok (a : A)
| Raise (e : exn).
Arguments Ok {A} a.
Arguments Raise {A} e.

Definition result_bind {A B} (f : A → result B) (m : result A) : result B :=
  match m with
  | Ok a => f a
  | Raise e => Raise e
  end.

Definition result_map {A B} (f : A → B) (m : result A) : result B :=
  match m with
  | Ok a => Ok (f a)
  | Raise e => Raise e
  end.

#[global] Instance result_ret : MRet result := @Ok.
#[global] Instance result_mbind : MBind result := @result_bind.
#[global] Instance result_fmap : FMap result := @result_map.

(** A float is never inspected by either script; it is kept symbolic: the
    literal it was parsed from, one of the three constants [json.loads]
    accepts, or the sum of a float and an [int]. *)
Inductive pyfloat : Type :=
| FLit (text : list Z)
| FNaN
| FInf
| FNegInf
| FAdd (f : pyfloat) (n : Z).

#[warnings="-register-all"] Inductive value : Type :=
| VNone
| VBool (b : bool)
| VInt (n : Z)
| VFloat (f : pyfloat)
| VStr (s : list Z)
| VList (l : list value)
| VDict (d : list (list Z * value)).

Definition str_eqb (a b : list Z) : bool := bool_decide (a = b).

(** [d[k]] for a [dict] with [str] keys, kept in insertion order. *)
Fixpoint dict_get (d : list (list Z * value)) (k : list Z) : option value :=
  match d with
  | [] => None
  | (k', v) :: r => if str_eqb k' k then Some v else dict_get r k
  end.

(** [d[k] = v]: an existing key keeps its position. *)
Fixpoint dict_set (d : list (list Z * value)) (k : list Z) (v : value)
  : list (list Z * value) :=
  match d with
  | [] => [(k, v)]
  | (k', v') :: r => if str_eqb k' k then (k', v) :: r else (k', v') :: dict_set r k v
  end.

Definition dict_has (d : list (list Z * value)) (k : list Z) : bool :=
  match dict_get d k with Some _ => true | None => false end.

(** [l[i]] for a list and an [int], negative indices counting from the end. *)
Definition list_index {A} (l : list A) (i : Z) : option A :=
  if 0 <=? i then l !! Z.to_nat i
  else if 0 <=? Z.of_nat (length l) + i then l !! Z.to_nat (Z.of_nat (length l) + i)
  else None.

(** The subscript [v[k]]. *)
Definition getitem (v : value) (k : pykey) : result value :=
  match v, k with
  | VDict d, KStr s =>
      match dict_get d s with Some x => Ok x | None => Raise (KeyError k) end
  | VDict _, KInt _ => Raise (KeyError k)
  | VList l, KInt i =>
      match list_index l i with Some x => Ok x | None => Raise IndexError end
  | VStr s, KInt i =>
      match list_index s i with Some c => Ok (VStr [c]) | None => Raise IndexError end
  | _, _ => Raise TypeError
  end.

(** [v + n] for an [int] literal [n]: [bool] is a subclass of [int]. *)
Definition add_int (v : value) (n : Z) : result value :=
  match v with
  | VInt m => Ok (VInt (m + n))
  | VBool b => Ok (VInt ((if b then 1 else 0) + n))
  | VFloat f => Ok (VFloat (FAdd f n))
  | _ => Raise TypeError
  end.

Definition is_digit (c : Z) : bool := (48 <=? c) && (c <=? 57).

(** Decimal digits of a non-negative integer, most significant first. *)
Fixpoint digits_aux (fuel : nat) (n : Z) (acc : list Z) : list Z :=
  let acc' := (48 + n mod 10) :: acc in
  match fuel with
  | O => acc'
  | S f => if n <? 10 then acc' else digits_aux f (n / 10) acc'
  end.

Definition digits (n : Z) : list Z := digits_aux (Z.to_nat (Z.log2 n)) n [].

(** [repr] of an [int]. *)
Definition int_repr (z : Z) : list Z :=
  if z <? 0 then 45 :: digits (- z) else digits z.

(** The value of a run of decimal digits. *)
Definition digits_value (ds : list Z) : Z :=
  fold_left (fun acc d => acc * 10 + (d - 48)) ds 0.

(** ["%0<w>d" % n] for a non-negative [n]. *)
Definition zfill (w : nat) (n : Z) : list Z :=
  let ds := digits n in replicate (w - length ds)%nat 48 ++ ds.

(** A naive [datetime], as returned by [datetime.now()]. *)
Record datetime : Type := {
  year : Z; month : Z; day : Z;
  hour : Z; minute : Z; second : Z; microsecond : Z
}.

(** [str(dt)], which is [dt.isoformat(sep=' ')]. *)
Definition datetime_str (dt : datetime) : list Z :=
  zfill 4 (year dt) ++ py "-" ++ zfill 2 (month dt) ++ py "-" ++ zfill 2 (day dt)
  ++ py " " ++ zfill 2 (hour dt) ++ py ":" ++ zfill 2 (minute dt) ++ py ":"
  ++ zfill 2 (second dt)
  ++ (if microsecond dt =? 0 then [] else py "." ++ zfill 6 (microsecond dt)).

End Py.
Export Py.

(** ** base64 *)

Module Base64.

(** [table_b2a_base64]: the character of a 6-bit group. *)
Definition b2a (i : Z) : Z :=
  if i <? 26 then 65 + i
  else if i <? 52 then 97 + (i - 26)
  else if i <? 62 then 48 + (i - 52)
  else if i =? 62 then 43
  else 47.

(** [table_a2b_base64]: the 6-bit group of a character, [None] for a
    character outside the alphabet. *)
Definition a2b (c : Z) : option Z :=
  if (65 <=? c) && (c <=? 90) then Some (c - 65)
  else if (97 <=? c) && (c <=? 122) then Some (c - 97 + 26)
  else if (48 <=? c) && (c <=? 57) then Some (c - 48 + 52)
  else if c =? 43 then Some 62
  else if c =? 47 then Some 63
  else None.

(** [base64.b64encode]: three octets become four characters, the last
    group is padded with [=]. *)
Fixpoint b64encode (bs : list Z) : list Z :=
  match bs with
  | [] => []
  | [a] =>
      [b2a (Z.shiftr a 2); b2a (Z.shiftl (Z.land a 3) 4); 61; 61]
  | [a; b] =>
      [b2a (Z.shiftr a 2);
       b2a (Z.lor (Z.shiftl (Z.land a 3) 4) (Z.shiftr b 4));
       b2a (Z.shiftl (Z.land b 15) 2); 61]
  | a :: b :: c :: r =>
      b2a (Z.shiftr a 2)
      :: b2a (Z.lor (Z.shiftl (Z.land a 3) 4) (Z.shiftr b 4))
      :: b2a (Z.lor (Z.shiftl (Z.land b 15) 2) (Z.shiftr c 6))
      :: b2a (Z.land c 63)
      :: b64encode r
  end.

(** The loop of [binascii.a2b_base64] in its default, non-strict mode:
    [quad_pos] is the position in the current group of four, [leftchar]
    the bits carried over, [pads] the padding characters seen in a row.
    Characters outside the alphabet are skipped; a complete padding ends the
    decoding; an incomplete last group is an error. *)
Fixpoint a2b_loop (s : list Z) (quad_pos leftchar pads : Z) : result (list Z) :=
  match s with
  | [] => if quad_pos =? 0 then Ok [] else Raise BinasciiError
  | this_ch :: r =>
      if this_ch =? 61 then
        if 2 <=? quad_pos then
          if 4 <=? quad_pos + (pads + 1) then Ok []
          else a2b_loop r quad_pos leftchar (pads + 1)
        else a2b_loop r quad_pos leftchar pads
      else
        match a2b this_ch with
        | None => a2b_loop r quad_pos leftchar pads
        | Some d =>
            if quad_pos =? 0 then a2b_loop r 1 d 0
            else if quad_pos =? 1 then
              cons (Z.lor (Z.shiftl leftchar 2) (Z.shiftr d 4))
                <$> a2b_loop r 2 (Z.land d 15) 0
            else if quad_pos =? 2 then
              cons (Z.lor (Z.shiftl leftchar 4) (Z.shiftr d 2))
                <$> a2b_loop r 3 (Z.land d 3) 0
            else
              cons (Z.lor (Z.shiftl leftchar 6) d) <$> a2b_loop r 0 0 0
        end
  end.

Definition is_ascii (c : Z) : bool := (0 <=? c) && (c <? 128).

(** [base64.b64decode(s)]: an ASCII [str] is accepted as well as [bytes];
    the handler always passes what it found under ["data"]. *)
Definition b64decode (payload : value) : result (list Z) :=
  match payload with
  | VStr s => if forallb is_ascii s then a2b_loop s 0 0 0 else Raise ValueError
  | _ => Raise TypeError
  end.

End Base64.

(** ** UTF-8 *)

Module Utf8.

Definition is_cont (b : Z) : bool := (0x80 <=? b) && (b <=? 0xBF).

Definition cont_bits (b : Z) : Z := Z.land b 0x3F.

(** [bytes.decode("utf-8")] with the default strict error handler: overlong
    forms, surrogates and code points above U+10FFFF are rejected. *)
Fixpoint utf8_decode (bs : list Z) : result (list Z) :=
  match bs with
  | [] => Ok []
  | b0 :: r0 =>
      if (0 <=? b0) && (b0 <? 0x80) then cons b0 <$> utf8_decode r0
      else if (0xC2 <=? b0) && (b0 <=? 0xDF) then
        match r0 with
        | b1 :: r1 =>
            if is_cont b1
            then cons (Z.lor (Z.shiftl (Z.land b0 0x1F) 6) (cont_bits b1))
                   <$> utf8_decode r1
            else Raise UnicodeDecodeError
        | _ => Raise UnicodeDecodeError
        end
      else if (0xE0 <=? b0) && (b0 <=? 0xEF) then
        match r0 with
        | b1 :: b2 :: r2 =>
            if is_cont b1 && is_cont b2
               && negb ((b0 =? 0xE0) && (b1 <? 0xA0))
               && negb ((b0 =? 0xED) && (0xA0 <=? b1))
            then cons (Z.lor (Z.shiftl (Z.land b0 0x0F) 12)
                         (Z.lor (Z.shiftl (cont_bits b1) 6) (cont_bits b2)))
                   <$> utf8_decode r2
            else Raise UnicodeDecodeError
        | _ => Raise UnicodeDecodeError
        end
      else if (0xF0 <=? b0) && (b0 <=? 0xF4) then
        match r0 with
        | b1 :: b2 :: b3 :: r3 =>
            if is_cont b1 && is_cont b2 && is_cont b3
               && negb ((b0 =? 0xF0) && (b1 <? 0x90))
               && negb ((b0 =? 0xF4) && (0x90 <=? b1))
            then cons (Z.lor (Z.shiftl (Z.land b0 0x07) 18)
                         (Z.lor (Z.shiftl (cont_bits b1) 12)
                            (Z.lor (Z.shiftl (cont_bits b2) 6) (cont_bits b3))))
                   <$> utf8_decode r3
            else Raise UnicodeDecodeError
        | _ => Raise UnicodeDecodeError
        end
      else Raise UnicodeDecodeError
  end.

Definition is_surrogate (c : Z) : bool := (0xD800 <=? c) && (c <=? 0xDFFF).

Definition utf8_encode_char (c : Z) : result (list Z) :=
  if (0 <=? c) && (c <? 0x80) then Ok [c]
  else if (0x80 <=? c) && (c <? 0x800) then
    Ok [Z.lor 0xC0 (Z.shiftr c 6); Z.lor 0x80 (Z.land c 0x3F)]
  else if (0x800 <=? c) && (c <? 0x10000) then
    if is_surrogate c then Raise UnicodeEncodeError
    else Ok [Z.lor 0xE0 (Z.shiftr c 12);
             Z.lor 0x80 (Z.land (Z.shiftr c 6) 0x3F);
             Z.lor 0x80 (Z.land c 0x3F)]
  else if (0x10000 <=? c) && (c <=? 0x10FFFF) then
    Ok [Z.lor 0xF0 (Z.shiftr c 18);
        Z.lor 0x80 (Z.land (Z.shiftr c 12) 0x3F);
        Z.lor 0x80 (Z.land (Z.shiftr c 6) 0x3F);
        Z.lor 0x80 (Z.land c 0x3F)]
  else Raise UnicodeEncodeError.

(** [str.encode("utf-8")], which is what the stream client applies to a
    [str] given as [Data]. *)
Fixpoint utf8_encode (s : list Z) : result (list Z) :=
  match s with
  | [] => Ok []
  | c :: r =>
      bs ← utf8_encode_char c;
      rest ← utf8_encode r;
      Ok (bs ++ rest)
  end.

End Utf8.

(** ** JSON *)

Module Json.

Definition is_ws (c : Z) : bool :=
  (c =? 32) || (c =? 9) || (c =? 10) || (c =? 13).

(** The [WHITESPACE] pattern: skip blanks, tabs and line ends. *)
Fixpoint skip_ws (s : list Z) : list Z :=
  match s with
  | c :: r => if is_ws c then skip_ws r else s
  | [] => []
  end.

Definition hexval (c : Z) : option Z :=
  if (48 <=? c) && (c <=? 57) then Some (c - 48)
  else if (97 <=? c) && (c <=? 102) then Some (c - 97 + 10)
  else if (65 <=? c) && (c <=? 70) then Some (c - 65 + 10)
  else None.

(** The four hex digits of a [\uXXXX] escape. *)
Definition hex4 (h1 h2 h3 h4 : Z) : option Z :=
  d1 ← hexval h1; d2 ← hexval h2; d3 ← hexval h3; d4 ← hexval h4;
  Some (Z.lor (Z.shiftl (Z.lor (Z.shiftl (Z.lor (Z.shiftl d1 4) d2) 4) d3) 4) d4).

Definition is_high_surrogate (c : Z) : bool := (0xD800 <=? c) && (c <=? 0xDBFF).
Definition is_low_surrogate (c : Z) : bool := (0xDC00 <=? c) && (c <=? 0xDFFF).

(** [Py_UNICODE_JOIN_SURROGATES] *)
Definition join_surrogates (hi lo : Z) : Z :=
  0x10000 + Z.lor (Z.shiftl (Z.land hi 0x3FF) 10) (Z.land lo 0x3FF).

(** The character of a one-letter escape. *)
Definition unescape (e : Z) : option Z :=
  if e =? 34 then Some 34
  else if e =? 92 then Some 92
  else if e =? 47 then Some 47
  else if e =? 98 then Some 8
  else if e =? 102 then Some 12
  else if e =? 110 then Some 10
  else if e =? 114 then Some 13
  else if e =? 116 then Some 9
  else None.

Definition push (c : Z) (p : list Z * list Z) : list Z * list Z := (c :: p.1, p.2).

(** [scanstring] in strict mode, from just after the opening quote: the
    decoded string and the input after the closing quote.  A high surrogate
    escape directly followed by a low surrogate escape is one character. *)
Fixpoint scanstring (s : list Z) : result (list Z * list Z) :=
  match s with
  | [] => Raise JSONDecodeError
  | c :: r =>
      if c =? 34 then Ok ([], r)
      else if c =? 92 then
        match r with
        | [] => Raise JSONDecodeError
        | e :: r1 =>
            if e =? 117 then
              match r1 with
              | h1 :: h2 :: h3 :: h4 :: r2 =>
                  match hex4 h1 h2 h3 h4 with
                  | None => Raise JSONDecodeError
                  | Some u =>
                      match r2 with
                      | b :: v :: g1 :: g2 :: g3 :: g4 :: ((_ :: _) as r3) =>
                          if is_high_surrogate u && (b =? 92) && (v =? 117) then
                            match hex4 g1 g2 g3 g4 with
                            | None => Raise JSONDecodeError
                            | Some u2 =>
                                if is_low_surrogate u2
                                then push (join_surrogates u u2) <$> scanstring r3
                                else push u <$> scanstring r2
                            end
                          else push u <$> scanstring r2
                      | _ => push u <$> scanstring r2
                      end
                  end
              | _ => Raise JSONDecodeError
              end
            else
              match unescape e with
              | Some x => push x <$> scanstring r1
              | None => Raise JSONDecodeError
              end
        end
      else if (0 <=? c) && (c <=? 0x1F) then Raise JSONDecodeError
      else push c <$> scanstring r
  end.

Fixpoint span_digits (s : list Z) : list Z * list Z :=
  match s with
  | c :: r => if is_digit c then push c (span_digits r) else ([], s)
  | [] => ([], [])
  end.

(** The fraction of a number: a dot followed by at least one digit. *)
Definition scan_frac (s : list Z) : list Z * list Z :=
  match s with
  | dot :: d :: r =>
      if (dot =? 46) && is_digit d
      then let p := span_digits r in (dot :: d :: p.1, p.2)
      else ([], s)
  | _ => ([], s)
  end.

(** The exponent of a number: [e] or [E], a sign that is followed by
    something, and at least one digit; otherwise nothing is consumed. *)
Definition scan_exp (s : list Z) : list Z * list Z :=
  match s with
  | e :: r =>
      if (e =? 101) || (e =? 69) then
        let sg :=
          match r with
          | c :: ((_ :: _) as r') => if (c =? 45) || (c =? 43) then ([c], r') else ([], r)
          | _ => ([], r)
          end in
        let p := span_digits sg.2 in
        match p.1 with
        | [] => ([], s)
        | _ => (e :: sg.1 ++ p.1, p.2)
        end
      else ([], s)
  | [] => ([], s)
  end.

(** [_match_number]: an optional minus sign, then a single zero or a run
    of digits that does not start with zero, then an optional fraction and an
    optional exponent; a number with a fraction or an exponent is a float,
    any other an [int]. *)
Definition match_number (s : list Z) : result (value * list Z) :=
  let sg := match s with
            | c :: r => if c =? 45 then (true, r) else (false, s)
            | [] => (false, s)
            end in
  let int_part :=
    match sg.2 with
    | d :: r =>
        if (49 <=? d) && (d <=? 57) then Some (push d (span_digits r))
        else if d =? 48 then Some ([48], r)
        else None
    | [] => None
    end in
  match int_part with
  | None => Raise JSONDecodeError
  | Some (ds, r1) =>
      let fr := scan_frac r1 in
      let ex := scan_exp fr.2 in
      match fr.1, ex.1 with
      | [], [] =>
          Ok (VInt (if sg.1 then - digits_value ds else digits_value ds), ex.2)
      | _, _ =>
          Ok (VFloat (FLit ((if sg.1 then [45] else []) ++ ds ++ fr.1 ++ ex.1)), ex.2)
      end
  end.

(** [s] starts with the literal [lit]: what follows it. *)
Fixpoint strip_prefix (lit s : list Z) : option (list Z) :=
  match lit with
  | [] => Some s
  | c :: lit' =>
      match s with
      | c' :: s' => if c =? c' then strip_prefix lit' s' else None
      | [] => None
      end
  end.

(** The constants and numbers of [scan_once]. *)
Definition scan_atom (s : list Z) : result (value * list Z) :=
  match strip_prefix (py "null") s with
  | Some r => Ok (VNone, r)
  | None =>
  match strip_prefix (py "true") s with
  | Some r => Ok (VBool true, r)
  | None =>
  match strip_prefix (py "false") s with
  | Some r => Ok (VBool false, r)
  | None =>
  match strip_prefix (py "NaN") s with
  | Some r => Ok (VFloat FNaN, r)
  | None =>
  match strip_prefix (py "Infinity") s with
  | Some r => Ok (VFloat FInf, r)
  | None =>
  match strip_prefix (py "-Infinity") s with
  | Some r => Ok (VFloat FNegInf, r)
  | None => match_number s
  end end end end end end.

(** [scan_once], [JSONObject] and [JSONArray].  The recursion is on a
    fuel; [json_loads] gives enough of it for the text it scans. *)
Fixpoint scan_once (fuel : nat) (s : list Z) : result (value * list Z) :=
  match fuel with
  | O => Raise RecursionError
  | S f =>
      match s with
      | [] => Raise JSONDecodeError
      | c :: r =>
          if c =? 34 then
            '(x, r') ← scanstring r; Ok (VStr x, r')
          else if c =? 123 then
            match skip_ws r with
            | c1 :: r1 =>
                if c1 =? 125 then Ok (VDict [], r1)
                else scan_members f [] (c1 :: r1)
            | [] => Raise JSONDecodeError
            end
          else if c =? 91 then
            match skip_ws r with
            | c1 :: r1 =>
                if c1 =? 93 then Ok (VList [], r1)
                else scan_elements f [] (c1 :: r1)
            | [] => Raise JSONDecodeError
            end
          else scan_atom s
      end
  end
with scan_members (fuel : nat) (acc : list (list Z * value)) (s : list Z)
  : result (value * list Z) :=
  match fuel with
  | O => Raise RecursionError
  | S f =>
      match s with
      | q :: r =>
          if q =? 34 then
            '(k, r1) ← scanstring r;
            match skip_ws r1 with
            | colon :: r2 =>
                if colon =? 58 then
                  '(v, r3) ← scan_once f (skip_ws r2);
                  let acc' := dict_set acc k v in
                  match skip_ws r3 with
                  | c :: r4 =>
                      if c =? 125 then Ok (VDict acc', r4)
                      else if c =? 44 then scan_members f acc' (skip_ws r4)
                      else Raise JSONDecodeError
                  | [] => Raise JSONDecodeError
                  end
                else Raise JSONDecodeError
            | [] => Raise JSONDecodeError
            end
          else Raise JSONDecodeError
      | [] => Raise JSONDecodeError
      end
  end
with scan_elements (fuel : nat) (acc : list value) (s : list Z)
  : result (value * list Z) :=
  match fuel with
  | O => Raise RecursionError
  | S f =>
      '(v, r1) ← scan_once f s;
      let acc' := acc ++ [v] in
      match skip_ws r1 with
      | c :: r2 =>
          if c =? 93 then Ok (VList acc', r2)
          else if c =? 44 then scan_elements f acc' (skip_ws r2)
          else Raise JSONDecodeError
      | [] => Raise JSONDecodeError
      end
  end.

(** [json.loads(s)] for a [str]: no byte-order mark, one value, nothing but
    whitespace around it. *)
Definition json_loads (s : list Z) : result value :=
  match s with
  | 0xFEFF :: _ => Raise JSONDecodeError
  | _ =>
      '(obj, r) ← scan_once (S (2 * length s)) (skip_ws s);
      match skip_ws r with
      | [] => Ok obj
      | _ => Raise JSONDecodeError
      end
  end.

Definition hexdigit (d : Z) : Z := if d <? 10 then 48 + d else 97 + (d - 10).

(** [\uXXXX], lower-case. *)
Definition escape_u (c : Z) : list Z :=
  [92; 117; hexdigit (Z.land (Z.shiftr c 12) 15); hexdigit (Z.land (Z.shiftr c 8) 15);
   hexdigit (Z.land (Z.shiftr c 4) 15); hexdigit (Z.land c 15)].

(** One character of [encode_basestring_ascii]. *)
Definition escape_char (c : Z) : list Z :=
  if c =? 34 then [92; 34]
  else if c =? 92 then [92; 92]
  else if c =? 10 then [92; 110]
  else if c =? 13 then [92; 114]
  else if c =? 9 then [92; 116]
  else if c =? 12 then [92; 102]
  else if c =? 8 then [92; 98]
  else if (32 <=? c) && (c <=? 126) then [c]
  else if c <? 0x10000 then escape_u c
  else
    let v := c - 0x10000 in
    escape_u (Z.lor 0xD800 (Z.land (Z.shiftr v 10) 0x3FF))
    ++ escape_u (Z.lor 0xDC00 (Z.land v 0x3FF)).

(** [encode_basestring_ascii]: the quoted, ASCII-only form of a [str]. *)
Definition encode_basestring_ascii (s : list Z) : list Z :=
  [34] ++ flat_map escape_char s ++ [34].

Section Dumps.

(** [float.__repr__], which neither script ever reaches with a float it
    could print: left as a parameter. *)
Variable float_repr : pyfloat → list Z.

Definition encode_float (f : pyfloat) : list Z :=
  match f with
  | FNaN => py "NaN"
  | FInf => py "Infinity"
  | FNegInf => py "-Infinity"
  | _ => float_repr f
  end.

(** [json.dumps(v)] with the default settings: ASCII only, [", "] between
    items and [": "] after a key. *)
Fixpoint json_dumps (v : value) : list Z :=
  match v with
  | VNone => py "null"
  | VBool true => py "true"
  | VBool false => py "false"
  | VInt n => int_repr n
  | VFloat f => encode_float f
  | VStr s => encode_basestring_ascii s
  | VList l =>
      [91] ++
      (fix items (l : list value) : list Z :=
         match l with
         | [] => []
         | [x] => json_dumps x
         | x :: r => json_dumps x ++ [44; 32] ++ items r
         end) l
      ++ [93]
  | VDict d =>
      [123] ++
      (fix members (d : list (list Z * value)) : list Z :=
         match d with
         | [] => []
         | [(k, x)] => encode_basestring_ascii k ++ [58; 32] ++ json_dumps x
         | (k, x) :: r =>
             encode_basestring_ascii k ++ [58; 32] ++ json_dumps x ++ [44; 32] ++ members r
         end) d
      ++ [125]
  end.

End Dumps.

End Json.

(** ** The durable store and the notification topic *)

Module Aws.

(** A call of the handler to one of the two services, with how it ended:
    [None] for a normal return, [Some e] when it raised [e]. *)
Inductive Call : Type :=
| CPutItem (table_name : list Z) (it : list (list Z * value)) (outcome : option exn)
| CPublish (topic_arn : list Z) (message : list Z) (outcome : option exn).

(** The tables by name, each a map from the key to the stored item; the
    topics by identifier, each with the messages published so far, oldest
    first; and the calls made so far, oldest first. *)
Record World : Type := {
  tables : gmap (list Z) (gmap (list Z) (list (list Z * value)));
  topics : gmap (list Z) (list (list Z));
  calls : list Call
}.

(** What one invocation takes from outside: the clock, and a failure of
    the call to either service for a reason that is not written out below
    (throttling, the network, a request that the client library or the
    service rejects, such as a number of more than 38 digits). *)
Record Ambient : Type := {
  now : datetime;
  put_fault : option exn;
  publish_fault : option exn
}.

(** Code that calls the services: it reads and changes the world, and
    returns or raises. *)
Definition M (A : Type) : Type := World → result A * World.

#[global] Instance M_ret : MRet M := λ A a w, (Ok a, w).
#[global] Instance M_bind : MBind M := λ A B f m w,
  match m w with
  | (Ok a, w') => f a w'
  | (Raise e, w') => (Raise e, w')
  end.

Definition lift {A} (r : result A) : M A := λ w, (r, w).

Fixpoint has_float (v : value) : bool :=
  match v with
  | VFloat _ => true
  | VList l => existsb has_float l
  | VDict d => existsb (λ kv, has_float kv.2) d
  | _ => false
  end.

Inductive condition : Type :=
| attribute_not_exists (attr : list Z).

(** A condition holds of the item stored under the key, if there is one. *)
Definition holds (c : condition) (old : option (list (list Z * value))) : bool :=
  match c, old with
  | attribute_not_exists _, None => true
  | attribute_not_exists a, Some it => negb (dict_has it a)
  end.

(** Modelled from the spec: the key schema of the table, which the
    deployment code declares and which is not among the sources: one row per
    [transactionId], a string, the primary key. *)
Definition key_of (it : list (list Z * value)) : option (list Z) :=
  match dict_get it (py "transactionId") with
  | Some (VStr k) => Some k
  | _ => None
  end.

(** What [Table.put_item(Item=it, ConditionExpression=c)] does to the
    tables.  The resource layer refuses a float before any request is made;
    the service refuses an unknown table, an item without its key, and an
    item whose condition fails. *)
Definition put_item_tables (fault : option exn)
    (ts : gmap (list Z) (gmap (list Z) (list (list Z * value))))
    (table_name : list Z) (it : list (list Z * value)) (c : condition)
  : result (gmap (list Z) (gmap (list Z) (list (list Z * value)))) :=
  if has_float (VDict it) then Raise TypeError
  else
    match fault with
    | Some e => Raise e
    | None =>
        match ts !! table_name with
        | None => Raise (ClientError "ResourceNotFoundException")
        | Some t =>
            match key_of it with
            | None => Raise (ClientError "ValidationException")
            | Some k =>
                if holds c (t !! k)
                then Ok (<[table_name := <[k := it]> t]> ts)
                else Raise (ClientError "ConditionalCheckFailedException")
            end
        end
    end.

Definition outcome_of {A} (r : result A) : option exn :=
  match r with Ok _ => None | Raise e => Some e end.

Definition put_item (fault : option exn) (table_name : list Z)
    (it : list (list Z * value)) (c : condition) : M unit :=
  λ w,
    let r := put_item_tables fault (tables w) table_name it c in
    let log := calls w ++ [CPutItem table_name it (outcome_of r)] in
    match r with
    | Ok ts => (Ok (), {| tables := ts; topics := topics w; calls := log |})
    | Raise e => (Raise e, {| tables := tables w; topics := topics w; calls := log |})
    end.

(** What [sns.publish(TopicArn=arn, Message=msg)] does to the topics. *)
Definition publish_topics (fault : option exn) (tp : gmap (list Z) (list (list Z)))
    (arn msg : list Z) : result (gmap (list Z) (list (list Z))) :=
  match fault with
  | Some e => Raise e
  | None =>
      match tp !! arn with
      | None => Raise (ClientError "NotFound")
      | Some ms => Ok (<[arn := ms ++ [msg]]> tp)
      end
  end.

Definition publish (fault : option exn) (arn msg : list Z) : M unit :=
  λ w,
    let r := publish_topics fault (topics w) arn msg in
    let log := calls w ++ [CPublish arn msg (outcome_of r)] in
    match r with
    | Ok tp => (Ok (), {| tables := tables w; topics := tp; calls := log |})
    | Raise e => (Raise e, {| tables := tables w; topics := topics w; calls := log |})
    end.

End Aws.
Export Aws.

(** ** lib/src/fanout.py *)

Module Fanout.

Section Handler.

Variable float_repr : pyfloat → list Z.

(** [os.environ] *)
Variable environ : gmap (list Z) (list Z).

Variable amb : Ambient.

Definition os_environ (k : list Z) : result (list Z) :=
  match environ !! k with
  | Some v => Ok v
  | None => Raise (KeyError (KStr k))
  end.

(** Lines 17 to 19: the first record's data, out of base64, out of UTF-8,
    out of JSON. *)
Definition decode_payload (event : value) : result value :=
  records ← getitem event (KStr (py "records"));
  record ← getitem records (KInt 0);
  payload ← getitem record (KStr (py "data"));
  raw ← Base64.b64decode payload;
  data_dump ← Utf8.utf8_decode raw;
  Json.json_loads data_dump.

(** Lines 23 to 32: the item, its entries evaluated in the order they are
    written. *)
Definition build_item (data : value) : result (list (list Z * value)) :=
  transactionId ← getitem data (KStr (py "transactionId"));
  name ← getitem data (KStr (py "name"));
  city ← getitem data (KStr (py "city"));
  transaction ← getitem data (KStr (py "transaction"));
  bankId ← getitem data (KStr (py "bankId"));
  createdAt ← getitem data (KStr (py "createdAt"));
  transaction' ← getitem data (KStr (py "transaction"));
  customEnrichment ← add_int transaction' 500;
  Ok [ (py "transactionId", transactionId);
       (py "name", name);
       (py "city", city);
       (py "transaction", transaction);
       (py "bankId", bankId);
       (py "createdAt", createdAt);
       (py "customEnrichment", customEnrichment);
       (py "inspectedAt", VStr (datetime_str (now amb))) ].

Definition handler (event context : value) : M value :=
  data ← lift (decode_payload event);
  table ← lift (os_environ (py "TABLE_NAME"));
  item ← lift (build_item data);
  _ ← put_item (put_fault amb) table item (attribute_not_exists (py "inspectedAt"));
  topic_arn ← lift (os_environ (py "TOPIC_ARN"));
  _ ← publish (publish_fault amb) topic_arn (Json.json_dumps float_repr (VDict item));
  mret (VDict [ (py "statusCode", VInt 200);
                (py "body", VStr (Json.json_dumps float_repr (VDict item))) ]).

End Handler.

End Fanout.

(** ** scripts/producer.py *)

Module Producer.

(** What the script does that can be seen from outside, in order. *)
Inductive Action : Type :=
| StartApplication (application_name input_id input_starting_position : list Z)
| Print (text : list Z)
| Sleep (seconds : Z)
| Input (prompt : list Z)
| PutRecord (stream_name data partition_key : list Z)
| PPrint (response : value).

(** Code of the script: what it did, and how it ended. *)
Definition P (A : Type) : Type := list Action * result A.

#[global] Instance P_ret : MRet P := λ A a, ([], Ok a).
#[global] Instance P_bind : MBind P := λ A B f m,
  match m with
  | (tr, Ok a) => let m' := f a in (tr ++ m'.1, m'.2)
  | (tr, Raise e) => (tr, Raise e)
  end.

Definition act (a : Action) : P unit := ([a], Ok ()).
Definition raise {A} (e : exn) : P A := ([], Raise e).
Definition lift {A} (r : result A) : P A := ([], r).

(** [try: body  except <catches>: handler] *)
Definition try_except {A} (body : P A) (catches : exn → bool) (handler : P A) : P A :=
  match body with
  | (tr, Raise e) =>
      if catches e then let h := handler in (tr ++ h.1, h.2) else (tr, Raise e)
  | done => done
  end.

(** [kinesisanalytics.exceptions.ResourceInUseException] *)
Definition ResourceInUseException (e : exn) : bool :=
  match e with
  | ClientError code => String.eqb code "ResourceInUseException"
  | _ => false
  end.

(** What the script takes from outside before its loop: how the call that
    starts the application ends, the line typed at the prompt ([None] at the
    end of input), and the successive results of [fake.swift()]. *)
Record Boot : Type := {
  start_outcome : option exn;
  stdin : option (list Z);
  swift : nat → list Z
}.

(** What one turn of the loop takes from outside: the generated fields, the
    random draws before they are brought into range, the clock, and the
    response of the stream or the exception it raised. *)
Record Tick : Type := {
  uuid4 : list Z;
  fake_name : list Z;
  age_draw : Z;
  fake_address : list Z;
  fake_city : list Z;
  fake_state : list Z;
  transaction_draw : Z;
  bank_draw : Z;
  tick_now : datetime;
  put_record_outcome : result value
}.

(** The variables of the script. *)
Record Globals : Type := {
  rootSteamName : list Z;
  banks : list (list Z);
  payload : option value;
  response : option value
}.

(** [random.randrange(start, stop)] on a given draw. *)
Definition randrange (start stop draw : Z) : result Z :=
  if stop - start <=? 0 then Raise ValueError
  else Ok (start + draw mod (stop - start)).

(** [fake.random_int(min, max, step=1)], which is [randrange(min, max + 1)]. *)
Definition random_int (min max draw : Z) : result Z := randrange min (max + 1) draw.

Definition start_application (b : Boot) : P unit :=
  _ ← act (StartApplication (py "abnormality-detector") (py "1.1") (py "NOW"));
  match start_outcome b with
  | None => mret ()
  | Some e => raise e
  end.

Definition input (prompt : list Z) (b : Boot) : P (list Z) :=
  _ ← act (Input prompt);
  match stdin b with
  | Some line => mret line
  | None => raise EOFError
  end.

(** Lines 18 to 36. *)
Definition bootstrap (b : Boot) : P unit :=
  try_except
    (_ ← start_application b;
     _ ← act (Print (py "Giving 30 seconds for the kinesis analytics application to boot"));
     act (Sleep 30))
    ResourceInUseException
    (act (Print (py "Application already running, skipping start up step"))).

(** Lines 44 to 46: [banks], filled by ten calls of [fake.swift()]. *)
Definition make_banks (b : Boot) : list (list Z) :=
  fold_left (λ banks i, banks ++ [swift b i]) (seq 0 10) [].

(** Lines 18 to 46: everything before the loop. *)
Definition startup (b : Boot) : P Globals :=
  _ ← bootstrap b;
  name ← input (py "Please enter the stream name that was outputted from cdk deploy - (StreamingSolutionWithCdkStack.RootStreamName): ") b;
  mret {| rootSteamName := name; banks := make_banks b;
          payload := None; response := None |}.

Section Loop.

Variable float_repr : pyfloat → list Z.

(** Lines 49 to 59: the record of one turn. *)
Definition make_payload (g : Globals) (t : Tick) : result value :=
  age ← random_int 18 85 (age_draw t);
  transaction ← random_int 1000 10000 (transaction_draw t);
  i ← randrange 0 (Z.of_nat (length (banks g))) (bank_draw t);
  bankId ← match list_index (banks g) i with
           | Some b => Ok b
           | None => Raise IndexError
           end;
  Ok (VDict [ (py "transactionId", VStr (uuid4 t));
              (py "name", VStr (fake_name t));
              (py "age", VInt age);
              (py "address", VStr (fake_address t));
              (py "city", VStr (fake_city t));
              (py "state", VStr (fake_state t));
              (py "transaction", VInt transaction);
              (py "bankId", VStr bankId);
              (py "createdAt", VStr (datetime_str (tick_now t))) ]).

(** Lines 49 to 64: one turn of the loop. *)
Definition tick (g : Globals) (t : Tick) : P Globals :=
  p ← lift (make_payload g t);
  _ ← act (PutRecord (rootSteamName g) (Json.json_dumps float_repr p) (py "abc"));
  r ← lift (put_record_outcome t);
  _ ← act (PPrint r);
  _ ← act (Sleep 1);
  mret {| rootSteamName := rootSteamName g; banks := banks g;
          payload := Some p; response := Some r |}.

(** The first turns of [while True], one for each element of [ticks]: the
    loop has no exit of its own, a result is the state the script is in when
    the observation stops. *)
Fixpoint loop (g : Globals) (ticks : list Tick) : P Globals :=
  match ticks with
  | [] => mret g
  | t :: r => g' ← tick g t; loop g' r
  end.

Definition producer (b : Boot) (ticks : list Tick) : P Globals :=
  g ← startup b;
  loop g ticks.

End Loop.

(** The data of the records appended to the stream, oldest first. *)
Definition emitted (tr : list Action) : list (list Z) :=
  omap (λ a, match a with PutRecord _ data _ => Some data | _ => None end) tr.

(** How many times the script asked for the application to be started. *)
Definition start_calls (tr : list Action) : nat :=
  length (omap (λ a, match a with StartApplication _ _ _ => Some a | _ => None end) tr).

End Producer.

(** ** The data contract *)

Module Contract.

(** The record that flows from the generator to the handler. *)
Record DomainRecord : Type := {
  transactionId : list Z;
  name : list Z;
  city : list Z;
  transaction : Z;
  bankId : list Z;
  createdAt : list Z
}.

(** The record as the [dict] that [json.loads] yields for it. *)
Definition to_dict (D : DomainRecord) : list (list Z * value) :=
  [ (py "transactionId", VStr (transactionId D));
    (py "name", VStr (name D));
    (py "city", VStr (city D));
    (py "transaction", VInt (transaction D));
    (py "bankId", VStr (bankId D));
    (py "createdAt", VStr (createdAt D)) ].

(** The record the handler makes of [D] when the clock reads [now]. *)
Definition enriched (now : datetime) (D : DomainRecord) : list (list Z * value) :=
  to_dict D
  ++ [ (py "customEnrichment", VInt (transaction D + 500));
       (py "inspectedAt", VStr (datetime_str now)) ].

(** The six required fields, in the order the handler reads them. *)
Definition required : list (list Z) :=
  [ py "transactionId"; py "name"; py "city"; py "transaction"; py "bankId";
    py "createdAt" ].

(** A Unicode scalar value: a code point that is not a surrogate. *)
Definition scalar (c : Z) : bool :=
  (0 <=? c) && (c <=? 0x10FFFF) && negb (Utf8.is_surrogate c).

(** A [str] that is Unicode text. *)
Definition text (s : list Z) : bool := forallb scalar s.

(** A record is valid when its strings are text; its amount is any [int]. *)
Definition valid (D : DomainRecord) : Prop :=
  text (transactionId D) = true ∧ text (name D) = true ∧ text (city D) = true
  ∧ text (bankId D) = true ∧ text (createdAt D) = true.

(** A value that [json.dumps] and [json.loads] take to each other: no
    float, every string text, no key twice in a [dict]. *)
Fixpoint plain (v : value) : bool :=
  match v with
  | VFloat _ => false
  | VStr s => text s
  | VList l => forallb plain l
  | VDict d =>
      forallb (λ kv, text kv.1 && plain kv.2) d && bool_decide (NoDup d.*1)
  | _ => true
  end.

(** [del d[k]] *)
Fixpoint dict_del (d : list (list Z * value)) (k : list Z) : list (list Z * value) :=
  match d with
  | [] => []
  | (k', v) :: r => if str_eqb k' k then r else (k', v) :: dict_del r k
  end.

Section Transport.

Variable float_repr : pyfloat → list Z.

(** What the handler is handed for a value the generator emitted: the JSON
    text, encoded as UTF-8, in base64. *)
Definition encode (v : value) : result (list Z) :=
  bs ← Utf8.utf8_encode (Json.json_dumps float_repr v);
  Ok (Base64.b64encode bs).

End Transport.

(** The invocation event of section 6 of the specification, with further
    records after the first. *)
Definition event_of (data : list Z) (more : list value) : value :=
  VDict [ (py "records", VList (VDict [ (py "data", VStr data) ] :: more)) ].

End Contract.

(** ** Definitions used by the proofs *)

Module Aux.

(** [f] holds of the [n] integers from [x] on. *)
Fixpoint all_from (n : nat) (x : Z) (f : Z → bool) : bool :=
  match n with
  | O => true
  | S k => if f x then all_from k (x + 1) f else false
  end.

Definition sextet (i : Z) : Prop := 0 ≤ i < 64.
Definition octet (b : Z) : Prop := 0 ≤ b < 256.

(** The bit arithmetic of a group of base64, for two neighbouring octets
    [a] and [b]: what the encoder makes of them is in range, and the decoder
    puts them together again. *)
Definition group_ok (a b : Z) : bool :=
  let c1 := Z.shiftr a 2 in
  let c2 := Z.lor (Z.shiftl (Z.land a 3) 4) (Z.shiftr b 4) in
  let c3 := Z.shiftl (Z.land b 15) 2 in
  let c3' := Z.lor (Z.shiftl (Z.land a 15) 2) (Z.shiftr b 6) in
  (0 <=? c1) && (c1 <? 64) && (0 <=? c2) && (c2 <? 64) && (0 <=? c3) && (c3 <? 64)
  && (0 <=? c3') && (c3' <? 64) && (0 <=? Z.land b 63) && (Z.land b 63 <? 64)
  && (0 <=? Z.shiftl (Z.land a 3) 4) && (Z.shiftl (Z.land a 3) 4 <? 64)
  && (Z.lor (Z.shiftl c1 2) (Z.shiftr c2 4) =? a)
  && (Z.lor (Z.shiftl c1 2) (Z.shiftr (Z.shiftl (Z.land a 3) 4) 4) =? a)
  && (Z.land c2 15 =? Z.shiftr b 4)
  && (Z.lor (Z.shiftl (Z.shiftr a 4) 4) (Z.shiftr c3' 2) =? a)
  && (Z.lor (Z.shiftl (Z.shiftr b 4) 4) (Z.shiftr c3 2) =? b)
  && (Z.land c3' 3 =? Z.shiftr b 6)
  && (Z.lor (Z.shiftl (Z.shiftr b 6) 6) (Z.land b 63) =? b).

(** The four hex digits written for [c] read back as [c]. *)
Definition escape_u_ok (c : Z) : bool :=
  bool_decide (Json.hex4 (Json.hexdigit (Z.land (Z.shiftr c 12) 15))
                 (Json.hexdigit (Z.land (Z.shiftr c 8) 15))
                 (Json.hexdigit (Z.land (Z.shiftr c 4) 15))
                 (Json.hexdigit (Z.land c 15)) = Some c).

(** The high and the low surrogate written for ten bits keep them. *)
Definition high_ok (x : Z) : bool :=
  let hi := Z.lor 0xD800 (Z.land x 0x3FF) in
  Json.is_high_surrogate hi && (Z.land hi 0x3FF =? x).

Definition low_ok (y : Z) : bool :=
  let lo := Z.lor 0xDC00 y in
  Json.is_low_surrogate lo && (Z.land lo 0x3FF =? y).

(** The first character of the text of a value: never a blank, never a
    closing bracket, never the byte-order mark. *)
Definition value_start (c : Z) : Prop :=
  c = 110 ∨ c = 116 ∨ c = 102 ∨ c = 45 ∨ is_digit c = true ∨ c = 34 ∨ c = 91 ∨ c = 123.

Section Dumps.

Variable float_repr : pyfloat → list Z.

(** The inner loops of [json_dumps], by name. *)
Fixpoint dumps_items (l : list value) : list Z :=
  match l with
  | [] => []
  | [x] => Json.json_dumps float_repr x
  | x :: r => Json.json_dumps float_repr x ++ [44; 32] ++ dumps_items r
  end.

Fixpoint dumps_members (d : list (list Z * value)) : list Z :=
  match d with
  | [] => []
  | [(k, x)] =>
      Json.encode_basestring_ascii k ++ [58; 32] ++ Json.json_dumps float_repr x
  | (k, x) :: r =>
      Json.encode_basestring_ascii k ++ [58; 32] ++ Json.json_dumps float_repr x
      ++ [44; 32] ++ dumps_members r
  end.

(** What may follow a value in a JSON text: nothing, a comma, or a closing
    bracket. *)
Definition delimited (rest : list Z) : Prop :=
  match rest with
  | [] => True
  | c :: _ => c = 44 ∨ c = 125 ∨ c = 93
  end.

(** What the round trip says of one value: scanning its text gives it back
    and stops right after it. *)
Definition roundtrips (v : value) : Prop :=
  Contract.plain v = true → ∀ fuel rest,
    (length (Json.json_dumps float_repr v) ≤ fuel)%nat → delimited rest →
    Json.scan_once fuel (Json.json_dumps float_repr v ++ rest) = Ok (v, rest).

End Dumps.

(** A printable ASCII character. *)
Definition printable (c : Z) : bool := (32 <=? c) && (c <=? 126).


(** The item a table holds under a key. *)
Definition stored (w : World) (table_name k : list Z) : option (list (list Z * value)) :=
  tables w !! table_name ≫= (.!! k).

(** Every row is stored under the [transactionId] it carries. *)
Definition well_keyed (w : World) : Prop :=
  ∀ table_name k it, stored w table_name k = Some it → key_of it = Some k.

Section Handler.

Variable float_repr : pyfloat → list Z.
Variable environ : gmap (list Z) (list Z).

(** The acknowledgement the handler returns for an item. *)
Definition ack (it : list (list Z * value)) : value :=
  VDict [ (py "statusCode", VInt 200);
          (py "body", VStr (Json.json_dumps float_repr (VDict it))) ].

(** The world after an item was stored under [k] in the table [t] named
    [table_name] and published to the topic [arn], which held [ms]. *)
Definition delivered (w : World) (table_name : list Z)
    (t : gmap (list Z) (list (list Z * value))) (k : list Z)
    (it : list (list Z * value)) (arn : list Z) (ms : list (list Z)) : World :=
  let msg := Json.json_dumps float_repr (VDict it) in
  {| tables := <[table_name := <[k := it]> t]> (tables w);
     topics := <[arn := ms ++ [msg]]> (topics w);
     calls := calls w ++ [CPutItem table_name it None; CPublish arn msg None] |}.

(** The world after a conditional write of an item was refused with [e]. *)
Definition refused (w : World) (table_name : list Z) (it : list (list Z * value))
    (e : exn) : World :=
  {| tables := tables w; topics := topics w;
     calls := calls w ++ [CPutItem table_name it (Some e)] |}.

(** The world after a run of invocations, each with what it takes from
    outside and its event. *)
Fixpoint deliveries (invs : list (Ambient * value)) (w : World) : World :=
  match invs with
  | [] => w
  | (amb, event) :: r =>
      deliveries r (Fanout.handler float_repr environ amb event VNone w).2
  end.

End Handler.

End Aux.

(** ** The scenario of section 8 of the specification *)

Module Scenario.

Definition quoted (s : string) : list Z := [34] ++ py s ++ [34].

(** The JSON text of the scenario. *)
Definition scenario_text : list Z :=
  [123] ++ quoted "transactionId" ++ [58] ++ quoted "t1" ++ [44]
  ++ quoted "name" ++ [58] ++ quoted "Alice" ++ [44]
  ++ quoted "city" ++ [58] ++ quoted "NYC" ++ [44]
  ++ quoted "transaction" ++ [58] ++ py "1000" ++ [44]
  ++ quoted "bankId" ++ [58] ++ quoted "BANKAAXX" ++ [44]
  ++ quoted "createdAt" ++ [58] ++ quoted "2024-01-01T00:00:00" ++ [125].

(** Its base64 encoding, the input payload. *)
Definition scenario_payload : list Z :=
  py "eyJ0cmFuc2FjdGlvbklkIjoidDEiLCJuYW1lIjoiQWxpY2UiLCJjaXR5IjoiTllDIiwidHJhbnNhY3Rpb24iOjEwMDAsImJhbmtJZCI6IkJBTktBQVhYIiwiY3JlYXRlZEF0IjoiMjAyNC0wMS0wMVQwMDowMDowMCJ9".

Definition scenario_record : Contract.DomainRecord :=
  {| Contract.transactionId := py "t1";
     Contract.name := py "Alice";
     Contract.city := py "NYC";
     Contract.transaction := 1000;
     Contract.bankId := py "BANKAAXX";
     Contract.createdAt := py "2024-01-01T00:00:00" |}.

(** The stored record the scenario expects, but for the time it is given. *)
Definition scenario_item (inspectedAt : list Z) : list (list Z * value) :=
  [ (py "transactionId", VStr (py "t1"));
    (py "name", VStr (py "Alice"));
    (py "city", VStr (py "NYC"));
    (py "transaction", VInt 1000);
    (py "bankId", VStr (py "BANKAAXX"));
    (py "createdAt", VStr (py "2024-01-01T00:00:00"));
    (py "customEnrichment", VInt 1500);
    (py "inspectedAt", VStr inspectedAt) ].

(** A configured handler, a clock, services without faults, and a world
    with an empty table and a topic without messages. *)
Definition a_float_repr : pyfloat → list Z := λ _, py "0.0".

Definition an_environ : gmap (list Z) (list Z) :=
  {[ py "TABLE_NAME" := py "abnormalities"; py "TOPIC_ARN" := py "arn:aws:sns:us-east-1:1:abnormalities" ]}.

Definition a_time : datetime :=
  {| year := 2024; month := 1; day := 2; hour := 3; minute := 4; second := 5;
     microsecond := 678 |}.

Definition a_later_time : datetime :=
  {| year := 2024; month := 1; day := 2; hour := 3; minute := 4; second := 9;
     microsecond := 0 |}.

Definition healthy (t : datetime) : Ambient :=
  {| now := t; put_fault := None; publish_fault := None |}.

Definition a_world : World :=
  {| tables := {[ py "abnormalities" := ∅ ]};
     topics := {[ py "arn:aws:sns:us-east-1:1:abnormalities" := [] ]};
     calls := [] |}.

(** The payload of the scenario delivered to the handler, and delivered
    again four seconds later. *)
Definition first_delivery : result value * World :=
  Fanout.handler a_float_repr an_environ (healthy a_time)
    (Contract.event_of scenario_payload []) VNone a_world.

Definition second_delivery : result value * World :=
  Fanout.handler a_float_repr an_environ (healthy a_later_time)
    (Contract.event_of scenario_payload []) VNone first_delivery.2.

(** The valid record of the scenario as the generator's transport hands it
    to the handler, delivered a first time. *)
Definition wire_payload : list Z :=
  Base64.b64encode (Json.json_dumps a_float_repr (VDict (Contract.to_dict scenario_record))).

Definition wire_first : result value * World :=
  Fanout.handler a_float_repr an_environ (healthy a_time)
    (Contract.event_of wire_payload []) VNone a_world.

(** A generator whose application is already running, one whose call is
    denied, and three turns that the stream accepts. *)
Definition a_swift (i : nat) : list Z := py "BANK" ++ digits (Z.of_nat i) ++ py "XX".

Definition boot_in_use : Producer.Boot :=
  {| Producer.start_outcome := Some (ClientError "ResourceInUseException");
     Producer.stdin := Some (py "RootStream");
     Producer.swift := a_swift |}.

Definition boot_denied : Producer.Boot :=
  {| Producer.start_outcome := Some (ClientError "AccessDeniedException");
     Producer.stdin := Some (py "RootStream");
     Producer.swift := a_swift |}.

Definition a_tick (n : Z) : Producer.Tick :=
  {| Producer.uuid4 := py "1b4e28ba-2fa1-41d2-883f-0016d3cca42" ++ digits n;
     Producer.fake_name := py "Alice";
     Producer.age_draw := 7 * n;
     Producer.fake_address := py "1 Main Street";
     Producer.fake_city := py "NYC";
     Producer.fake_state := py "New York";
     Producer.transaction_draw := 12345 * n;
     Producer.bank_draw := 13 * n;
     Producer.tick_now := a_time;
     Producer.put_record_outcome := Ok (VDict [ (py "SequenceNumber", VStr (digits n)) ]) |}.

Definition three_ticks : list Producer.Tick := [a_tick 1; a_tick 2; a_tick 3].

End Scenario.

(** ** Definitions used by the further properties *)

Module More.

(** The first required field that a [dict] lacks. *)
Definition first_missing (d : list (list Z * value)) : option (list Z) :=
  List.find (λ f, negb (dict_has d f)) Contract.required.

(** A value that is neither an [int], a [bool] nor a float: [+ 500] is a
    [TypeError] on it. *)
Definition not_a_number (v : value) : bool :=
  match v with
  | VInt _ | VBool _ | VFloat _ => false
  | _ => true
  end.


(** A character that [a2b_base64] looks at: one of the alphabet, or the
    padding. *)
Definition significant (c : Z) : bool :=
  (c =? 61) || match Base64.a2b c with Some _ => true | None => false end.

(** The same event delivered once for each of [ambs]. *)
Definition redeliveries (event : value) (ambs : list Ambient) : list (Ambient * value) :=
  (λ amb, (amb, event)) <$> ambs.

(** The record of a turn, by what was drawn for it. *)
Definition record_of (t : Producer.Tick) (age amount : Z) (bank : list Z) : value :=
  VDict [ (py "transactionId", VStr (Producer.uuid4 t));
          (py "name", VStr (Producer.fake_name t));
          (py "age", VInt age);
          (py "address", VStr (Producer.fake_address t));
          (py "city", VStr (Producer.fake_city t));
          (py "state", VStr (Producer.fake_state t));
          (py "transaction", VInt amount);
          (py "bankId", VStr bank);
          (py "createdAt", VStr (datetime_str (Producer.tick_now t))) ].

(** What the handler stores for the record of a turn. *)
Definition inspected_record (t : Producer.Tick) (amount : Z) (bank : list Z)
    (now : datetime) : list (list Z * value) :=
  [ (py "transactionId", VStr (Producer.uuid4 t));
    (py "name", VStr (Producer.fake_name t));
    (py "city", VStr (Producer.fake_city t));
    (py "transaction", VInt amount);
    (py "bankId", VStr bank);
    (py "createdAt", VStr (datetime_str (Producer.tick_now t)));
    (py "customEnrichment", VInt (amount + 500));
    (py "inspectedAt", VStr (datetime_str now)) ].

(** The strings drawn for a turn are text. *)
Definition tick_text (t : Producer.Tick) : bool :=
  Contract.text (Producer.uuid4 t) && Contract.text (Producer.fake_name t)
  && Contract.text (Producer.fake_address t) && Contract.text (Producer.fake_city t)
  && Contract.text (Producer.fake_state t).

(** The stream and the partition key of each record appended. *)
Definition destinations (tr : list Producer.Action) : list (list Z * list Z) :=
  omap (λ a, match a with Producer.PutRecord s _ k => Some (s, k) | _ => None end) tr.

(** How many times the script slept for one second. *)
Definition pauses (tr : list Producer.Action) : nat :=
  length (omap (λ a, match a with
                     | Producer.Sleep s => if s =? 1 then Some a else None
                     | _ => None
                     end) tr).

(** How many times the script slept for thirty seconds. *)
Definition waits (tr : list Producer.Action) : nat :=
  length (omap (λ a, match a with
                     | Producer.Sleep s => if s =? 30 then Some a else None
                     | _ => None
                     end) tr).

(** The start call is accepted, or refused because the application runs. *)
Definition starts (b : Producer.Boot) : bool :=
  match Producer.start_outcome b with
  | None => true
  | Some e => Producer.ResourceInUseException e
  end.

(** *** Inputs at which the further properties are shown *)

(** A topic that does not answer, and a store that does not. *)
Definition topic_down : Ambient :=
  {| now := Scenario.a_time; put_fault := None;
     publish_fault := Some (ClientError "InternalError") |}.

Definition store_down : Ambient :=
  {| now := Scenario.a_later_time;
     put_fault := Some (ClientError "ProvisionedThroughputExceededException");
     publish_fault := None |}.

(** A handler that was not told its topic. *)
Definition an_environ_without_topic : gmap (list Z) (list Z) :=
  {[ py "TABLE_NAME" := py "abnormalities" ]}.

(** A table that holds the record of the scenario as it came, not yet
    inspected. *)
Definition a_world_with_draft : World :=
  {| tables := {[ py "abnormalities"
                  := {[ py "t1" := Contract.to_dict Scenario.scenario_record ]} ]};
     topics := topics Scenario.a_world;
     calls := [] |}.

Definition another_record : Contract.DomainRecord :=
  {| Contract.transactionId := py "t2";
     Contract.name := py "Bob";
     Contract.city := py "Paris";
     Contract.transaction := 2500;
     Contract.bankId := py "BANKBBXX";
     Contract.createdAt := py "2024-01-01T00:00:01" |}.

(** The payload the transport makes of a value. *)
Definition payload_of (v : value) : list Z :=
  Base64.b64encode (Json.json_dumps Scenario.a_float_repr v).

(** A record without [name] and [bankId]. *)
Definition lacking_two : list (list Z * value) :=
  [ (py "transactionId", VStr (py "t1"));
    (py "city", VStr (py "NYC"));
    (py "transaction", VInt 1000);
    (py "createdAt", VStr (py "2024-01-01T00:00:00")) ].

(** A record whose amount is a string. *)
Definition amount_as_text : list (list Z * value) :=
  [ (py "transactionId", VStr (py "t1"));
    (py "name", VStr (py "Alice"));
    (py "city", VStr (py "NYC"));
    (py "transaction", VStr (py "1000"));
    (py "bankId", VStr (py "BANKAAXX"));
    (py "createdAt", VStr (py "2024-01-01T00:00:00")) ].

(** The JSON text of a record whose amount has a fraction. *)
Definition float_text : list Z :=
  [123] ++ Scenario.quoted "transactionId" ++ [58] ++ Scenario.quoted "t1" ++ [44]
  ++ Scenario.quoted "name" ++ [58] ++ Scenario.quoted "Alice" ++ [44]
  ++ Scenario.quoted "city" ++ [58] ++ Scenario.quoted "NYC" ++ [44]
  ++ Scenario.quoted "transaction" ++ [58] ++ py "10.5" ++ [44]
  ++ Scenario.quoted "bankId" ++ [58] ++ Scenario.quoted "BANKAAXX" ++ [44]
  ++ Scenario.quoted "createdAt" ++ [58] ++ Scenario.quoted "2024-01-01T00:00:00"
  ++ [125].

(** A record whose fields are not what the contract says, with a field the
    handler does not read. *)
Definition loose_record : list (list Z * value) :=
  [ (py "transactionId", VStr (py "t3"));
    (py "name", VInt 7);
    (py "city", VNone);
    (py "age", VInt 30);
    (py "transaction", VInt 5);
    (py "bankId", VList [VInt 1]);
    (py "createdAt", VBool true) ].

(** A payload with a line feed after each character. *)
Definition wrapped (s : list Z) : list Z := flat_map (λ c, [c; 10]) s.

(** A generator that starts the application, and one at the end of its
    input. *)
Definition boot_fresh : Producer.Boot :=
  {| Producer.start_outcome := None;
     Producer.stdin := Some (py "RootStream");
     Producer.swift := Scenario.a_swift |}.

Definition boot_no_input : Producer.Boot :=
  {| Producer.start_outcome := None;
     Producer.stdin := None;
     Producer.swift := Scenario.a_swift |}.

(** A turn whose record the stream refuses. *)
Definition a_tick_refused (n : Z) : Producer.Tick :=
  {| Producer.uuid4 := Producer.uuid4 (Scenario.a_tick n);
     Producer.fake_name := Producer.fake_name (Scenario.a_tick n);
     Producer.age_draw := Producer.age_draw (Scenario.a_tick n);
     Producer.fake_address := Producer.fake_address (Scenario.a_tick n);
     Producer.fake_city := Producer.fake_city (Scenario.a_tick n);
     Producer.fake_state := Producer.fake_state (Scenario.a_tick n);
     Producer.transaction_draw := Producer.transaction_draw (Scenario.a_tick n);
     Producer.bank_draw := Producer.bank_draw (Scenario.a_tick n);
     Producer.tick_now := Producer.tick_now (Scenario.a_tick n);
     Producer.put_record_outcome
     := Raise (ClientError "ProvisionedThroughputExceededException") |}.

(** The variables of the generator when it enters its loop. *)
Definition a_globals : Producer.Globals :=
  {| Producer.rootSteamName := py "RootStream";
     Producer.banks := Producer.make_banks Scenario.boot_in_use;
     Producer.payload := None;
     Producer.response := None |}.

End More.

(** * Proofs *)

Import Aux.

(** Replace the [str] literals of the goal by their code points. *)
Ltac eval_py :=
  repeat match goal with
  | |- context [py ?s] =>
      let t := eval vm_compute in (py s) in change (py s) with t
  end.

Module AuxFacts.

Lemma all_from_spec n : ∀ x f y,
  all_from n x f = true → x ≤ y < x + Z.of_nat n → f y = true.
Proof.
  induction n as [|n IH]; intros x f y H Hy; [lia|].
  cbn [all_from] in H. destruct (f x) eqn:Hx; [|done].
  destruct (Z.eq_dec x y) as [<-|]; [done|].
  apply (IH (x + 1)); [done | lia].
Qed.

Lemma Ok_inj {A} (a b : A) : Ok a = Ok b → a = b.
Proof. congruence. Qed.

End AuxFacts.

(** ** base64 round trip *)

Module Base64Facts.
Import Base64 AuxFacts.

Lemma a2b_b2a i : sextet i → a2b (b2a i) = Some i.
Proof.
  intros Hi.
  assert (H : all_from 64 0 (λ i, bool_decide (a2b (b2a i) = Some i)) = true)
    by (vm_compute; reflexivity).
  eapply all_from_spec in H; [|exact Hi]. by apply bool_decide_eq_true in H.
Qed.

Lemma b2a_not_pad i : sextet i → (b2a i =? 61) = false.
Proof.
  intros Hi.
  assert (H : all_from 64 0 (λ i, negb (b2a i =? 61)) = true) by (vm_compute; reflexivity).
  eapply all_from_spec in H; [|exact Hi]. by apply negb_true_iff in H.
Qed.

Lemma b2a_ascii i : sextet i → is_ascii (b2a i) = true.
Proof.
  intros Hi.
  assert (H : all_from 64 0 (λ i, is_ascii (b2a i)) = true) by (vm_compute; reflexivity).
  by eapply all_from_spec in H.
Qed.

Lemma group_ok_all a b : octet a → octet b → group_ok a b = true.
Proof.
  intros Ha Hb.
  assert (H : all_from 256 0 (λ a, all_from 256 0 (group_ok a)) = true)
    by (vm_compute; reflexivity).
  eapply all_from_spec in H; [|exact Ha].
  by eapply all_from_spec in H.
Qed.

Ltac group_facts a b :=
  let H := fresh "G" in
  pose proof (group_ok_all a b ltac:(assumption) ltac:(assumption)) as H;
  unfold group_ok in H; cbv zeta in H;
  rewrite !andb_true_iff, ?Z.eqb_eq, ?Z.leb_le, ?Z.ltb_lt in H;
  destruct_and! H.

Lemma a2b_loop_char d r q l p :
  sextet d →
  a2b_loop (b2a d :: r) q l p =
    if q =? 0 then a2b_loop r 1 d 0
    else if q =? 1 then
      cons (Z.lor (Z.shiftl l 2) (Z.shiftr d 4)) <$> a2b_loop r 2 (Z.land d 15) 0
    else if q =? 2 then
      cons (Z.lor (Z.shiftl l 4) (Z.shiftr d 2)) <$> a2b_loop r 3 (Z.land d 3) 0
    else cons (Z.lor (Z.shiftl l 6) d) <$> a2b_loop r 0 0 0.
Proof.
  intros Hd. cbn [a2b_loop]. by rewrite b2a_not_pad, a2b_b2a.
Qed.

Lemma a2b_loop_b64encode n : ∀ bs,
  (length bs ≤ n)%nat → Forall octet bs → a2b_loop (b64encode bs) 0 0 0 = Ok bs.
Proof.
  induction n as [|n IH]; intros bs Hn Hbs.
  { destruct bs; [done | simpl in Hn; lia]. }
  destruct bs as [|a [|b [|c r]]]; [done | | |].
  - apply Forall_cons in Hbs as [Ha _].
    group_facts a a. cbn [b64encode].
    rewrite !a2b_loop_char by (unfold sextet; lia). cbn.
    by match goal with H : _ = a |- _ => rewrite H end.
  - apply Forall_cons in Hbs as [Ha Hbs]. apply Forall_cons in Hbs as [Hb _].
    group_facts a b. cbn [b64encode].
    rewrite !a2b_loop_char by (unfold sextet; lia). cbn.
    repeat match goal with H : _ = _ |- _ => rewrite H end. done.
  - apply Forall_cons in Hbs as [Ha Hbs]. apply Forall_cons in Hbs as [Hb Hbs].
    apply Forall_cons in Hbs as [Hc Hr].
    group_facts a b. group_facts b c. cbn [b64encode].
    rewrite !a2b_loop_char by (unfold sextet; lia). cbn [Z.eqb].
    rewrite IH by (done || (simpl in Hn; lia)). cbn.
    repeat match goal with H : _ = _ |- _ => rewrite H end. done.
Qed.

Lemma b64encode_ascii n : ∀ bs,
  (length bs ≤ n)%nat → Forall octet bs → forallb is_ascii (b64encode bs) = true.
Proof.
  induction n as [|n IH]; intros bs Hn Hbs.
  { destruct bs; [done | simpl in Hn; lia]. }
  destruct bs as [|a [|b [|c r]]]; [done | | |].
  - apply Forall_cons in Hbs as [Ha _].
    group_facts a a. cbn [b64encode forallb].
    rewrite !b2a_ascii by (unfold sextet; lia). done.
  - apply Forall_cons in Hbs as [Ha Hbs]. apply Forall_cons in Hbs as [Hb _].
    group_facts a b. cbn [b64encode forallb].
    rewrite !b2a_ascii by (unfold sextet; lia). done.
  - apply Forall_cons in Hbs as [Ha Hbs]. apply Forall_cons in Hbs as [Hb Hbs].
    apply Forall_cons in Hbs as [Hc Hr].
    group_facts a b. group_facts b c. cbn [b64encode forallb].
    rewrite !b2a_ascii by (unfold sextet; lia).
    rewrite IH by (done || (simpl in Hn; lia)). done.
Qed.

(** Decoding what was encoded gives the octets back. *)
Lemma b64decode_b64encode bs :
  Forall octet bs → b64decode (VStr (b64encode bs)) = Ok bs.
Proof.
  intros Hbs. unfold b64decode.
  rewrite (b64encode_ascii (length bs)) by done.
  by apply (a2b_loop_b64encode (length bs)).
Qed.
End Base64Facts.

(** ** UTF-8 on ASCII *)

Module Utf8Facts.
Import Utf8 Base64.

Lemma utf8_encode_ascii s : forallb is_ascii s = true → utf8_encode s = Ok s.
Proof.
  induction s as [|c r IH]; [done|]. cbn [forallb]. intros [Hc Hr]%andb_true_iff.
  cbn [utf8_encode]. rewrite (IH Hr). unfold utf8_encode_char.
  unfold is_ascii in Hc. change 0x80 with 128. by rewrite Hc.
Qed.

Lemma utf8_decode_ascii s : forallb is_ascii s = true → utf8_decode s = Ok s.
Proof.
  induction s as [|c r IH]; [done|]. cbn [forallb]. intros [Hc Hr]%andb_true_iff.
  cbn [utf8_decode]. unfold is_ascii in Hc. change 0x80 with 128.
  by rewrite Hc, (IH Hr).
Qed.

Lemma ascii_octets s : forallb is_ascii s = true → Forall octet s.
Proof.
  intros H. apply Forall_forall. intros c Hc.
  rewrite forallb_forall in H. apply list_elem_of_In, H in Hc.
  unfold is_ascii in Hc. unfold octet. lia.
Qed.

End Utf8Facts.

(** ** Printing and reading integers *)

Module IntFacts.

Lemma digits_aux_app f : ∀ n acc, digits_aux f n acc = digits_aux f n [] ++ acc.
Proof.
  induction f as [|f IH]; intros n acc; cbn [digits_aux]; [done|].
  destruct (n <? 10); [done|].
  rewrite (IH _ (_ :: acc)), (IH _ [_]). by rewrite <- app_assoc.
Qed.

Lemma digits_value_snoc ds d : digits_value (ds ++ [d]) = digits_value ds * 10 + (d - 48).
Proof. unfold digits_value. by rewrite fold_left_app. Qed.

Lemma log2_div10 n : 10 ≤ n → Z.log2 (n / 10) ≤ Z.log2 n - 1.
Proof.
  intros Hn.
  assert (1 ≤ n / 10) by (apply Z.div_le_lower_bound; lia).
  assert (2 * (n / 10) ≤ n).
  { pose proof (Z.mul_div_le n 10). lia. }
  pose proof (Z.log2_double (n / 10) ltac:(lia)).
  pose proof (Z.log2_le_mono (2 * (n / 10)) n ltac:(lia)). lia.
Qed.

Lemma digits_aux_value f : ∀ n,
  0 ≤ n → Z.log2 n ≤ Z.of_nat f → digits_value (digits_aux f n []) = n.
Proof.
  induction f as [|f IH]; intros n Hn Hf; cbn [digits_aux].
  - assert (n < 2).
    { destruct (Z.lt_ge_cases n 2); [done|].
      pose proof (Z.log2_le_mono 2 n ltac:(lia)). change (Z.log2 2) with 1 in *. lia. }
    unfold digits_value. cbn. rewrite Z.mod_small by lia. lia.
  - destruct (Z.ltb_spec n 10).
    + unfold digits_value. cbn. rewrite Z.mod_small by lia. lia.
    + rewrite digits_aux_app, digits_value_snoc.
      rewrite IH.
      * pose proof (Z.div_mod n 10). lia.
      * apply Z.div_pos; lia.
      * pose proof (log2_div10 n). lia.
Qed.

Lemma digits_aux_digit f : ∀ n acc,
  forallb is_digit acc = true → forallb is_digit (digits_aux f n acc) = true.
Proof.
  assert (Hd : ∀ n, is_digit (48 + n mod 10) = true).
  { intros n. pose proof (Z.mod_pos_bound n 10). unfold is_digit. lia. }
  induction f as [|f IH]; intros n acc Hacc; cbn [digits_aux].
  - cbn. by rewrite Hd.
  - destruct (n <? 10); [cbn; by rewrite Hd|].
    apply IH. cbn. by rewrite Hd.
Qed.

Lemma digits_aux_head f : ∀ n acc,
  0 < n → Z.log2 n ≤ Z.of_nat f →
  ∃ d ds, digits_aux f n acc = d :: ds ∧ 49 ≤ d ≤ 57.
Proof.
  induction f as [|f IH]; intros n acc Hn Hf; cbn [digits_aux].
  - assert (n < 2).
    { destruct (Z.lt_ge_cases n 2); [done|].
      pose proof (Z.log2_le_mono 2 n ltac:(lia)). change (Z.log2 2) with 1 in *. lia. }
    eexists _, _. split; [done|]. rewrite Z.mod_small by lia. lia.
  - destruct (Z.ltb_spec n 10).
    + eexists _, _. split; [done|]. rewrite Z.mod_small by lia. lia.
    + apply IH.
      * apply Z.div_str_pos; lia.
      * pose proof (log2_div10 n). lia.
Qed.

Lemma digits_value_digits n : 0 ≤ n → digits_value (digits n) = n.
Proof.
  intros Hn. unfold digits. apply digits_aux_value; [done|].
  pose proof (Z.log2_nonneg n). lia.
Qed.

Lemma digits_digit n : forallb is_digit (digits n) = true.
Proof. unfold digits. by apply digits_aux_digit. Qed.

Lemma digits_head n :
  0 < n → ∃ d ds, digits n = d :: ds ∧ 49 ≤ d ≤ 57.
Proof.
  intros Hn. unfold digits. apply digits_aux_head; [done|].
  pose proof (Z.log2_nonneg n). lia.
Qed.

Lemma digits_nonempty n : digits n ≠ [].
Proof.
  unfold digits. generalize (Z.to_nat (Z.log2 n)). intros f.
  rewrite digits_aux_app. destruct f; cbn [digits_aux]; [done|].
  destruct (n <? 10); [done|]. rewrite digits_aux_app.
  intros H. by apply app_eq_nil in H as [[? ?]%app_eq_nil _].
Qed.

End IntFacts.

(** ** Strings *)

Module StringFacts.
Import Json Contract AuxFacts.

Lemma hex4_escape_u c :
  0 ≤ c < 0x10000 →
  hex4 (hexdigit (Z.land (Z.shiftr c 12) 15)) (hexdigit (Z.land (Z.shiftr c 8) 15))
       (hexdigit (Z.land (Z.shiftr c 4) 15)) (hexdigit (Z.land c 15)) = Some c.
Proof.
  intros Hc.
  assert (H : all_from (Z.to_nat 65536) 0 escape_u_ok = true) by (vm_compute; reflexivity).
  eapply all_from_spec in H; [by apply bool_decide_eq_true in H | lia].
Qed.

Lemma high_ok_all x : 0 ≤ x < 1024 → high_ok x = true.
Proof.
  intros Hx.
  assert (H : all_from (Z.to_nat 1024) 0 high_ok = true) by (vm_compute; reflexivity).
  eapply all_from_spec in H; [done | lia].
Qed.

Lemma low_ok_all y : 0 ≤ y < 1024 → low_ok y = true.
Proof.
  intros Hy.
  assert (H : all_from (Z.to_nat 1024) 0 low_ok = true) by (vm_compute; reflexivity).
  eapply all_from_spec in H; [done | lia].
Qed.

Lemma split_at_10 v : Z.lor (Z.shiftl (Z.shiftr v 10) 10) (Z.land v 0x3FF) = v.
Proof.
  change 0x3FF with (Z.ones 10).
  rewrite <- Z.ldiff_ones_r by lia. apply Z.lor_ldiff_and.
Qed.

(** The two escapes of a character outside the basic plane decode to it. *)
Lemma surrogate_pair c :
  0x10000 ≤ c ≤ 0x10FFFF →
  let v := c - 0x10000 in
  let hi := Z.lor 0xD800 (Z.land (Z.shiftr v 10) 0x3FF) in
  let lo := Z.lor 0xDC00 (Z.land v 0x3FF) in
  is_high_surrogate hi = true ∧ is_low_surrogate lo = true
  ∧ join_surrogates hi lo = c.
Proof.
  intros Hc v hi lo.
  assert (Hx : 0 ≤ Z.shiftr v 10 < 1024).
  { rewrite Z.shiftr_div_pow2 by lia. change (2 ^ 10) with 1024. subst v.
    split; [apply Z.div_pos; lia | apply Z.div_lt_upper_bound; lia]. }
  assert (Hy : 0 ≤ Z.land v 0x3FF < 1024).
  { change 0x3FF with (Z.ones 10). rewrite Z.land_ones by lia.
    apply Z.mod_pos_bound. lia. }
  pose proof (high_ok_all _ Hx) as [H1 H2%Z.eqb_eq]%andb_true_iff.
  pose proof (low_ok_all _ Hy) as [H3 H4%Z.eqb_eq]%andb_true_iff.
  split; [done|]. split; [done|].
  unfold join_surrogates. fold hi in H2. fold lo in H4. rewrite H2, H4.
  rewrite split_at_10. subst v. lia.
Qed.


Lemma scanstring_quote r : scanstring (34 :: r) = Ok ([], r).
Proof. done. Qed.

Lemma scanstring_plain c r :
  c ≠ 34 → c ≠ 92 → 32 ≤ c → scanstring (c :: r) = push c <$> scanstring r.
Proof.
  intros H1 H2 H3. cbn [scanstring].
  destruct (Z.eqb_spec c 34); [done|]. destruct (Z.eqb_spec c 92); [done|].
  replace ((0 <=? c) && (c <=? 31)) with false by lia. done.
Qed.

Lemma scanstring_short e x r :
  e ≠ 117 → unescape e = Some x → scanstring (92 :: e :: r) = push x <$> scanstring r.
Proof.
  intros He Hx. cbn [scanstring]. change (92 =? 34) with false. change (92 =? 92) with true.
  cbv iota. destruct (Z.eqb_spec e 117); [done|]. by rewrite Hx.
Qed.

(** An escape that is not a high surrogate stands for itself, whatever
    follows. *)
Lemma scanstring_u h1 h2 h3 h4 u r :
  hex4 h1 h2 h3 h4 = Some u → is_high_surrogate u = false →
  scanstring (92 :: 117 :: h1 :: h2 :: h3 :: h4 :: r) = push u <$> scanstring r.
Proof.
  intros Hu Hhi. cbn [scanstring]. change (92 =? 34) with false.
  change (92 =? 92) with true. change (117 =? 117) with true. cbv iota.
  rewrite Hu, Hhi. cbn [andb].
  destruct r as [|? [|? [|? [|? [|? [|? [|? ?]]]]]]]; done.
Qed.

Lemma scanstring_pair h1 h2 h3 h4 g1 g2 g3 g4 hi lo x r :
  hex4 h1 h2 h3 h4 = Some hi → is_high_surrogate hi = true →
  hex4 g1 g2 g3 g4 = Some lo → is_low_surrogate lo = true →
  scanstring (92 :: 117 :: h1 :: h2 :: h3 :: h4 :: 92 :: 117 :: g1 :: g2 :: g3 :: g4 :: x :: r)
  = push (join_surrogates hi lo) <$> scanstring (x :: r).
Proof.
  intros Hhi Hh Hlo Hl. cbn [scanstring]. change (92 =? 34) with false.
  change (92 =? 92) with true. change (117 =? 117) with true. cbv iota.
  rewrite Hhi, Hh. cbn [andb]. cbv iota. by rewrite Hlo, Hl.
Qed.

Lemma scalar_spec c :
  scalar c = true → 0 ≤ c ≤ 0x10FFFF ∧ ¬ (0xD800 ≤ c ≤ 0xDFFF).
Proof. unfold scalar, Utf8.is_surrogate. lia. Qed.

Lemma scanstring_escape_char c x r :
  scalar c = true →
  scanstring (escape_char c ++ x :: r) = push c <$> scanstring (x :: r).
Proof.
  intros [Hc Hs]%scalar_spec. unfold escape_char.
  destruct (Z.eqb_spec c 34) as [->|]; [by apply scanstring_short|].
  destruct (Z.eqb_spec c 92) as [->|]; [by apply scanstring_short|].
  destruct (Z.eqb_spec c 10) as [->|]; [by apply scanstring_short|].
  destruct (Z.eqb_spec c 13) as [->|]; [by apply scanstring_short|].
  destruct (Z.eqb_spec c 9) as [->|]; [by apply scanstring_short|].
  destruct (Z.eqb_spec c 12) as [->|]; [by apply scanstring_short|].
  destruct (Z.eqb_spec c 8) as [->|]; [by apply scanstring_short|].
  destruct ((32 <=? c) && (c <=? 126)) eqn:Hp.
  { apply scanstring_plain; lia. }
  destruct (Z.ltb_spec c 0x10000).
  - unfold escape_u. cbn [app]. apply scanstring_u.
    + apply hex4_escape_u. lia.
    + unfold is_high_surrogate. lia.
  - destruct (surrogate_pair c ltac:(lia)) as (Hh & Hl & Hj). cbv zeta.
    unfold escape_u. cbn [app].
    etrans; [apply scanstring_pair; [|exact Hh| |exact Hl]; apply hex4_escape_u|].
    + unfold is_high_surrogate in Hh. lia.
    + unfold is_low_surrogate in Hl. lia.
    + by rewrite Hj.
Qed.

(** Scanning the escaped form of a text up to its closing quote gives the
    text back. *)
Lemma scanstring_encode s rest :
  text s = true →
  scanstring (flat_map escape_char s ++ 34 :: rest) = Ok (s, rest).
Proof.
  induction s as [|c s IH]; [done|].
  cbn [text forallb]. intros [Hc Hs]%andb_true_iff.
  cbn [flat_map]. rewrite <- app_assoc.
  destruct (flat_map escape_char s ++ 34 :: rest) as [|x r] eqn:E.
  { by destruct (flat_map escape_char s). }
  rewrite scanstring_escape_char by done. by rewrite IH.
Qed.

End StringFacts.

(** ** Numbers *)

Module NumberFacts.
Import Json Contract IntFacts.

Lemma delimited_head rest :
  delimited rest →
  match rest with
  | [] => True
  | c :: _ => is_digit c = false ∧ c ≠ 46 ∧ c ≠ 101 ∧ c ≠ 69 ∧ is_ws c = false
  end.
Proof.
  destruct rest as [|c r]; [done|]. cbn. unfold is_digit, is_ws. lia.
Qed.

Lemma span_digits_app ds rest :
  forallb is_digit ds = true → delimited rest → span_digits (ds ++ rest) = (ds, rest).
Proof.
  intros Hds Hrest. induction ds as [|d ds IH].
  - apply delimited_head in Hrest. destruct rest as [|c r]; [done|].
    cbn. by destruct Hrest as [-> _].
  - cbn in Hds. apply andb_true_iff in Hds as [Hd Hds].
    cbn. rewrite Hd, (IH Hds). done.
Qed.

Lemma scan_frac_delimited rest : delimited rest → scan_frac rest = ([], rest).
Proof.
  intros H%delimited_head. destruct rest as [|c [|d r]]; [done..|].
  cbn. destruct H as (_ & H & _). destruct (Z.eqb_spec c 46); done.
Qed.

Lemma scan_exp_delimited rest : delimited rest → scan_exp rest = ([], rest).
Proof.
  intros H%delimited_head. destruct rest as [|c r]; [done|].
  cbn. destruct H as (_ & _ & H1 & H2 & _).
  destruct (Z.eqb_spec c 101); [done|]. destruct (Z.eqb_spec c 69); done.
Qed.

(** The number pattern on the digits of a positive integer. *)
Lemma match_number_digits (neg : bool) m rest :
  0 ≤ m → delimited rest →
  match_number ((if neg then [45] else []) ++ digits m ++ rest)
  = Ok (VInt (if neg then - m else m), rest).
Proof.
  intros Hm Hrest.
  assert (Hint : ∃ d ds, digits m = d :: ds ∧ is_digit d = true
            ∧ (if (49 <=? d) && (d <=? 57) then Some (push d (span_digits (ds ++ rest)))
               else if d =? 48 then Some ([48], ds ++ rest) else None)
              = Some (digits m, rest)).
  { destruct (Z.eq_dec m 0) as [->|].
    - exists 48, []. done.
    - destruct (digits_head m ltac:(lia)) as (d & ds & E & Hd).
      exists d, ds. pose proof (digits_digit m) as Hall. rewrite E in Hall.
      cbn in Hall. apply andb_true_iff in Hall as [Hd' Hds].
      split; [done|]. split; [done|].
      replace ((49 <=? d) && (d <=? 57)) with true by lia.
      rewrite span_digits_app by done. by rewrite E. }
  destruct Hint as (d & ds & E & Hd & Hint).
  unfold match_number.
  assert (Hsg : (match (if neg then [45] else []) ++ digits m ++ rest with
                 | c :: r => if c =? 45 then (true, r) else (false, c :: r)
                 | [] => (false, [])
                 end) = (neg, digits m ++ rest)).
  { destruct neg; [done|]. rewrite E. cbn.
    destruct (Z.eqb_spec d 45) as [->|]; done. }
  match goal with |- context [match ?s with [] => (false, ?s') | c :: r => _ end] =>
    replace (match s with [] => (false, s') | c :: r => if c =? 45 then (true, r) else (false, s) end)
      with (neg, digits m ++ rest) end.
  2:{ rewrite <- Hsg. by destruct ((if neg then [45] else []) ++ digits m ++ rest). }
  cbn [fst snd]. rewrite E. cbn [app]. rewrite Hint.
  rewrite scan_frac_delimited by done. cbn [fst snd].
  rewrite scan_exp_delimited by done. cbn [fst snd].
  rewrite digits_value_digits by done. done.
Qed.

Lemma match_number_int n rest :
  delimited rest → match_number (int_repr n ++ rest) = Ok (VInt n, rest).
Proof.
  intros Hrest. unfold int_repr. destruct (Z.ltb_spec n 0).
  - pose proof (match_number_digits true (- n) rest ltac:(lia) Hrest) as H'.
    by rewrite Z.opp_involutive in H'.
  - by apply (match_number_digits false n rest).
Qed.

Lemma int_repr_head n :
  ∃ c tl, int_repr n = c :: tl ∧ (c = 45 ∨ is_digit c = true)
          ∧ (c = 45 → ∃ d tl', tl = d :: tl' ∧ is_digit d = true).
Proof.
  unfold int_repr. destruct (Z.ltb_spec n 0).
  - destruct (digits_head (- n) ltac:(lia)) as (d & ds & E & Hd).
    exists 45, (digits (- n)). split; [done|]. split; [by left|].
    intros _. exists d, ds. split; [done|]. unfold is_digit. lia.
  - pose proof (digits_digit n) as Hall. pose proof (digits_nonempty n).
    destruct (digits n) as [|d ds]; [done|]. cbn in Hall.
    apply andb_true_iff in Hall as [Hd _].
    exists d, ds. split; [done|]. split; [by right|].
    intros ->. done.
Qed.

Lemma strip_prefix_ne c lit c' s : c ≠ c' → strip_prefix (c :: lit) (c' :: s) = None.
Proof. intros H. cbn [strip_prefix]. by destruct (Z.eqb_spec c c'). Qed.

Lemma strip_prefix_eq c lit s : strip_prefix (c :: lit) (c :: s) = strip_prefix lit s.
Proof. cbn [strip_prefix]. by rewrite Z.eqb_refl. Qed.

Lemma scan_atom_int n rest :
  delimited rest → scan_atom (int_repr n ++ rest) = Ok (VInt n, rest).
Proof.
  intros Hrest. rewrite <- (match_number_int n rest Hrest).
  destruct (int_repr_head n) as (c & tl & E & Hc & Htl). rewrite E.
  unfold scan_atom. eval_py. cbn [app].
  destruct Hc as [->|Hc].
  - destruct (Htl eq_refl) as (d & tl' & -> & Hd). unfold is_digit in Hd. cbn [app].
    rewrite strip_prefix_eq. rewrite !strip_prefix_ne by lia. done.
  - unfold is_digit in Hc. rewrite !strip_prefix_ne by lia. done.
Qed.

Lemma scan_once_int fuel n rest :
  delimited rest → scan_once (S fuel) (int_repr n ++ rest) = Ok (VInt n, rest).
Proof.
  intros Hrest. rewrite <- (scan_atom_int n rest Hrest).
  destruct (int_repr_head n) as (c & tl & E & Hc & _). rewrite E.
  cbn [app scan_once].
  assert (c ≠ 34 ∧ c ≠ 123 ∧ c ≠ 91) as (? & ? & ?).
  { unfold is_digit in Hc. lia. }
  destruct (Z.eqb_spec c 34); [done|]. destruct (Z.eqb_spec c 123); [done|].
  destruct (Z.eqb_spec c 91); done.
Qed.

End NumberFacts.

(** ** [json.loads] after [json.dumps] *)

Module JsonFacts.
Import Json Contract IntFacts StringFacts NumberFacts.

Section Roundtrip.

Variable float_repr : pyfloat → list Z.

Local Abbreviation dumps := (json_dumps float_repr).
Local Abbreviation items := (dumps_items float_repr).
Local Abbreviation members := (dumps_members float_repr).
Local Abbreviation roundtrips := (Aux.roundtrips float_repr).

Lemma value_ind' (P : value → Prop) :
  P VNone → (∀ b, P (VBool b)) → (∀ n, P (VInt n)) → (∀ f, P (VFloat f)) →
  (∀ s, P (VStr s)) →
  (∀ l, Forall P l → P (VList l)) →
  (∀ d, Forall (λ kv, P kv.2) d → P (VDict d)) →
  ∀ v, P v.
Proof.
  intros HN HB HI HF HS HL HD.
  fix IH 1. intros [|b|n|f|s|l|d];
    [exact HN | apply HB | apply HI | apply HF | apply HS | |].
  - apply HL. induction l as [|x l IHl]; constructor; [apply IH | apply IHl].
  - apply HD. induction d as [|[k x] d IHd]; constructor; [apply IH | apply IHd].
Qed.

Lemma dumps_list l : dumps (VList l) = 91 :: items l ++ [93].
Proof. reflexivity. Qed.

Lemma dumps_dict d : dumps (VDict d) = 123 :: members d ++ [125].
Proof. reflexivity. Qed.

Lemma dumps_str s : dumps (VStr s) = 34 :: flat_map escape_char s ++ [34].
Proof. reflexivity. Qed.

Lemma value_start_facts c :
  value_start c → is_ws c = false ∧ c ≠ 93 ∧ c ≠ 125 ∧ c ≠ 0xFEFF.
Proof. unfold value_start, is_ws, is_digit. lia. Qed.

Lemma dumps_head v :
  plain v = true → ∃ c tl, dumps v = c :: tl ∧ value_start c.
Proof.
  unfold value_start. destruct v as [|[]|n| |s|l|d]; intros Hv; try done.
  - exists 110, (py "ull"). split; [done|tauto].
  - exists 116, (py "rue"). split; [done|tauto].
  - exists 102, (py "alse"). split; [done|tauto].
  - destruct (int_repr_head n) as (c & tl & E & Hc & _).
    exists c, tl. split; [done|]. tauto.
  - eexists _, _. split; [apply dumps_str|]. tauto.
  - eexists _, _. split; [apply dumps_list|]. tauto.
  - eexists _, _. split; [apply dumps_dict|]. tauto.
Qed.

Lemma skip_ws_head c r : is_ws c = false → skip_ws (c :: r) = c :: r.
Proof. intros H. cbn. by rewrite H. Qed.

Lemma skip_ws_space r : skip_ws (32 :: r) = skip_ws r.
Proof. done. Qed.

Lemma skip_ws_dumps v rest : plain v = true → skip_ws (dumps v ++ rest) = dumps v ++ rest.
Proof.
  intros (c & tl & -> & Hc%value_start_facts)%dumps_head.
  apply skip_ws_head. tauto.
Qed.

Lemma dumps_nonempty v : plain v = true → (1 ≤ length (dumps v))%nat.
Proof. intros (c & tl & -> & _)%dumps_head. cbn. lia. Qed.

Lemma dict_set_fresh acc k v : k ∉ acc.*1 → dict_set acc k v = acc ++ [(k, v)].
Proof.
  induction acc as [|[k' v'] acc IH]; [done|]. cbn. intros Hk.
  apply not_elem_of_cons in Hk as [Hne Hk].
  unfold str_eqb. rewrite bool_decide_eq_false_2 by done. by rewrite IH.
Qed.

Lemma scan_elements_items l : ∀ acc fuel rest,
  l ≠ [] → Forall roundtrips l → forallb plain l = true →
  (1 + length (items l) ≤ fuel)%nat →
  scan_elements fuel acc (items l ++ 93 :: rest) = Ok (VList (acc ++ l), rest).
Proof.
  induction l as [|x l IH]; intros acc fuel rest Hne Hall Hpl Hfuel; [done|].
  apply Forall_cons in Hall as [Hx Hall].
  cbn [forallb] in Hpl. apply andb_true_iff in Hpl as [Hpx Hpl].
  destruct fuel as [|f]; [lia|].
  destruct l as [|y l].
  - cbn [dumps_items] in *. cbn [scan_elements].
    rewrite (Hx Hpx) by (done || lia || (right; right; done) || cbn; tauto).
    cbn. done.
  - change (items (x :: y :: l)) with (dumps x ++ [44; 32] ++ items (y :: l)) in *.
    rewrite length_app in Hfuel. cbn [length app] in Hfuel.
    rewrite <- app_assoc. cbn [app scan_elements].
    rewrite (Hx Hpx) by (lia || cbn; tauto).
    cbn [mbind result_mbind result_bind].
    rewrite (skip_ws_head 44) by done.
    change (44 =? 93) with false. change (44 =? 44) with true. cbv iota.
    rewrite skip_ws_space.
    assert (Hsk : skip_ws (items (y :: l) ++ 93 :: rest) = items (y :: l) ++ 93 :: rest).
    { cbn [forallb] in Hpl. apply andb_true_iff in Hpl as [Hpy _].
      destruct l; cbn [dumps_items]; rewrite <- ?app_assoc; by apply skip_ws_dumps. }
    rewrite Hsk. rewrite (IH (acc ++ [x])) by (done || lia).
    by rewrite <- app_assoc.
Qed.


Lemma scan_members_step f acc k x tail :
  text k = true → roundtrips x → plain x = true → k ∉ acc.*1 →
  (length (dumps x) ≤ f)%nat → delimited tail →
  scan_members (S f) acc
    (encode_basestring_ascii k ++ [58; 32] ++ dumps x ++ tail)
  = match skip_ws tail with
    | c :: r4 =>
        if c =? 125 then Ok (VDict (acc ++ [(k, x)]), r4)
        else if c =? 44 then scan_members f (acc ++ [(k, x)]) (skip_ws r4)
        else Raise JSONDecodeError
    | [] => Raise JSONDecodeError
    end.
Proof.
  intros Hk Hx Hpx Hfresh Hf Htail.
  unfold encode_basestring_ascii. rewrite <- !app_assoc. cbn [app scan_members].
  change (34 =? 34) with true. cbv iota.
  rewrite scanstring_encode by done. cbn [mbind result_mbind result_bind].
  rewrite (skip_ws_head 58) by done. change (58 =? 58) with true. cbv iota.
  rewrite skip_ws_space, skip_ws_dumps by done.
  rewrite (Hx Hpx) by done. cbn [mbind result_mbind result_bind].
  by rewrite dict_set_fresh.
Qed.

Lemma members_head d :
  d ≠ [] → ∃ tl, members d = 34 :: tl.
Proof.
  destruct d as [|[k x] [|kv d]]; [done|..]; intros _; eexists; reflexivity.
Qed.

Lemma scan_members_dumps d : ∀ acc fuel rest,
  d ≠ [] → Forall (λ kv, roundtrips kv.2) d →
  forallb (λ kv, text kv.1 && plain kv.2) d = true →
  NoDup (acc.*1 ++ d.*1) →
  (1 + length (members d) ≤ fuel)%nat →
  scan_members fuel acc (members d ++ 125 :: rest) = Ok (VDict (acc ++ d), rest).
Proof.
  induction d as [|[k x] d IH]; intros acc fuel rest Hne Hall Hpl Hnd Hfuel; [done|].
  apply Forall_cons in Hall as [Hx Hall]. cbn [snd] in Hx.
  cbn [forallb fst snd] in Hpl.
  apply andb_true_iff in Hpl as [[Hk Hpx]%andb_true_iff Hpl].
  assert (Hfresh : k ∉ acc.*1).
  { cbn in Hnd. apply NoDup_app in Hnd as (_ & Hd & _).
    intros Hin. apply (Hd _ Hin). by left. }
  destruct fuel as [|f]; [lia|].
  destruct d as [|kv d].
  - cbn [dumps_members] in *. rewrite !length_app in Hfuel.
    rewrite <- !app_assoc.
    rewrite scan_members_step by (done || lia || cbn; tauto).
    rewrite (skip_ws_head 125) by done. done.
  - change (members ((k, x) :: kv :: d))
      with (encode_basestring_ascii k ++ [58; 32] ++ dumps x ++ [44; 32] ++ members (kv :: d))
      in *.
    rewrite !length_app in Hfuel. cbn [length] in Hfuel.
    rewrite <- !app_assoc.
    rewrite scan_members_step by (done || lia || cbn; tauto).
    cbn [app]. rewrite (skip_ws_head 44) by done.
    change (44 =? 125) with false. change (44 =? 44) with true. cbv iota.
    rewrite skip_ws_space.
    destruct (members_head (kv :: d) ltac:(done)) as [tl Etl].
    rewrite Etl in *. cbn [app]. rewrite (skip_ws_head 34) by done.
    change (34 :: tl ++ 125 :: rest) with ((34 :: tl) ++ 125 :: rest).
    rewrite <- Etl in *.
    rewrite (IH (acc ++ [(k, x)])); [by rewrite <- app_assoc | done..| |lia].
    rewrite fmap_app, <- app_assoc. done.
Qed.

(** Scanning the text of a value gives the value back and stops right
    after it. *)
Lemma scan_once_dumps v : roundtrips v.
Proof.
  induction v as [|b|n|f|s|l IH|d IH] using value_ind';
    intros Hpl fuel rest Hfuel Hrest.
  - destruct fuel as [|fuel]; [cbn in Hfuel; lia|]. done.
  - destruct fuel as [|fuel]; [destruct b; cbn in Hfuel; lia|]. by destruct b.
  - destruct fuel as [|fuel]; [|by apply scan_once_int].
    pose proof (dumps_nonempty (VInt n) eq_refl). lia.
  - done.
  - destruct fuel as [|fuel]; [cbn in Hfuel; lia|].
    rewrite dumps_str. cbn [app]. rewrite <- app_assoc. cbn [app scan_once].
    change (34 =? 34) with true. cbv iota.
    cbn [plain] in Hpl. by rewrite scanstring_encode.
  - rewrite dumps_list in *. cbn [length] in Hfuel. rewrite length_app in Hfuel.
    cbn [length] in Hfuel.
    destruct fuel as [|fuel]; [lia|].
    cbn [app]. rewrite <- app_assoc. cbn [app scan_once].
    change (91 =? 34) with false. change (91 =? 123) with false.
    change (91 =? 91) with true. cbv iota.
    destruct l as [|x l]; [done|].
    cbn [plain] in Hpl.
    assert (Hsk : ∃ c tl, items (x :: l) = c :: tl ∧ value_start c).
    { cbn [forallb] in Hpl. apply andb_true_iff in Hpl as [Hpx _].
      destruct (dumps_head x Hpx) as (c & tl & E & Hc).
      destruct l; cbn [dumps_items]; rewrite E; eauto. }
    destruct Hsk as (c & tl & E & Hc%value_start_facts).
    pose proof (scan_elements_items (x :: l) [] fuel rest ltac:(done) IH Hpl
                  ltac:(lia)) as Hel.
    rewrite E in *. cbn [app] in *. rewrite skip_ws_head by tauto.
    destruct (Z.eqb_spec c 93); [tauto|]. done.
  - rewrite dumps_dict in *. cbn [length] in Hfuel. rewrite length_app in Hfuel.
    cbn [length] in Hfuel.
    destruct fuel as [|fuel]; [lia|].
    cbn [app]. rewrite <- app_assoc. cbn [app scan_once].
    change (123 =? 34) with false. change (123 =? 123) with true. cbv iota.
    destruct d as [|kv d]; [done|].
    cbn [plain] in Hpl. apply andb_true_iff in Hpl as [Hpl Hnd%bool_decide_eq_true].
    pose proof (scan_members_dumps (kv :: d) [] fuel rest ltac:(done) IH Hpl
                  Hnd ltac:(lia)) as Hmem.
    destruct (members_head (kv :: d) ltac:(done)) as [tl E].
    rewrite E in *. cbn [app] in *. rewrite (skip_ws_head 34) by done.
    change (34 =? 125) with false. done.
Qed.

(** [json.loads(json.dumps(v)) == v] *)
Lemma json_loads_dumps v : plain v = true → json_loads (dumps v) = Ok v.
Proof.
  intros Hpl. unfold json_loads.
  destruct (dumps_head v Hpl) as (c & tl & E & Hc%value_start_facts).
  pose proof (scan_once_dumps v Hpl (S (2 * length (dumps v))) [] ltac:(lia) I) as H.
  rewrite app_nil_r in H.
  pose proof (skip_ws_dumps v [] Hpl) as Hsk. rewrite app_nil_r in Hsk.
  rewrite Hsk, H. rewrite E.
  destruct c as [|p|p]; try done.
  destruct (decide (p = 65279%positive)) as [->|]; [lia|].
  repeat (destruct p as [p|p|]; try done).
Qed.

End Roundtrip.
End JsonFacts.

(** ** The fuel of the scanner *)

Module FuelFacts.
Import Json.













End FuelFacts.

(** ** The transport encoding and lines 17 to 19 *)

Module TransportFacts.
Import Json Contract Base64 Utf8 Base64Facts Utf8Facts IntFacts JsonFacts.

Lemma hexdigit_printable x : printable (hexdigit (Z.land x 15)) = true.
Proof.
  assert (0 ≤ Z.land x 15 < 16).
  { change 15 with (Z.ones 4). rewrite Z.land_ones by lia. apply Z.mod_pos_bound. lia. }
  unfold hexdigit, printable. destruct (Z.ltb_spec (Z.land x 15) 10); lia.
Qed.

Lemma escape_u_printable c : forallb printable (escape_u c) = true.
Proof. unfold escape_u. cbn [forallb]. by rewrite !hexdigit_printable. Qed.

Lemma escape_char_printable c : forallb printable (escape_char c) = true.
Proof.
  unfold escape_char.
  repeat (match goal with |- context [if ?c =? ?k then _ else _] =>
            destruct (Z.eqb_spec c k); [done|] end).
  destruct ((32 <=? c) && (c <=? 126)) eqn:Hp.
  { cbn [forallb]. unfold printable. by rewrite Hp. }
  destruct (c <? 0x10000); [apply escape_u_printable|].
  cbv zeta. rewrite forallb_app. by rewrite !escape_u_printable.
Qed.

Lemma encode_basestring_printable s : forallb printable (encode_basestring_ascii s) = true.
Proof.
  unfold encode_basestring_ascii. rewrite !forallb_app. cbn [forallb].
  replace (forallb printable (flat_map escape_char s)) with true; [done|].
  induction s as [|c s IH]; [done|]. cbn [flat_map]. rewrite forallb_app.
  by rewrite escape_char_printable, <- IH.
Qed.

Lemma digit_printable c : is_digit c = true → printable c = true.
Proof. unfold is_digit, printable. lia. Qed.

Lemma int_repr_printable n : forallb printable (int_repr n) = true.
Proof.
  assert (H : ∀ m, forallb printable (digits m) = true).
  { intros m. pose proof (digits_digit m) as Hd. rewrite forallb_forall in *.
    intros c Hc. apply digit_printable. by apply Hd. }
  unfold int_repr. destruct (n <? 0); [|done]. cbn [forallb]. by rewrite H.
Qed.

Section Dumps.

Variable float_repr : pyfloat → list Z.

Local Abbreviation dumps := (json_dumps float_repr).
Local Abbreviation items := (dumps_items float_repr).
Local Abbreviation members := (dumps_members float_repr).

(** The text of a value without floats is printable ASCII. *)
Lemma dumps_printable v : plain v = true → forallb printable (dumps v) = true.
Proof.
  induction v as [|b|n|f|s|l IH|d IH] using value_ind'; intros Hpl.
  - done.
  - by destruct b.
  - apply int_repr_printable.
  - done.
  - apply encode_basestring_printable.
  - rewrite dumps_list. cbn [forallb]. rewrite forallb_app. cbn [plain] in Hpl.
    replace (forallb printable (items l)) with true; [done|]. symmetry.
    induction l as [|x l IHl]; [done|].
    apply Forall_cons in IH as [Hx IH].
    cbn [forallb] in Hpl. apply andb_true_iff in Hpl as [Hpx Hpl].
    destruct l as [|y l]; [by apply Hx|].
    change (items (x :: y :: l)) with (dumps x ++ [44; 32] ++ items (y :: l)).
    rewrite !forallb_app. rewrite (Hx Hpx), (IHl IH Hpl). done.
  - rewrite dumps_dict. cbn [forallb]. rewrite forallb_app. cbn [plain] in Hpl.
    apply andb_true_iff in Hpl as [Hpl _].
    replace (forallb printable (members d)) with true; [done|]. symmetry.
    induction d as [|[k x] d IHd]; [done|].
    apply Forall_cons in IH as [Hx IH]. cbn [snd] in Hx.
    cbn [forallb fst snd] in Hpl.
    apply andb_true_iff in Hpl as [[_ Hpx]%andb_true_iff Hpl].
    destruct d as [|kv d].
    + cbn [dumps_members]. rewrite !forallb_app.
      by rewrite encode_basestring_printable, (Hx Hpx).
    + change (members ((k, x) :: kv :: d))
        with (encode_basestring_ascii k ++ [58; 32] ++ dumps x ++ [44; 32]
              ++ members (kv :: d)).
      rewrite !forallb_app.
      by rewrite encode_basestring_printable, (Hx Hpx), (IHd IH Hpl).
Qed.

Lemma dumps_ascii v : plain v = true → forallb is_ascii (dumps v) = true.
Proof.
  intros H%dumps_printable. rewrite forallb_forall in *. intros c Hc.
  specialize (H c Hc). unfold printable in H. unfold is_ascii. lia.
Qed.

(** The transport encoding of a value without floats never fails. *)
Lemma encode_plain v :
  plain v = true → encode float_repr v = Ok (b64encode (dumps v)).
Proof.
  intros Hpl. unfold encode. by rewrite utf8_encode_ascii by by apply dumps_ascii.
Qed.

(** Lines 17 to 19 undo the transport encoding. *)
Lemma decode_payload_encode v more :
  plain v = true →
  Fanout.decode_payload (event_of (b64encode (dumps v)) more) = Ok v.
Proof.
  intros Hpl. unfold Fanout.decode_payload, event_of.
  assert (E1 : ∀ x, getitem (VDict [(py "records", x)]) (KStr (py "records")) = Ok x)
    by done.
  assert (E2 : ∀ x, getitem (VDict [(py "data", x)]) (KStr (py "data")) = Ok x)
    by done.
  rewrite E1. cbn [mbind result_mbind result_bind].
  change (getitem (VList (?x :: more)) (KInt 0)) with (Ok x).
  cbn [mbind result_mbind result_bind]. rewrite E2.
  cbn [mbind result_mbind result_bind].
  rewrite b64decode_b64encode by by apply ascii_octets, dumps_ascii.
  cbn [mbind result_mbind result_bind].
  rewrite utf8_decode_ascii by by apply dumps_ascii.
  cbn [mbind result_mbind result_bind].
  by apply json_loads_dumps.
Qed.

End Dumps.
End TransportFacts.


(** ** The handler, stage by stage *)

Module HandlerFacts.
Import Json Contract Fanout AuxFacts TransportFacts.

Section Handler.

Variable float_repr : pyfloat → list Z.
Variable environ : gmap (list Z) (list Z).

Local Abbreviation dumps := (json_dumps float_repr).
Local Abbreviation handler := (Fanout.handler float_repr environ).
Local Abbreviation inspected := (attribute_not_exists (py "inspectedAt")).

(** The handler, stage by stage. *)
Lemma handler_unfold amb event context w :
  handler amb event context w =
  match decode_payload event with
  | Raise e => (Raise e, w)
  | Ok data =>
  match os_environ environ (py "TABLE_NAME") with
  | Raise e => (Raise e, w)
  | Ok table =>
  match build_item amb data with
  | Raise e => (Raise e, w)
  | Ok item =>
  match put_item (put_fault amb) table item inspected w with
  | (Raise e, w1) => (Raise e, w1)
  | (Ok _, w1) =>
  match os_environ environ (py "TOPIC_ARN") with
  | Raise e => (Raise e, w1)
  | Ok topic_arn =>
  match publish (publish_fault amb) topic_arn (dumps (VDict item)) w1 with
  | (Raise e, w2) => (Raise e, w2)
  | (Ok _, w2) => (Ok (ack float_repr item), w2)
  end end end end end end.
Proof.
  unfold Fanout.handler, mbind, M_bind, lift, mret, M_ret.
  destruct (decode_payload event); [|done].
  destruct (os_environ environ (py "TABLE_NAME")); [|done].
  destruct (build_item amb a); [|done].
  destruct (put_item _ _ _ _ w) as [[[]|] w1]; [|done].
  destruct (os_environ environ (py "TOPIC_ARN")); [|done].
  destruct (publish _ _ _ w1) as [[[]|] w2]; done.
Qed.

Lemma os_environ_Some k v : environ !! k = Some v → os_environ environ k = Ok v.
Proof. unfold os_environ. by intros ->. Qed.

(** The item of a record: lines 23 to 32 on what lines 17 to 19 yield. *)
Lemma build_item_to_dict amb D :
  build_item amb (VDict (to_dict D)) = Ok (enriched (now amb) D).
Proof. reflexivity. Qed.

Lemma key_of_enriched t D : key_of (enriched t D) = Some (transactionId D).
Proof. reflexivity. Qed.

Lemma has_float_enriched t D : has_float (VDict (enriched t D)) = false.
Proof. reflexivity. Qed.


(** A conditional write that is accepted. *)
Lemma put_item_accepted w table t it k :
  has_float (VDict it) = false → tables w !! table = Some t → key_of it = Some k →
  holds inspected (t !! k) = true →
  put_item None table it inspected w
  = (Ok (), {| tables := <[table := <[k := it]> t]> (tables w);
               topics := topics w;
               calls := calls w ++ [CPutItem table it None] |}).
Proof.
  intros Hf Ht Hk Hc. unfold put_item, put_item_tables.
  by rewrite Hf, Ht, Hk, Hc.
Qed.

(** A conditional write on a row that was inspected is refused, and the
    refusal is the only thing that happens. *)
Lemma put_item_collision w table t it k old :
  has_float (VDict it) = false → tables w !! table = Some t → key_of it = Some k →
  t !! k = Some old → dict_has old (py "inspectedAt") = true →
  put_item None table it inspected w
  = (Raise (ClientError "ConditionalCheckFailedException"),
     refused w table it (ClientError "ConditionalCheckFailedException")).
Proof.
  intros Hf Ht Hk Ho Hi. unfold put_item, put_item_tables.
  rewrite Hf, Ht, Hk, Ho. cbn [holds]. by rewrite Hi.
Qed.

(** A conditional write never touches a row that was inspected, whatever
    is written and wherever. *)
Lemma put_item_keeps fault w table it r w' tn k old :
  put_item fault table it inspected w = (r, w') →
  stored w tn k = Some old → dict_has old (py "inspectedAt") = true →
  stored w' tn k = Some old.
Proof.
  unfold put_item, stored. intros Hput Hold Hi.
  destruct (put_item_tables fault (tables w) table it inspected) as [ts|e] eqn:E;
    injection Hput as <- <-; cbn [tables]; [|done].
  unfold put_item_tables in E.
  destruct (has_float (VDict it)); [done|]. destruct fault; [done|].
  destruct (tables w !! table) as [t|] eqn:Ht; [|done].
  destruct (key_of it) as [k'|]; [|done].
  destruct (holds inspected (t !! k')) eqn:Hc; [|done].
  injection E as <-.
  destruct (decide (table = tn)) as [->|Hne].
  - rewrite lookup_insert_eq. rewrite Ht in Hold. cbn in *.
    destruct (decide (k' = k)) as [->|Hk].
    + rewrite Hold in Hc. cbn in Hc. by rewrite Hi in Hc.
    + by rewrite lookup_insert_ne.
  - by rewrite lookup_insert_ne.
Qed.

Lemma publish_keeps fault arn msg w r w' :
  publish fault arn msg w = (r, w') → tables w' = tables w.
Proof.
  unfold publish. destruct (publish_topics _ _ _ _); by intros [= <- <-].
Qed.

(** No invocation touches a row that was inspected. *)
Lemma handler_keeps amb event context w tn k old :
  stored w tn k = Some old → dict_has old (py "inspectedAt") = true →
  stored (handler amb event context w).2 tn k = Some old.
Proof.
  intros Hold Hi. rewrite handler_unfold.
  destruct (decode_payload event); [|done].
  destruct (os_environ environ (py "TABLE_NAME")); [|done].
  destruct (build_item amb a); [|done].
  destruct (put_item _ _ _ _ w) as [r1 w1] eqn:Hput.
  pose proof (put_item_keeps _ _ _ _ _ _ _ _ _ Hput Hold Hi) as H1.
  destruct r1 as [[]|]; [|done].
  destruct (os_environ environ (py "TOPIC_ARN")); [|done].
  destruct (publish _ _ _ w1) as [r2 w2] eqn:Hpub.
  apply publish_keeps in Hpub.
  assert (stored w2 tn k = Some old) by (unfold stored in *; by rewrite Hpub).
  by destruct r2 as [[]|].
Qed.

Lemma deliveries_keep invs : ∀ w tn k old,
  stored w tn k = Some old → dict_has old (py "inspectedAt") = true →
  stored (deliveries float_repr environ invs w) tn k = Some old.
Proof.
  induction invs as [|[amb event] invs IH]; intros w tn k old Hold Hi; [done|].
  cbn [deliveries]. apply IH; [|done]. by apply handler_keeps.
Qed.

(** A conditional write stores an item under the key it carries. *)
Lemma put_item_well_keyed fault w table it c r w' :
  put_item fault table it c w = (r, w') → well_keyed w → well_keyed w'.
Proof.
  unfold put_item. intros Hput Hw.
  destruct (put_item_tables fault (tables w) table it c) as [ts|e] eqn:E;
    apply (inj2 pair) in Hput as [<- <-]; [|exact Hw].
  unfold put_item_tables in E.
  destruct (has_float (VDict it)); [done|]. destruct fault; [done|].
  destruct (tables w !! table) as [t|] eqn:Ht; [|done].
  destruct (key_of it) as [k|] eqn:Hk; [|done].
  destruct (holds c (t !! k)); [|done]. apply Ok_inj in E as <-.
  intros tn k' it'. unfold stored. cbn [tables].
  destruct (decide (table = tn)) as [->|Hne].
  - rewrite lookup_insert_eq. cbn.
    destruct (decide (k = k')) as [->|Hk'].
    + rewrite lookup_insert_eq. by intros [= <-].
    + rewrite lookup_insert_ne by done. intros H. apply (Hw tn).
      unfold stored. by rewrite Ht.
  - rewrite lookup_insert_ne by done. apply Hw.
Qed.

Lemma handler_well_keyed amb event context w :
  well_keyed w → well_keyed (handler amb event context w).2.
Proof.
  intros Hw. rewrite handler_unfold.
  destruct (decode_payload event); [|done].
  destruct (os_environ environ (py "TABLE_NAME")); [|done].
  destruct (build_item amb a); [|done].
  destruct (put_item _ _ _ _ w) as [r1 w1] eqn:Hput.
  pose proof (put_item_well_keyed _ _ _ _ _ _ _ Hput Hw) as H1.
  destruct r1 as [[]|]; [|done].
  destruct (os_environ environ (py "TOPIC_ARN")); [|done].
  destruct (publish _ _ _ w1) as [r2 w2] eqn:Hpub.
  apply publish_keeps in Hpub.
  assert (well_keyed w2).
  { intros tn k it. unfold stored. rewrite Hpub. apply H1. }
  by destruct r2 as [[]|].
Qed.

Lemma deliveries_well_keyed invs : ∀ w,
  well_keyed w → well_keyed (deliveries float_repr environ invs w).
Proof.
  induction invs as [|[amb event] invs IH]; intros w Hw; [done|].
  cbn [deliveries]. by apply IH, handler_well_keyed.
Qed.

(** The successful path, from what lines 17 to 32 computed. *)
Lemma handler_delivers amb event context w data table it k t arn ms :
  decode_payload event = Ok data →
  environ !! py "TABLE_NAME" = Some table → environ !! py "TOPIC_ARN" = Some arn →
  build_item amb data = Ok it → has_float (VDict it) = false → key_of it = Some k →
  put_fault amb = None → publish_fault amb = None →
  tables w !! table = Some t → holds inspected (t !! k) = true →
  topics w !! arn = Some ms →
  handler amb event context w
  = (Ok (ack float_repr it), delivered float_repr w table t k it arn ms).
Proof.
  intros Hd Htn Harn Hit Hf Hk Hpf Hqf Ht Hc Hms. rewrite handler_unfold.
  rewrite Hd, (os_environ_Some _ _ Htn), Hit, Hpf.
  rewrite (put_item_accepted _ _ _ _ _ Hf Ht Hk Hc).
  rewrite (os_environ_Some _ _ Harn), Hqf.
  unfold publish, publish_topics. cbn [topics tables calls]. rewrite Hms.
  unfold delivered. cbn [outcome_of]. by rewrite <- app_assoc.
Qed.

(** The path of a second delivery: the row is there and was inspected. *)
Lemma handler_collides amb event context w data table it k t old :
  decode_payload event = Ok data →
  environ !! py "TABLE_NAME" = Some table →
  build_item amb data = Ok it → has_float (VDict it) = false → key_of it = Some k →
  put_fault amb = None →
  tables w !! table = Some t → t !! k = Some old →
  dict_has old (py "inspectedAt") = true →
  handler amb event context w
  = (Raise (ClientError "ConditionalCheckFailedException"),
     refused w table it (ClientError "ConditionalCheckFailedException")).
Proof.
  intros Hd Htn Hit Hf Hk Hpf Ht Ho Hi. rewrite handler_unfold.
  rewrite Hd, (os_environ_Some _ _ Htn), Hit, Hpf.
  by rewrite (put_item_collision _ _ _ _ _ _ Hf Ht Hk Ho Hi).
Qed.

End Handler.
End HandlerFacts.

(** ** The claims about the handler *)

Module FanoutClaims.
Import Json Contract Fanout Base64 Utf8 AuxFacts TransportFacts HandlerFacts Scenario.

Lemma valid_plain D : valid D → plain (VDict (to_dict D)) = true.
Proof.
  intros (H1 & H2 & H3 & H4 & H5). cbn [plain to_dict forallb fst snd].
  rewrite H1, H2, H3, H4, H5. reflexivity.
Qed.

Lemma dict_del_sublist d k : sublist (dict_del d k) d.
Proof.
  induction d as [|[k' v] d IH]; [done|]. cbn [dict_del].
  destruct (str_eqb k' k); [by apply sublist_cons | by apply sublist_skip].
Qed.

(** Deleting an entry of a [dict] leaves it fit for the round trip. *)
Lemma plain_del d k : plain (VDict d) = true → plain (VDict (dict_del d k)) = true.
Proof.
  cbn [plain]. intros [Hall Hnd%bool_decide_eq_true]%andb_true_iff.
  pose proof (dict_del_sublist d k) as Hsub.
  apply andb_true_iff. split.
  - rewrite forallb_forall in *. intros kv Hkv. apply Hall.
    apply list_elem_of_In. apply list_elem_of_In in Hkv.
    by eapply sublist_submseteq, elem_of_submseteq in Hsub.
  - apply bool_decide_eq_true. eapply sublist_NoDup; [done|].
    by apply fmap_sublist.
Qed.

Lemma build_item_missing amb D f :
  f ∈ required →
  build_item amb (VDict (dict_del (to_dict D) f)) = Raise (KeyError (KStr f)).
Proof.
  intros Hf. unfold required in Hf.
  repeat (apply elem_of_cons in Hf as [->|Hf]);
    [| | | | | | by apply elem_of_nil in Hf]; reflexivity.
Qed.

Lemma build_item_inv amb data it :
  build_item amb data = Ok it →
  ∃ tv ce, getitem data (KStr (py "transaction")) = Ok tv ∧ add_int tv 500 = Ok ce
    ∧ dict_get it (py "customEnrichment") = Some ce
    ∧ dict_get it (py "inspectedAt") = Some (VStr (datetime_str (now amb))).
Proof.
  unfold build_item. intros H.
  repeat match type of H with
  | (mbind _ ?m) = _ => destruct m eqn:?; cbn [mbind result_mbind result_bind] in H; [|done]
  end.
  injection H as <-.
  match goal with
  | Ha : add_int ?tv 500 = Ok ?ce |- _ =>
      exists tv, ce; split; [reflexivity|]; split; [exact Ha|]; split; reflexivity
  end.
Qed.

Lemma datetime_str_nonempty dt : datetime_str dt ≠ [].
Proof.
  unfold datetime_str. intros H.
  apply app_eq_nil in H as [_ H]. done.
Qed.


Section Claims.

Variable float_repr : pyfloat → list Z.
Variable environ : gmap (list Z) (list Z).

Local Abbreviation dumps := (json_dumps float_repr).
Local Abbreviation handler := (Fanout.handler float_repr environ).
Local Abbreviation inspected := (attribute_not_exists (py "inspectedAt")).
Local Abbreviation collision := (ClientError "ConditionalCheckFailedException").

(** An invocation that returns has stored its item, with the time of
    inspection, under its key. *)
Lemma handler_Ok_inv amb event context w v w1 :
  handler amb event context w = (Ok v, w1) →
  ∃ data table it k,
    decode_payload event = Ok data ∧ environ !! py "TABLE_NAME" = Some table
    ∧ build_item amb data = Ok it ∧ key_of it = Some k
    ∧ stored w1 table k = Some it ∧ v = ack float_repr it.
Proof.
  rewrite handler_unfold. intros H.
  destruct (decode_payload event) as [data|] eqn:Hd; [|done].
  unfold os_environ in H.
  destruct (environ !! py "TABLE_NAME") as [table|] eqn:Htn; [|done].
  destruct (build_item amb data) as [it|] eqn:Hit; [|done].
  destruct (put_item _ _ _ _ w) as [[[]|] w'] eqn:Hput; [|done].
  assert (∃ k, key_of it = Some k ∧ stored w' table k = Some it) as (k & Hk & Hst).
  { unfold put_item, put_item_tables in Hput.
    destruct (has_float (VDict it)); [done|]. destruct (put_fault amb); [done|].
    destruct (tables w !! table) as [t|]; [|done].
    destruct (key_of it) as [k|]; [|done].
    destruct (holds inspected (t !! k)); [|done].
    injection Hput as <-. exists k. split; [done|]. unfold stored. cbn [tables].
    rewrite lookup_insert_eq. cbn. by rewrite lookup_insert_eq. }
  destruct (environ !! py "TOPIC_ARN") as [arn|]; [|done].
  destruct (publish _ _ _ w') as [[[]|] w2] eqn:Hpub; [|done].
  apply publish_keeps in Hpub. injection H as <- <-.
  exists data, table, it, k. unfold stored in *. by rewrite Hpub.
Qed.

(** C4: for every valid record, base64-decoding the payload, UTF-8-decoding
    the result and JSON-parsing it gives the record back: the decoding of
    lines 17 to 19 is a left inverse of JSON-serialize, UTF-8-encode,
    base64-encode. *)
Theorem decode_payload_round_trip D more :
  valid D →
  ∃ bs, utf8_encode (dumps (VDict (to_dict D))) = Ok bs
    ∧ (raw ← b64decode (VStr (b64encode bs));
       data_dump ← utf8_decode raw;
       json_loads data_dump) = Ok (VDict (to_dict D))
    ∧ decode_payload (event_of (b64encode bs) more) = Ok (VDict (to_dict D)).
Proof.
  intros Hpl%valid_plain. exists (dumps (VDict (to_dict D))).
  pose proof (dumps_ascii float_repr _ Hpl) as Hascii.
  split; [by apply Utf8Facts.utf8_encode_ascii|]. split.
  - rewrite Base64Facts.b64decode_b64encode by by apply Utf8Facts.ascii_octets.
    cbn [mbind result_mbind result_bind].
    rewrite Utf8Facts.utf8_decode_ascii by done.
    by apply JsonFacts.json_loads_dumps.
  - by apply decode_payload_encode.
Qed.

(** C3: for every valid record the handler processes, the record it stores
    and returns has [customEnrichment] equal to the record's [transaction]
    plus 500; and whatever the handler is given, the [customEnrichment] of
    the item it builds is what [transaction] plus 500 is, so that no other
    field has a part in it. *)
Theorem enrichment_adds_500 amb context w more D table arn t ms :
  valid D →
  environ !! py "TABLE_NAME" = Some table → environ !! py "TOPIC_ARN" = Some arn →
  put_fault amb = None → publish_fault amb = None →
  tables w !! table = Some t → t !! transactionId D = None →
  topics w !! arn = Some ms →
  ∃ data it w',
    encode float_repr (VDict (to_dict D)) = Ok data
    ∧ handler amb (event_of data more) context w = (Ok (ack float_repr it), w')
    ∧ stored w' table (transactionId D) = Some it
    ∧ dict_get it (py "customEnrichment") = Some (VInt (transaction D + 500))
    ∧ ∀ amb' data' it',
        build_item amb' data' = Ok it' →
        ∃ tv ce, getitem data' (KStr (py "transaction")) = Ok tv
               ∧ add_int tv 500 = Ok ce
               ∧ dict_get it' (py "customEnrichment") = Some ce.
Proof.
  intros Hv Htn Harn Hpf Hqf Ht Hk Hms. pose proof (valid_plain D Hv) as Hpl.
  exists (b64encode (dumps (VDict (to_dict D)))), (enriched (now amb) D),
    (delivered float_repr w table t (transactionId D) (enriched (now amb) D) arn ms).
  split; [by apply encode_plain|]. split.
  { eapply handler_delivers;
      [by apply decode_payload_encode | done | done | apply build_item_to_dict
      | done | reflexivity | done | done | exact Ht | by rewrite Hk | done]. }
  split.
  { unfold stored, delivered. cbn [tables]. rewrite lookup_insert_eq. cbn.
    by rewrite lookup_insert_eq. }
  split; [done|].
  intros amb' data' it' (tv & ce & H1 & H2 & H3 & _)%build_item_inv. eauto.
Qed.

(** C5: for each required field, the handler invoked on an otherwise valid
    payload without that field fails with the [KeyError] of that field, the
    validation error of the source, and leaves the world as it was: neither
    the store nor the topic is called. *)
Theorem missing_field_fails amb context w more D f table :
  valid D → f ∈ required → environ !! py "TABLE_NAME" = Some table →
  ∃ data,
    encode float_repr (VDict (dict_del (to_dict D) f)) = Ok data
    ∧ handler amb (event_of data more) context w = (Raise (KeyError (KStr f)), w).
Proof.
  intros Hv Hf Htn.
  pose proof (plain_del _ f (valid_plain D Hv)) as Hpl.
  exists (b64encode (dumps (VDict (dict_del (to_dict D) f)))).
  split; [by apply encode_plain|].
  rewrite handler_unfold, decode_payload_encode by done.
  rewrite (os_environ_Some _ _ _ Htn). by rewrite build_item_missing.
Qed.

(** C6: on the payload of the scenario, a first invocation stores the
    record with [customEnrichment] 1500 and a non-empty [inspectedAt], and
    returns status 200 with that record, serialized, as the body. *)
Theorem scenario_first_delivery amb context w table arn t ms :
  environ !! py "TABLE_NAME" = Some table → environ !! py "TOPIC_ARN" = Some arn →
  put_fault amb = None → publish_fault amb = None →
  tables w !! table = Some t → t !! py "t1" = None →
  topics w !! arn = Some ms →
  let it := scenario_item (datetime_str (now amb)) in
  b64encode scenario_text = scenario_payload
  ∧ handler amb (event_of scenario_payload []) context w
    = (Ok (VDict [ (py "statusCode", VInt 200); (py "body", VStr (dumps (VDict it))) ]),
       delivered float_repr w table t (py "t1") it arn ms)
  ∧ stored (delivered float_repr w table t (py "t1") it arn ms) table (py "t1") = Some it
  ∧ dict_get it (py "customEnrichment") = Some (VInt 1500)
  ∧ ∃ s, dict_get it (py "inspectedAt") = Some (VStr s) ∧ s ≠ [].
Proof.
  intros Htn Harn Hpf Hqf Ht Hk Hms it.
  split; [vm_compute; reflexivity|]. split.
  { assert (Hd : decode_payload (event_of scenario_payload [])
                 = Ok (VDict (to_dict scenario_record))) by (vm_compute; reflexivity).
    change it with (enriched (now amb) scenario_record).
    eapply handler_delivers;
      [exact Hd | done | done | apply build_item_to_dict
      | done | reflexivity | done | done | exact Ht | by rewrite Hk | done]. }
  split.
  { unfold stored, delivered. cbn [tables]. rewrite lookup_insert_eq. cbn.
    by rewrite lookup_insert_eq. }
  split; [done|].
  exists (datetime_str (now amb)). split; [done | apply datetime_str_nonempty].
Qed.


(** C7: in any invocation the topic is called only after the conditional
    write has returned; when the write raises, whatever the reason, it is the
    only call of the invocation, its exception is the outcome, and the topic
    is not called. *)
Theorem publish_only_after_put amb event context w :
  ∃ cs, calls (handler amb event context w).2 = calls w ++ cs
    ∧ (∀ arn msg o, CPublish arn msg o ∈ cs →
         ∃ table it, cs = [CPutItem table it None; CPublish arn msg o])
    ∧ (∀ table it e, CPutItem table it (Some e) ∈ cs →
         cs = [CPutItem table it (Some e)]
         ∧ (handler amb event context w).1 = Raise e
         ∧ topics (handler amb event context w).2 = topics w).
Proof.
  rewrite handler_unfold.
  assert (Hnone : ∃ cs : list Call, calls w = calls w ++ cs
            ∧ (∀ arn msg o, CPublish arn msg o ∈ cs →
                 ∃ table it, cs = [CPutItem table it None; CPublish arn msg o])
            ∧ (∀ table it e, CPutItem table it (Some e) ∈ cs →
                 cs = [CPutItem table it (Some e)] ∧ False)).
  { exists []. rewrite app_nil_r. split; [done|].
    split; intros; by match goal with H : _ ∈ [] |- _ => apply elem_of_nil in H end. }
  assert (Hearly : ∀ e : exn, ∃ cs : list Call,
            calls (Raise (A:=value) e, w).2 = calls w ++ cs
            ∧ (∀ arn msg o, CPublish arn msg o ∈ cs →
                 ∃ table it, cs = [CPutItem table it None; CPublish arn msg o])
            ∧ (∀ table it e', CPutItem table it (Some e') ∈ cs →
                 cs = [CPutItem table it (Some e')]
                 ∧ (Raise (A:=value) e, w).1 = Raise e'
                 ∧ topics (Raise (A:=value) e, w).2 = topics w)).
  { intros e. destruct Hnone as (cs & H1 & H2 & H3). exists cs.
    split; [done|]. split; [done|]. intros table it e' Hin.
    by destruct (H3 _ _ _ Hin). }
  destruct (decode_payload event) as [data|]; [|apply Hearly].
  destruct (os_environ environ (py "TABLE_NAME")) as [table|]; [|apply Hearly].
  destruct (build_item amb data) as [it|]; [|apply Hearly].
  unfold put_item.
  destruct (put_item_tables _ _ _ _ _) as [ts|e]; cbn [outcome_of].
  2:{ exists [CPutItem table it (Some e)]. cbn [fst snd calls topics].
      split; [done|]. split.
      - intros arn msg o [=]%list_elem_of_singleton.
      - by intros table' it' e' [= -> -> ->]%list_elem_of_singleton. }
  destruct (os_environ environ (py "TOPIC_ARN")) as [arn|].
  2:{ exists [CPutItem table it None]. cbn [fst snd calls topics].
      split; [done|]. split.
      - intros arn msg o [=]%list_elem_of_singleton.
      - by intros table' it' e' [=]%list_elem_of_singleton. }
  unfold publish. cbn [tables topics calls].
  exists [CPutItem table it None;
          CPublish arn (dumps (VDict it))
            (outcome_of (publish_topics (publish_fault amb) (topics w) arn
                           (dumps (VDict it))))].
  split.
  { destruct (publish_topics _ _ _ _); cbn [snd calls]; by rewrite <- app_assoc. }
  split.
  - intros arn' msg o Hin. apply elem_of_cons in Hin as [[=]|Hin].
    apply list_elem_of_singleton in Hin as [= -> -> ->]. eauto.
  - intros table' it' e' Hin. apply elem_of_cons in Hin as [[=]|Hin].
    by apply list_elem_of_singleton in Hin.
Qed.

(** C10: when the event carries more than one record, the handler decodes,
    stores, publishes and returns the first one only: the outcome and the
    world are those of the invocation on the first record alone. *)
Theorem only_first_record amb context w first second more others :
  handler amb (VDict ((py "records", VList (first :: second :: more)) :: others))
    context w
  = handler amb (VDict ((py "records", VList [first]) :: others)) context w.
Proof. by rewrite !handler_unfold. Qed.

(** C1, as the source has it: a valid record delivered a second time is not
    acknowledged.  The conditional write is refused, or fails for a reason of
    the store's own, and that exception is the outcome of the invocation; the
    refused write is its only call, the stored record and the topic are left
    as they were. *)
Theorem duplicate_delivery_raises amb amb' context w more D data v w1 :
  valid D → encode float_repr (VDict (to_dict D)) = Ok data →
  handler amb (event_of data more) context w = (Ok v, w1) →
  let e := match put_fault amb' with Some e => e | None => collision end in
  ∃ table,
    environ !! py "TABLE_NAME" = Some table
    ∧ handler amb' (event_of data more) context w1
      = (Raise e, refused w1 table (enriched (now amb') D) e)
    ∧ stored w1 table (transactionId D) = Some (enriched (now amb) D).
Proof.
  intros Hv Henc Hfirst e. pose proof (valid_plain D Hv) as Hpl.
  rewrite encode_plain in Henc by done. apply Ok_inj in Henc as <-.
  pose proof (decode_payload_encode float_repr _ more Hpl) as Hd.
  destruct (handler_Ok_inv _ _ _ _ _ _ Hfirst)
    as (data & table & it & k & Hd' & Htn & Hit & Hk & Hst & _).
  rewrite Hd in Hd'. apply Ok_inj in Hd' as <-.
  rewrite build_item_to_dict in Hit. apply Ok_inj in Hit as <-.
  rewrite key_of_enriched in Hk. apply (inj Some) in Hk as <-.
  exists table. split; [done|]. split; [|done].
  unfold stored in Hst.
  destruct (tables w1 !! table) as [t|] eqn:Ht; [|done]. cbn in Hst.
  subst e. destruct (put_fault amb') as [e|] eqn:Hpf.
  - rewrite handler_unfold, Hd, (os_environ_Some _ _ _ Htn), build_item_to_dict.
    unfold put_item, put_item_tables. by rewrite has_float_enriched, Hpf.
  - eapply handler_collides;
      [exact Hd | done | apply build_item_to_dict | done | reflexivity | done
      | exact Ht | exact Hst | done].
Qed.

(** C2: once an invocation on a valid record has returned, the store
    holds exactly one record with that [transactionId], the one that
    invocation made, with the [inspectedAt] it wrote; and this is so still
    after any run of further invocations, whatever their events. *)
Theorem inspected_once amb context w more D data v w1 invs :
  valid D → encode float_repr (VDict (to_dict D)) = Ok data →
  well_keyed w →
  handler amb (event_of data more) context w = (Ok v, w1) →
  ∃ table,
    environ !! py "TABLE_NAME" = Some table
    ∧ stored (deliveries float_repr environ invs w1) table (transactionId D)
      = Some (enriched (now amb) D)
    ∧ (∀ k it,
         stored (deliveries float_repr environ invs w1) table k = Some it →
         key_of it = Some (transactionId D) →
         k = transactionId D ∧ it = enriched (now amb) D)
    ∧ dict_get (enriched (now amb) D) (py "inspectedAt")
      = Some (VStr (datetime_str (now amb))).
Proof.
  intros Hv Henc Hw Hfirst. pose proof (valid_plain D Hv) as Hpl.
  rewrite encode_plain in Henc by done. apply Ok_inj in Henc as <-.
  pose proof (decode_payload_encode float_repr _ more Hpl) as Hd.
  destruct (handler_Ok_inv _ _ _ _ _ _ Hfirst)
    as (data & table & it & k & Hd' & Htn & Hit & Hk & Hst & _).
  rewrite Hd in Hd'. apply Ok_inj in Hd' as <-.
  rewrite build_item_to_dict in Hit. apply Ok_inj in Hit as <-.
  rewrite key_of_enriched in Hk. apply (inj Some) in Hk as <-.
  assert (Hkeep : stored (deliveries float_repr environ invs w1) table (transactionId D)
                  = Some (enriched (now amb) D)) by by apply deliveries_keep.
  assert (Hw1 : well_keyed w1).
  { pose proof (handler_well_keyed float_repr environ amb (event_of
      (b64encode (dumps (VDict (to_dict D)))) more) context w Hw) as H.
    by rewrite Hfirst in H. }
  exists table. split; [done|]. split; [done|]. split; [|done].
  intros k it Hk Hkey.
  pose proof (deliveries_well_keyed float_repr environ invs w1 Hw1 _ _ _ Hk) as Hk'.
  rewrite Hkey in Hk'. apply (inj Some) in Hk' as <-.
  rewrite Hkeep in Hk. by apply (inj Some) in Hk as <-.
Qed.

End Claims.

(** Evaluate a closed goal. *)
Ltac crunch := vm_compute; repeat split; reflexivity.

(** The claims at the scenario of the specification. *)

Lemma decode_payload_round_trip_witness :
  ∃ bs, utf8_encode (json_dumps a_float_repr (VDict (to_dict scenario_record))) = Ok bs
    ∧ (raw ← b64decode (VStr (b64encode bs));
       data_dump ← utf8_decode raw;
       json_loads data_dump) = Ok (VDict (to_dict scenario_record))
    ∧ decode_payload (event_of (b64encode bs) []) = Ok (VDict (to_dict scenario_record)).
Proof.
  apply (decode_payload_round_trip a_float_repr scenario_record []).
  crunch.
Defined.

Lemma enrichment_adds_500_witness :
  ∃ data it w',
    encode a_float_repr (VDict (to_dict scenario_record)) = Ok data
    ∧ handler a_float_repr an_environ (healthy a_time) (event_of data []) VNone a_world
      = (Ok (ack a_float_repr it), w')
    ∧ stored w' (py "abnormalities") (py "t1") = Some it
    ∧ dict_get it (py "customEnrichment") = Some (VInt (1000 + 500))
    ∧ ∀ amb' data' it',
        build_item amb' data' = Ok it' →
        ∃ tv ce, getitem data' (KStr (py "transaction")) = Ok tv
               ∧ add_int tv 500 = Ok ce
               ∧ dict_get it' (py "customEnrichment") = Some ce.
Proof.
  apply (enrichment_adds_500 a_float_repr an_environ (healthy a_time) VNone a_world []
           scenario_record (py "abnormalities")
           (py "arn:aws:sns:us-east-1:1:abnormalities") ∅ []);
    crunch.
Defined.

Lemma missing_field_fails_witness :
  ∃ data,
    encode a_float_repr (VDict (dict_del (to_dict scenario_record) (py "bankId"))) = Ok data
    ∧ handler a_float_repr an_environ (healthy a_time) (event_of data []) VNone a_world
      = (Raise (KeyError (KStr (py "bankId"))), a_world).
Proof.
  apply (missing_field_fails a_float_repr an_environ (healthy a_time) VNone a_world []
           scenario_record (py "bankId") (py "abnormalities")).
  - crunch.
  - unfold required. do 4 (apply elem_of_cons; right). apply elem_of_cons. by left.
  - crunch.
Defined.

Lemma scenario_first_delivery_witness :
  let it := scenario_item (datetime_str a_time) in
  b64encode scenario_text = scenario_payload
  ∧ handler a_float_repr an_environ (healthy a_time) (event_of scenario_payload []) VNone a_world
    = (Ok (VDict [ (py "statusCode", VInt 200);
                   (py "body", VStr (json_dumps a_float_repr (VDict it))) ]),
       delivered a_float_repr a_world (py "abnormalities") ∅ (py "t1") it
         (py "arn:aws:sns:us-east-1:1:abnormalities") [])
  ∧ stored (delivered a_float_repr a_world (py "abnormalities") ∅ (py "t1") it
              (py "arn:aws:sns:us-east-1:1:abnormalities") [])
      (py "abnormalities") (py "t1") = Some it
  ∧ dict_get it (py "customEnrichment") = Some (VInt 1500)
  ∧ ∃ s, dict_get it (py "inspectedAt") = Some (VStr s) ∧ s ≠ [].
Proof.
  apply (scenario_first_delivery a_float_repr an_environ (healthy a_time) VNone a_world
           (py "abnormalities") (py "arn:aws:sns:us-east-1:1:abnormalities") ∅ []);
    crunch.
Defined.

Lemma duplicate_delivery_raises_witness :
  ∃ table,
    an_environ !! py "TABLE_NAME" = Some table
    ∧ handler a_float_repr an_environ (healthy a_later_time) (event_of wire_payload [])
        VNone wire_first.2
      = (Raise (ClientError "ConditionalCheckFailedException"),
         refused wire_first.2 table (enriched a_later_time scenario_record)
           (ClientError "ConditionalCheckFailedException"))
    ∧ stored wire_first.2 table (py "t1") = Some (enriched a_time scenario_record).
Proof.
  apply (duplicate_delivery_raises a_float_repr an_environ (healthy a_time)
           (healthy a_later_time) VNone a_world [] scenario_record wire_payload
           (ack a_float_repr (enriched a_time scenario_record)) wire_first.2).
  - crunch.
  - crunch.
  - crunch.
Defined.

Lemma inspected_once_witness :
  ∃ table,
    an_environ !! py "TABLE_NAME" = Some table
    ∧ stored (deliveries a_float_repr an_environ
                [ (healthy a_later_time, event_of wire_payload []);
                  (healthy a_later_time, event_of scenario_payload []) ]
                wire_first.2) table (py "t1")
      = Some (enriched a_time scenario_record)
    ∧ (∀ k it,
         stored (deliveries a_float_repr an_environ
                   [ (healthy a_later_time, event_of wire_payload []);
                     (healthy a_later_time, event_of scenario_payload []) ]
                   wire_first.2) table k = Some it →
         key_of it = Some (py "t1") →
         k = py "t1" ∧ it = enriched a_time scenario_record)
    ∧ dict_get (enriched a_time scenario_record) (py "inspectedAt")
      = Some (VStr (datetime_str a_time)).
Proof.
  apply (inspected_once a_float_repr an_environ (healthy a_time) VNone a_world []
           scenario_record wire_payload
           (ack a_float_repr (enriched a_time scenario_record)) wire_first.2).
  - crunch.
  - crunch.
  - intros table k it. unfold stored, a_world. cbn [tables].
    destruct (decide (table = py "abnormalities")) as [->|Hne].
    + rewrite lookup_singleton_eq. cbn. by rewrite lookup_empty.
    + by rewrite lookup_singleton_ne.
  - crunch.
Defined.

(** C1, as the specification has it, fails: the second delivery of the
    scenario's payload raises, it does not return status 200. *)
Lemma duplicate_delivery_not_acknowledged :
  first_delivery.1 = Ok (ack a_float_repr (scenario_item (datetime_str a_time)))
  ∧ second_delivery.1 = Raise (ClientError "ConditionalCheckFailedException")
  ∧ ¬ ∃ body, second_delivery.1
              = Ok (VDict [ (py "statusCode", VInt 200); (py "body", body) ]).
Proof.
  assert (H : second_delivery.1 = Raise (ClientError "ConditionalCheckFailedException"))
    by (vm_compute; reflexivity).
  split; [vm_compute; reflexivity|]. split; [done|].
  intros [body Hb]. by rewrite H in Hb.
Qed.

End FanoutClaims.

(** ** The claims about the generator *)

Module ProducerClaims.
Import Json Producer AuxFacts.

Lemma make_banks_eq b :
  make_banks b = [swift b 0%nat; swift b 1%nat; swift b 2%nat; swift b 3%nat;
                  swift b 4%nat; swift b 5%nat; swift b 6%nat; swift b 7%nat;
                  swift b 8%nat; swift b 9%nat].
Proof. reflexivity. Qed.

Lemma list_index_elem {A} (l : list A) i x : list_index l i = Some x → x ∈ l.
Proof.
  unfold list_index. destruct (0 <=? i); [by apply list_elem_of_lookup_2|].
  destruct (0 <=? Z.of_nat (length l) + i); [by apply list_elem_of_lookup_2 | done].
Qed.

Lemma list_index_in_range {A} (l : list A) i :
  0 ≤ i < Z.of_nat (length l) → is_Some (list_index l i).
Proof.
  intros Hi. unfold list_index. replace (0 <=? i) with true by lia.
  apply lookup_lt_is_Some. lia.
Qed.

Lemma randrange_range start stop draw n :
  randrange start stop draw = Ok n → start ≤ n < stop.
Proof.
  unfold randrange. destruct (Z.leb_spec (stop - start) 0); [done|].
  intros [= <-]. pose proof (Z.mod_pos_bound draw (stop - start)). lia.
Qed.

Lemma randrange_Ok start stop draw :
  start < stop → ∃ n, randrange start stop draw = Ok n.
Proof.
  intros H. unfold randrange. replace (stop - start <=? 0) with false by lia. eauto.
Qed.

Section Loop.

Variable float_repr : pyfloat → list Z.

Local Abbreviation dumps := (json_dumps float_repr).

(** The record of a turn takes its [bankId] from [banks]. *)
Lemma make_payload_bank g t p :
  make_payload g t = Ok p →
  ∃ bank, getitem p (KStr (py "bankId")) = Ok (VStr bank) ∧ bank ∈ banks g.
Proof.
  unfold make_payload. intros H.
  destruct (random_int 18 85 (age_draw t)) as [age|]; [|done].
  destruct (random_int 1000 10000 (transaction_draw t)) as [amount|]; [|done].
  cbn [mbind result_mbind result_bind] in H.
  destruct (randrange 0 (Z.of_nat (length (banks g))) (bank_draw t)) as [i|]; [|done].
  cbn [mbind result_mbind result_bind] in H.
  destruct (list_index (banks g) i) as [bank|] eqn:Hb; [|done].
  cbn [mbind result_mbind result_bind] in H. apply Ok_inj in H as <-.
  exists bank. split; [reflexivity | by eapply list_index_elem].
Qed.

(** With a pool that is not empty, the record of a turn is always made. *)
Lemma make_payload_Ok g t :
  banks g ≠ [] → ∃ p, make_payload g t = Ok p.
Proof.
  intros Hne. unfold make_payload, random_int.
  destruct (randrange_Ok 18 (85 + 1) (age_draw t) ltac:(lia)) as [age ->].
  destruct (randrange_Ok 1000 (10000 + 1) (transaction_draw t) ltac:(lia)) as [amount ->].
  cbn [mbind result_mbind result_bind].
  assert (0 < Z.of_nat (length (banks g))) by (destruct (banks g); [done | cbn; lia]).
  destruct (randrange_Ok 0 (Z.of_nat (length (banks g))) (bank_draw t) ltac:(lia))
    as [i Hi]. rewrite Hi. cbn [mbind result_mbind result_bind].
  destruct (list_index_in_range (banks g) i) as [bank ->];
    [by apply randrange_range in Hi|]. eauto.
Qed.

Lemma emitted_app tr1 tr2 : emitted (tr1 ++ tr2) = emitted tr1 ++ emitted tr2.
Proof. apply omap_app. Qed.

(** One turn: at most one record, with a [bankId] of the pool; the pool is
    left as it was. *)
Lemma tick_spec g t :
  (∀ data, data ∈ emitted (tick float_repr g t).1 →
     ∃ p bank, data = dumps p ∧ getitem p (KStr (py "bankId")) = Ok (VStr bank)
               ∧ bank ∈ banks g)
  ∧ (∀ g', (tick float_repr g t).2 = Ok g' → banks g' = banks g).
Proof.
  unfold tick. destruct (make_payload g t) as [p|e] eqn:Hp.
  - destruct (make_payload_bank _ _ _ Hp) as (bank & Hb & Hin).
    destruct (put_record_outcome t) as [r|e]; cbn.
    + split; [|by intros g' [= <-]].
      intros data ->%list_elem_of_singleton. eauto.
    + split; [|done]. intros data ->%list_elem_of_singleton. eauto.
  - cbn. split; [|done]. by intros data ?%elem_of_nil.
Qed.

Lemma bind_fst {A B} (m : P A) (f : A → P B) :
  (m ≫= f).1 = m.1 ++ match m.2 with Ok a => (f a).1 | Raise _ => [] end.
Proof. destruct m as [tr [a|e]]; cbn; [done | by rewrite app_nil_r]. Qed.

Lemma bind_snd {A B} (m : P A) (f : A → P B) :
  (m ≫= f).2 = match m.2 with Ok a => (f a).2 | Raise e => Raise e end.
Proof. by destruct m as [tr [a|e]]. Qed.

Lemma loop_spec ticks : ∀ g,
  (∀ data, data ∈ emitted (loop float_repr g ticks).1 →
     ∃ p bank, data = dumps p ∧ getitem p (KStr (py "bankId")) = Ok (VStr bank)
               ∧ bank ∈ banks g)
  ∧ (∀ g', (loop float_repr g ticks).2 = Ok g' → banks g' = banks g).
Proof.
  induction ticks as [|t ticks IH]; intros g.
  { cbn. split; [by intros data ?%elem_of_nil | by intros g' [= <-]]. }
  cbn [loop]. destruct (tick_spec g t) as [Ht1 Ht2].
  rewrite bind_fst, bind_snd, emitted_app.
  destruct (tick float_repr g t).2 as [g1|e] eqn:E.
  - destruct (IH g1) as [IH1 IH2]. rewrite (Ht2 g1 eq_refl) in IH1, IH2.
    split; [|done]. intros data [?|?]%elem_of_app; eauto.
  - split; [|done]. intros data [?|?%elem_of_nil]%elem_of_app; eauto. done.
Qed.


(** While the stream accepts the records, every turn emits one. *)
Lemma loop_emits ticks : ∀ g,
  banks g ≠ [] → Forall (λ t, ∃ r, put_record_outcome t = Ok r) ticks →
  length (emitted (loop float_repr g ticks).1) = length ticks
  ∧ ∃ g', (loop float_repr g ticks).2 = Ok g'.
Proof.
  induction ticks as [|t ticks IH]; intros g Hne Hall.
  { cbn. eauto. }
  apply Forall_cons in Hall as [[r Hr] Hall].
  cbn [loop]. rewrite bind_fst, bind_snd, emitted_app.
  destruct (make_payload_Ok g t Hne) as [p Hp].
  unfold tick. rewrite Hp, Hr. cbn.
  set (g1 := {| rootSteamName := rootSteamName g; banks := banks g;
                payload := Some p; response := Some r |}).
  destruct (IH g1 Hne Hall) as [IH1 IH2]. split; [|done].
  f_equal. exact IH1.
Qed.

(** Lines 18 to 36, by the way the call ended. *)
Lemma bootstrap_cases b :
  bootstrap b =
  match start_outcome b with
  | None =>
      ([ StartApplication (py "abnormality-detector") (py "1.1") (py "NOW");
         Print (py "Giving 30 seconds for the kinesis analytics application to boot");
         Sleep 30 ], Ok ())
  | Some e =>
      if ResourceInUseException e
      then ([ StartApplication (py "abnormality-detector") (py "1.1") (py "NOW");
              Print (py "Application already running, skipping start up step") ],
            Ok ())
      else ([ StartApplication (py "abnormality-detector") (py "1.1") (py "NOW") ],
            Raise e)
  end.
Proof.
  unfold bootstrap, start_application, try_except.
  destruct (start_outcome b) as [e|]; [|reflexivity].
  cbn. by destruct (ResourceInUseException e).
Qed.

Lemma startup_emits_nothing b : emitted (startup b).1 = [].
Proof.
  unfold startup, input. rewrite bootstrap_cases.
  destruct (start_outcome b) as [e|]; [destruct (ResourceInUseException e)|];
    destruct (stdin b); reflexivity.
Qed.

Lemma startup_banks b g : (startup b).2 = Ok g → banks g = make_banks b.
Proof.
  unfold startup, input. rewrite bootstrap_cases.
  destruct (start_outcome b) as [e|]; [destruct (ResourceInUseException e)|];
    destruct (stdin b); cbn; by intros [= <-].
Qed.

(** C8: the generator fills its pool with ten bank identifiers before its
    loop; every record it emits, however many, carries a [bankId] of that
    pool; and after any number of turns the pool is what it was. *)
Theorem bank_pool b ticks :
  length (make_banks b) = 10%nat
  ∧ (∀ data, data ∈ emitted (producer float_repr b ticks).1 →
       ∃ p bank, data = dumps p
                 ∧ getitem p (KStr (py "bankId")) = Ok (VStr bank)
                 ∧ bank ∈ make_banks b)
  ∧ (∀ g, (producer float_repr b ticks).2 = Ok g → banks g = make_banks b).
Proof.
  split; [done|]. unfold producer.
  rewrite bind_fst, bind_snd, emitted_app, startup_emits_nothing.
  pose proof (startup_banks b) as Hb.
  destruct (startup b).2 as [g0|e].
  - destruct (loop_spec ticks g0) as [H1 H2]. rewrite (Hb g0 eq_refl) in H1, H2.
    split; [|done]. intros data Hin. by apply H1.
  - split; [|done]. by intros data ?%elem_of_nil.
Qed.

(** C9: when the call that starts the application reports that it is
    already running, the generator prints so and goes on: with a stream name
    typed in, and as long as the stream accepts the records, every turn emits
    one.  When the call fails in any other way, the generator ends with that
    exception: the call was its only action, made once, no record is
    emitted. *)
Theorem bootstrap_policy b ticks e :
  start_outcome b = Some e →
  if ResourceInUseException e
  then
    bootstrap b
    = ([ StartApplication (py "abnormality-detector") (py "1.1") (py "NOW");
         Print (py "Application already running, skipping start up step") ], Ok ())
    ∧ (is_Some (stdin b) →
       Forall (λ t, ∃ r, put_record_outcome t = Ok r) ticks →
       length (emitted (producer float_repr b ticks).1) = length ticks
       ∧ ∃ g, (producer float_repr b ticks).2 = Ok g)
  else
    producer float_repr b ticks
    = ([ StartApplication (py "abnormality-detector") (py "1.1") (py "NOW") ], Raise e)
    ∧ emitted (producer float_repr b ticks).1 = []
    ∧ start_calls (producer float_repr b ticks).1 = 1%nat.
Proof.
  intros He. pose proof (bootstrap_cases b) as Hboot. rewrite He in Hboot.
  destruct (ResourceInUseException e) eqn:Hin.
  - split; [done|]. intros [line Hline] Hall.
    unfold producer. rewrite bind_fst, bind_snd, emitted_app, startup_emits_nothing.
    assert (Hst : (startup b).2
                  = Ok {| rootSteamName := line; banks := make_banks b;
                          payload := None; response := None |}).
    { unfold startup, input. rewrite Hboot, Hline. reflexivity. }
    rewrite Hst. by apply loop_emits.
  - assert (Hp : producer float_repr b ticks
      = ([ StartApplication (py "abnormality-detector") (py "1.1") (py "NOW") ], Raise e)).
    { unfold producer, startup. by rewrite Hboot. }
    by rewrite Hp.
Qed.

End Loop.

(** The claims at a generator of three turns. *)

Import Scenario.

Lemma bank_pool_witness :
  length (emitted (producer a_float_repr boot_in_use three_ticks).1) = 3%nat
  ∧ Forall (λ data, ∃ p bank, data = json_dumps a_float_repr p
                      ∧ getitem p (KStr (py "bankId")) = Ok (VStr bank)
                      ∧ bank ∈ make_banks boot_in_use)
      (emitted (producer a_float_repr boot_in_use three_ticks).1).
Proof.
  split; [vm_compute; reflexivity|]. apply Forall_forall.
  apply (bank_pool a_float_repr boot_in_use three_ticks).
Defined.

Lemma bootstrap_policy_witness :
  (length (emitted (producer a_float_repr boot_in_use three_ticks).1) = length three_ticks
   ∧ ∃ g, (producer a_float_repr boot_in_use three_ticks).2 = Ok g)
  ∧ producer a_float_repr boot_denied three_ticks
    = ([ StartApplication (py "abnormality-detector") (py "1.1") (py "NOW") ],
       Raise (ClientError "AccessDeniedException")).
Proof.
  split.
  - apply (bootstrap_policy a_float_repr boot_in_use three_ticks
             (ClientError "ResourceInUseException") eq_refl).
    + by eexists.
    + repeat constructor; eexists; reflexivity.
  - apply (bootstrap_policy a_float_repr boot_denied three_ticks
             (ClientError "AccessDeniedException") eq_refl).
Defined.

End ProducerClaims.

(** ** Further properties of the handler *)

Import More.

Module HandlerMore.
Import Json Contract Fanout Base64 Utf8 AuxFacts TransportFacts HandlerFacts Scenario
  FanoutClaims.

Section Handler.

Variable float_repr : pyfloat → list Z.
Variable environ : gmap (list Z) (list Z).

Local Abbreviation dumps := (json_dumps float_repr).
Local Abbreviation handler := (Fanout.handler float_repr environ).
Local Abbreviation inspected := (attribute_not_exists (py "inspectedAt")).
Local Abbreviation collision := (ClientError "ConditionalCheckFailedException").

(** What a valid record's payload decodes to. *)
Lemma encoded_decodes D data more :
  valid D → encode float_repr (VDict (to_dict D)) = Ok data →
  decode_payload (event_of data more) = Ok (VDict (to_dict D)).
Proof.
  intros Hpl%valid_plain Henc. rewrite encode_plain in Henc by done.
  apply Ok_inj in Henc as <-. by apply decode_payload_encode.
Qed.

(** A record whose row was inspected is refused, whatever the clock. *)
Lemma redelivery_refused amb event context w D table t old :
  decode_payload event = Ok (VDict (to_dict D)) →
  environ !! py "TABLE_NAME" = Some table →
  tables w !! table = Some t → t !! transactionId D = Some old →
  dict_has old (py "inspectedAt") = true →
  let e := match put_fault amb with Some e => e | None => collision end in
  handler amb event context w = (Raise e, refused w table (enriched (now amb) D) e).
Proof.
  intros Hd Htn Ht Hold Hi e. subst e.
  destruct (put_fault amb) as [e|] eqn:Hpf.
  - rewrite handler_unfold, Hd, (os_environ_Some _ _ _ Htn), build_item_to_dict.
    unfold put_item, put_item_tables. by rewrite has_float_enriched, Hpf.
  - eapply handler_collides;
      [exact Hd | done | apply build_item_to_dict | done | reflexivity | done
      | exact Ht | exact Hold | done].
Qed.

(** X1: when the topic refuses the message, the invocation ends with the
    topic's exception after the item was written: the row is in the table,
    no topic has a new message, and every later delivery of the same record
    is refused by the condition, so the record is never published. *)
Theorem publish_failure_after_write amb context w more D data table arn t e :
  valid D → encode float_repr (VDict (to_dict D)) = Ok data →
  environ !! py "TABLE_NAME" = Some table → environ !! py "TOPIC_ARN" = Some arn →
  put_fault amb = None → publish_fault amb = Some e →
  tables w !! table = Some t → t !! transactionId D = None →
  ∃ w1,
    handler amb (event_of data more) context w = (Raise e, w1)
    ∧ stored w1 table (transactionId D) = Some (enriched (now amb) D)
    ∧ topics w1 = topics w
    ∧ ∀ amb', put_fault amb' = None →
        handler amb' (event_of data more) context w1
        = (Raise collision, refused w1 table (enriched (now amb') D) collision).
Proof.
  intros Hv Henc Htn Harn Hpf Hqf Ht Hk.
  pose proof (encoded_decodes D data more Hv Henc) as Hd.
  set (it := enriched (now amb) D).
  exists {| tables := <[table := <[transactionId D := it]> t]> (tables w);
            topics := topics w;
            calls := calls w ++ [CPutItem table it None;
                                 CPublish arn (dumps (VDict it)) (Some e)] |}.
  split.
  { rewrite handler_unfold, Hd, (os_environ_Some _ _ _ Htn), build_item_to_dict, Hpf.
    rewrite (put_item_accepted _ _ _ _ (transactionId D)) by (done || by rewrite Hk).
    rewrite (os_environ_Some _ _ _ Harn), Hqf.
    unfold publish, publish_topics. cbn [topics tables calls outcome_of].
    by rewrite <- app_assoc. }
  split.
  { unfold stored. cbn [tables]. rewrite lookup_insert_eq. cbn. by rewrite lookup_insert_eq. }
  split; [done|].
  intros amb' Hpf'.
  pose proof (redelivery_refused amb' (event_of data more) context
    {| tables := <[table := <[transactionId D := it]> t]> (tables w);
       topics := topics w;
       calls := calls w ++ [CPutItem table it None;
                            CPublish arn (dumps (VDict it)) (Some e)] |}
    D table (<[transactionId D := it]> t) it Hd Htn) as H.
  cbn [tables] in H. rewrite !lookup_insert_eq in H. rewrite Hpf' in H.
  by apply H.
Qed.

(** X2: [TOPIC_ARN] is read after the write (line 41): without it the
    invocation ends with [KeyError] of that name, the item is in the table,
    the write is the only call and nothing is published. *)
Theorem topic_unset_after_write amb context w more D data table t :
  valid D → encode float_repr (VDict (to_dict D)) = Ok data →
  environ !! py "TABLE_NAME" = Some table → environ !! py "TOPIC_ARN" = None →
  put_fault amb = None →
  tables w !! table = Some t → t !! transactionId D = None →
  handler amb (event_of data more) context w
  = (Raise (KeyError (KStr (py "TOPIC_ARN"))),
     {| tables := <[table := <[transactionId D := enriched (now amb) D]> t]> (tables w);
        topics := topics w;
        calls := calls w ++ [CPutItem table (enriched (now amb) D) None] |}).
Proof.
  intros Hv Henc Htn Harn Hpf Ht Hk.
  pose proof (encoded_decodes D data more Hv Henc) as Hd.
  rewrite handler_unfold, Hd, (os_environ_Some _ _ _ Htn), build_item_to_dict, Hpf.
  rewrite (put_item_accepted _ _ _ _ (transactionId D)) by (done || by rewrite Hk).
  unfold os_environ. by rewrite Harn.
Qed.

(** X3: the condition looks at [inspectedAt], not at the key: a row
    with the record's [transactionId] that has no [inspectedAt] is replaced
    by the enriched item, and the invocation publishes and returns 200. *)
Theorem uninspected_row_overwritten amb context w more D data table arn t ms old :
  valid D → encode float_repr (VDict (to_dict D)) = Ok data →
  environ !! py "TABLE_NAME" = Some table → environ !! py "TOPIC_ARN" = Some arn →
  put_fault amb = None → publish_fault amb = None →
  tables w !! table = Some t → t !! transactionId D = Some old →
  dict_has old (py "inspectedAt") = false →
  topics w !! arn = Some ms →
  handler amb (event_of data more) context w
  = (Ok (ack float_repr (enriched (now amb) D)),
     delivered float_repr w table t (transactionId D) (enriched (now amb) D) arn ms)
  ∧ stored (delivered float_repr w table t (transactionId D) (enriched (now amb) D) arn ms)
      table (transactionId D) = Some (enriched (now amb) D).
Proof.
  intros Hv Henc Htn Harn Hpf Hqf Ht Hold Hi Hms.
  pose proof (encoded_decodes D data more Hv Henc) as Hd. split.
  - eapply handler_delivers;
      [exact Hd | done | done | apply build_item_to_dict
      | done | reflexivity | done | done | exact Ht | | done].
    rewrite Hold. cbn [holds]. by rewrite Hi.
  - unfold stored, delivered. cbn [tables]. rewrite lookup_insert_eq. cbn.
    by rewrite lookup_insert_eq.
Qed.


(** The tables after an invocation: as before, or with the item of the
    invocation written under its key in the configured table. *)
Lemma handler_tables amb event context w :
  tables (handler amb event context w).2 = tables w
  ∨ ∃ data table t it k,
      environ !! py "TABLE_NAME" = Some table ∧ tables w !! table = Some t
      ∧ build_item amb data = Ok it ∧ key_of it = Some k
      ∧ tables (handler amb event context w).2
        = <[table := <[k := it]> t]> (tables w).
Proof.
  remember (handler amb event context w).2 as w' eqn:Hw'.
  rewrite handler_unfold in Hw'.
  destruct (decode_payload event) as [data|]; [|left; by subst].
  destruct (os_environ environ (py "TABLE_NAME")) as [table|] eqn:Htn;
    [|left; by subst].
  assert (Htn' : environ !! py "TABLE_NAME" = Some table).
  { unfold os_environ in Htn. by destruct (environ !! py "TABLE_NAME") as [?|]; simplify_eq. }
  destruct (build_item amb data) as [it|] eqn:Hit; [|left; by subst].
  destruct (put_item _ _ _ _ w) as [r1 w1] eqn:Hput.
  assert (H1 : tables w1 = tables w
               ∨ ∃ t k, tables w !! table = Some t ∧ key_of it = Some k
                        ∧ tables w1 = <[table := <[k := it]> t]> (tables w)).
  { unfold put_item, put_item_tables in Hput.
    destruct (has_float (VDict it)); [apply (inj2 pair) in Hput as [_ <-]; by left|].
    destruct (put_fault amb); [apply (inj2 pair) in Hput as [_ <-]; by left|].
    destruct (tables w !! table) as [t|]; [|apply (inj2 pair) in Hput as [_ <-]; by left].
    destruct (key_of it) as [k|]; [|apply (inj2 pair) in Hput as [_ <-]; by left].
    destruct (holds inspected (t !! k)); apply (inj2 pair) in Hput as [_ <-];
      [right; eauto | by left]. }
  assert (Hdone : tables w' = tables w1 →
            tables w' = tables w
            ∨ ∃ data table t it k,
                environ !! py "TABLE_NAME" = Some table ∧ tables w !! table = Some t
                ∧ build_item amb data = Ok it ∧ key_of it = Some k
                ∧ tables w' = <[table := <[k := it]> t]> (tables w)).
  { intros ->. destruct H1 as [->|(t & k & Ht & Hk & ->)]; [by left|].
    right. by exists data, table, t, it, k. }
  apply Hdone.
  destruct r1 as [[]|]; [|by subst].
  destruct (os_environ environ (py "TOPIC_ARN")); [|by subst].
  destruct (publish _ _ _ w1) as [r2 w2] eqn:Hpub. apply publish_keeps in Hpub.
  destruct r2 as [[]|]; by subst.
Qed.

Lemma handler_topics amb event context w arn :
  topics (handler amb event context w).2 !! arn = topics w !! arn
  ∨ ∃ ms msg, topics w !! arn = Some ms
              ∧ topics (handler amb event context w).2 !! arn = Some (ms ++ [msg]).
Proof.
  remember (handler amb event context w).2 as w' eqn:Hw'.
  rewrite handler_unfold in Hw'.
  destruct (decode_payload event) as [data|]; [|left; by subst].
  destruct (os_environ environ (py "TABLE_NAME")) as [table|]; [|left; by subst].
  destruct (build_item amb data) as [it|]; [|left; by subst].
  destruct (put_item _ _ _ _ w) as [r1 w1] eqn:Hput.
  assert (H1 : topics w1 = topics w).
  { unfold put_item in Hput.
    destruct (put_item_tables _ _ _ _ _); by apply (inj2 pair) in Hput as [_ <-]. }
  destruct r1 as [[]|]; [|left; subst w'; cbn [snd]; by rewrite H1].
  destruct (os_environ environ (py "TOPIC_ARN")) as [arn'|]; [|left; subst w'; cbn [snd]; by rewrite H1].
  unfold publish, publish_topics in Hw'. rewrite H1 in Hw'.
  destruct (publish_fault amb); [left; by subst|].
  destruct (topics w !! arn') as [ms|] eqn:Hms; [|left; by subst].
  subst w'. cbn [snd topics].
  destruct (decide (arn' = arn)) as [->|Hne].
  - right. exists ms, (dumps (VDict it)). by rewrite lookup_insert_eq.
  - left. by rewrite lookup_insert_ne.
Qed.

(** X4: what one invocation, on any event and in any world, does to the
    store and the topics.  No row is removed; a row that changes is in the
    table named by [TABLE_NAME], under the [transactionId] it carries, with
    [inspectedAt] set to the time of the invocation; at most one row
    changes; a topic is left as it was or gets one message at its end. *)
Theorem invocation_frame amb event context w :
  (∀ tn k, is_Some (stored w tn k) →
           is_Some (stored (handler amb event context w).2 tn k))
  ∧ (∀ tn k,
       stored (handler amb event context w).2 tn k ≠ stored w tn k →
       environ !! py "TABLE_NAME" = Some tn
       ∧ ∃ it, stored (handler amb event context w).2 tn k = Some it
               ∧ key_of it = Some k
               ∧ dict_get it (py "inspectedAt") = Some (VStr (datetime_str (now amb))))
  ∧ (∀ tn k tn' k',
       stored (handler amb event context w).2 tn k ≠ stored w tn k →
       stored (handler amb event context w).2 tn' k' ≠ stored w tn' k' →
       tn = tn' ∧ k = k')
  ∧ (∀ arn,
       topics (handler amb event context w).2 !! arn = topics w !! arn
       ∨ ∃ ms msg, topics w !! arn = Some ms
                   ∧ topics (handler amb event context w).2 !! arn = Some (ms ++ [msg])).
Proof.
  destruct (handler_tables amb event context w)
    as [Heq|(data & table & t & it & k0 & Htn & Ht & Hit & Hk & Heq)].
  { assert (Hsame : ∀ tn k, stored (handler amb event context w).2 tn k = stored w tn k)
      by (intros; unfold stored; by rewrite Heq).
    split; [|split; [|split]].
    - intros tn k. by rewrite Hsame.
    - intros tn k Hne. by rewrite Hsame in Hne.
    - intros tn k tn' k' Hne. by rewrite Hsame in Hne.
    - apply handler_topics. }
  assert (Hother : ∀ tn k, ¬ (tn = table ∧ k = k0) →
            stored (handler amb event context w).2 tn k = stored w tn k).
  { intros tn k Hne. unfold stored. rewrite Heq.
    destruct (decide (table = tn)) as [<-|?]; [|by rewrite lookup_insert_ne].
    rewrite lookup_insert_eq, Ht. cbn.
    destruct (decide (k0 = k)) as [<-|?]; [tauto | by rewrite lookup_insert_ne]. }
  assert (Hthis : stored (handler amb event context w).2 table k0 = Some it).
  { unfold stored. rewrite Heq, lookup_insert_eq. cbn. by rewrite lookup_insert_eq. }
  assert (Hchanged : ∀ tn k,
            stored (handler amb event context w).2 tn k ≠ stored w tn k →
            tn = table ∧ k = k0).
  { intros tn k Hne. destruct (decide (tn = table ∧ k = k0)) as [?|Hn]; [done|].
    by rewrite Hother in Hne. }
  split; [|split; [|split]].
  - intros tn k Hsome. destruct (decide (tn = table ∧ k = k0)) as [[-> ->]|Hn].
    + by rewrite Hthis.
    + by rewrite Hother.
  - intros tn k [-> ->]%Hchanged. split; [done|]. exists it.
    split; [done|]. split; [done|].
    by destruct (build_item_inv _ _ _ Hit) as (? & ? & _ & _ & _ & ?).
  - intros tn k tn' k' [-> ->]%Hchanged [-> ->]%Hchanged. done.
  - apply handler_topics.
Qed.


Lemma redeliveries_refused D table event ambs : ∀ w t old,
  decode_payload event = Ok (VDict (to_dict D)) →
  environ !! py "TABLE_NAME" = Some table →
  tables w !! table = Some t → t !! transactionId D = Some old →
  dict_has old (py "inspectedAt") = true →
  tables (deliveries float_repr environ (redeliveries event ambs) w) = tables w
  ∧ topics (deliveries float_repr environ (redeliveries event ambs) w) = topics w
  ∧ calls (deliveries float_repr environ (redeliveries event ambs) w)
    = calls w
      ++ ((λ amb', CPutItem table (enriched (now amb') D)
                     (Some (match put_fault amb' with
                            | Some e => e
                            | None => collision
                            end))) <$> ambs).
Proof.
  induction ambs as [|amb' ambs IH]; intros w t old Hd Htn Ht Hold Hi.
  { cbn. by rewrite app_nil_r. }
  cbn [redeliveries fmap list_fmap deliveries].
  pose proof (redelivery_refused amb' event VNone w D table t old Hd Htn Ht Hold Hi) as H.
  cbv zeta in H. rewrite H. cbn [snd].
  destruct (IH (refused w table (enriched (now amb') D)
                  (match put_fault amb' with Some e => e | None => collision end))
               t old Hd Htn Ht Hold Hi) as (H1 & H2 & H3).
  unfold redeliveries in *. rewrite H1, H2, H3. cbn [refused tables topics calls].
  by rewrite <- app_assoc.
Qed.

(** X5: once a delivery of a valid record has returned, any number of
    further deliveries of it, whatever the clock and whether the store
    answers or not, leave every table and every topic as they are: each one
    only adds its refused write to the calls. *)
Theorem redeliveries_change_nothing amb context w more D data v w1 ambs :
  valid D → encode float_repr (VDict (to_dict D)) = Ok data →
  handler amb (event_of data more) context w = (Ok v, w1) →
  ∃ table,
    environ !! py "TABLE_NAME" = Some table
    ∧ tables (deliveries float_repr environ (redeliveries (event_of data more) ambs) w1)
      = tables w1
    ∧ topics (deliveries float_repr environ (redeliveries (event_of data more) ambs) w1)
      = topics w1
    ∧ calls (deliveries float_repr environ (redeliveries (event_of data more) ambs) w1)
      = calls w1
        ++ ((λ amb', CPutItem table (enriched (now amb') D)
                       (Some (match put_fault amb' with
                              | Some e => e
                              | None => collision
                              end))) <$> ambs).
Proof.
  intros Hv Henc Hfirst.
  pose proof (encoded_decodes D data more Hv Henc) as Hd.
  destruct (handler_Ok_inv _ _ _ _ _ _ _ _ Hfirst)
    as (data' & table & it & k & Hd' & Htn & Hit & Hk & Hst & _).
  rewrite Hd in Hd'. apply Ok_inj in Hd' as <-.
  rewrite build_item_to_dict in Hit. apply Ok_inj in Hit as <-.
  rewrite key_of_enriched in Hk. apply (inj Some) in Hk as <-.
  exists table. split; [done|].
  unfold stored in Hst. destruct (tables w1 !! table) as [t|] eqn:Ht; [|done].
  cbn in Hst. by eapply redeliveries_refused.
Qed.

(** Lines 24 to 29 on a [dict] that lacks a field. *)
Lemma build_item_first_missing amb d f :
  first_missing d = Some f → build_item amb (VDict d) = Raise (KeyError (KStr f)).
Proof.
  unfold first_missing, required, build_item, dict_has. cbn [List.find getitem].
  repeat match goal with
  | |- context [dict_get d ?k] => destruct (dict_get d k) eqn:?; cbn [negb mbind result_mbind result_bind]
  end;
  intros [= <-] || (intros; discriminate); done.
Qed.

Lemma build_item_none_missing amb d :
  first_missing d = None →
  ∃ v1 v2 v3 v4 v5 v6,
    dict_get d (py "transactionId") = Some v1 ∧ dict_get d (py "name") = Some v2
    ∧ dict_get d (py "city") = Some v3 ∧ dict_get d (py "transaction") = Some v4
    ∧ dict_get d (py "bankId") = Some v5 ∧ dict_get d (py "createdAt") = Some v6
    ∧ build_item amb (VDict d)
      = (ce ← add_int v4 500;
         Ok [ (py "transactionId", v1); (py "name", v2); (py "city", v3);
              (py "transaction", v4); (py "bankId", v5); (py "createdAt", v6);
              (py "customEnrichment", ce);
              (py "inspectedAt", VStr (datetime_str (now amb))) ]).
Proof.
  unfold first_missing, required, build_item, dict_has. cbn [List.find getitem].
  destruct (dict_get d (py "transactionId")) as [v1|]; [|done].
  destruct (dict_get d (py "name")) as [v2|]; [|done].
  destruct (dict_get d (py "city")) as [v3|]; [|done].
  destruct (dict_get d (py "transaction")) as [v4|]; [|done].
  destruct (dict_get d (py "bankId")) as [v5|]; [|done].
  destruct (dict_get d (py "createdAt")) as [v6|]; [|done].
  intros _. by exists v1, v2, v3, v4, v5, v6.
Qed.

(** X6: the six fields are read in the order of lines 24 to 29: when
    some are missing, the invocation raises [KeyError] of the first missing
    one in that order, before any call. *)
Theorem first_missing_field_named amb event context w d f table :
  decode_payload event = Ok (VDict d) → environ !! py "TABLE_NAME" = Some table →
  first_missing d = Some f →
  handler amb event context w = (Raise (KeyError (KStr f)), w).
Proof.
  intros Hd Htn Hf.
  rewrite handler_unfold, Hd, (os_environ_Some _ _ _ Htn).
  by rewrite (build_item_first_missing _ _ _ Hf).
Qed.

(** X7: with all six fields there, a [transaction] that is no number (a
    string, [None], a list, a [dict]) makes line 30 raise [TypeError]
    before any call: nothing is written or published. *)
Theorem not_a_number_fails amb event context w d tv table :
  decode_payload event = Ok (VDict d) → environ !! py "TABLE_NAME" = Some table →
  first_missing d = None → dict_get d (py "transaction") = Some tv →
  not_a_number tv = true →
  handler amb event context w = (Raise TypeError, w).
Proof.
  intros Hd Htn Hf Htv Hnn.
  rewrite handler_unfold, Hd, (os_environ_Some _ _ _ Htn).
  destruct (build_item_none_missing amb d Hf)
    as (v1 & v2 & v3 & v4 & v5 & v6 & _ & _ & _ & H4 & _ & _ & ->).
  rewrite Htv in H4. apply (inj Some) in H4 as <-.
  by destruct tv.
Qed.

(** X8: a [transaction] with a fraction is enriched as a float, and the
    write refuses the item with [TypeError]: nothing is stored, nothing is
    published. *)
Theorem float_amount_fails amb event context w d x table :
  decode_payload event = Ok (VDict d) → environ !! py "TABLE_NAME" = Some table →
  first_missing d = None → dict_get d (py "transaction") = Some (VFloat x) →
  ∃ it,
    build_item amb (VDict d) = Ok it
    ∧ dict_get it (py "customEnrichment") = Some (VFloat (FAdd x 500))
    ∧ handler amb event context w = (Raise TypeError, refused w table it TypeError).
Proof.
  intros Hd Htn Hf Htv.
  destruct (build_item_none_missing amb d Hf)
    as (v1 & v2 & v3 & v4 & v5 & v6 & _ & _ & _ & H4 & _ & _ & Hit).
  rewrite Htv in H4. apply (inj Some) in H4 as <-.
  cbn [add_int mbind result_mbind result_bind] in Hit.
  eexists. split; [exact Hit|]. split; [reflexivity|].
  rewrite handler_unfold, Hd, (os_environ_Some _ _ _ Htn), Hit.
  unfold put_item, put_item_tables.
  match goal with |- context [has_float ?v] =>
    replace (has_float v) with true end; [done|].
  cbn [has_float existsb snd]. by rewrite !orb_true_r.
Qed.


End Handler.





(** The text of a time is made of digits and punctuation. *)
Lemma digit_scalar c : is_digit c = true → scalar c = true.
Proof. unfold is_digit, scalar, is_surrogate. lia. Qed.

Lemma zfill_text w n : text (zfill w n) = true.
Proof.
  unfold zfill, text. rewrite forallb_app. apply andb_true_iff. split.
  - induction (w - length (digits n))%nat as [|m IH]; [done|]. cbn. exact IH.
  - pose proof (IntFacts.digits_digit n) as H. rewrite forallb_forall in *.
    intros c Hc. by apply digit_scalar, H.
Qed.

Lemma datetime_str_text dt : text (datetime_str dt) = true.
Proof.
  unfold datetime_str.
  assert (Happ : ∀ a b, text a = true → text b = true → text (a ++ b) = true).
  { intros a b Ha Hb. unfold text in *. by rewrite forallb_app, Ha, Hb. }
  repeat (apply Happ; [first [apply zfill_text | reflexivity]|]).
  destruct (microsecond dt =? 0); [done|]. apply Happ; [reflexivity | apply zfill_text].
Qed.

Lemma enriched_plain t D : valid D → plain (VDict (enriched t D)) = true.
Proof.
  intros (H1 & H2 & H3 & H4 & H5). cbn [plain enriched to_dict app forallb fst snd].
  rewrite H1, H2, H3, H4, H5, datetime_str_text. reflexivity.
Qed.

Lemma has_float_cons k v d :
  has_float (VDict ((k, v) :: d)) = has_float v || has_float (VDict d).
Proof. reflexivity. Qed.

(** Characters that [a2b_base64] does not look at can be left out. *)
Lemma a2b_loop_filter s : ∀ q l p,
  a2b_loop (List.filter significant s) q l p = a2b_loop s q l p.
Proof.
  induction s as [|c s IH]; intros q l p; [done|].
  cbn [List.filter]. unfold significant at 1.
  destruct (Z.eqb_spec c 61) as [->|Hc].
  - cbn [orb a2b_loop]. change (61 =? 61) with true. cbv iota.
    destruct (2 <=? q); [destruct (4 <=? q + (p + 1)); [done|]|]; apply IH.
  - cbn [orb]. destruct (a2b c) as [d|] eqn:Hd.
    + cbn [a2b_loop]. destruct (Z.eqb_spec c 61); [done|]. rewrite Hd.
      by rewrite !IH.
    + cbn [a2b_loop]. destruct (Z.eqb_spec c 61); [done|]. rewrite Hd. apply IH.
Qed.

Lemma filter_ascii s :
  forallb is_ascii s = true → forallb is_ascii (List.filter significant s) = true.
Proof.
  induction s as [|c s IH]; [done|]. cbn. intros [Hc Hs]%andb_true_iff.
  destruct (significant c); cbn; rewrite ?Hc; by apply IH.
Qed.

Section Handler2.

Variable float_repr : pyfloat → list Z.
Variable environ : gmap (list Z) (list Z).

Local Abbreviation dumps := (json_dumps float_repr).
Local Abbreviation handler := (Fanout.handler float_repr environ).


(** X10: the shape of the event that line 17 relies on.  An event
    without [records] raises [KeyError]; an empty list of records,
    [IndexError]; a first record without [data], [KeyError]; a [data] that
    is no string, [TypeError]; each before any call. *)
Theorem malformed_event_fails amb context w d :
  (dict_get d (py "records") = None →
   handler amb (VDict d) context w = (Raise (KeyError (KStr (py "records"))), w))
  ∧ (dict_get d (py "records") = Some (VList []) →
     handler amb (VDict d) context w = (Raise IndexError, w))
  ∧ (∀ r more, dict_get d (py "records") = Some (VList (VDict r :: more)) →
       dict_get r (py "data") = None →
       handler amb (VDict d) context w = (Raise (KeyError (KStr (py "data"))), w))
  ∧ (∀ r more x, dict_get d (py "records") = Some (VList (VDict r :: more)) →
       dict_get r (py "data") = Some x → (∀ s, x ≠ VStr s) →
       handler amb (VDict d) context w = (Raise TypeError, w)).
Proof.
  split; [|split; [|split]].
  - intros H. rewrite handler_unfold. unfold decode_payload. cbn [getitem]. by rewrite H.
  - intros H. rewrite handler_unfold. unfold decode_payload. cbn [getitem]. by rewrite H.
  - intros r more H Hr. rewrite handler_unfold. unfold decode_payload.
    cbn [getitem]. rewrite H. cbn [mbind result_mbind result_bind].
    change (getitem (VList (VDict r :: more)) (KInt 0)) with (Ok (VDict r)).
    cbn [mbind result_mbind result_bind getitem]. by rewrite Hr.
  - intros r more x H Hr Hx. rewrite handler_unfold. unfold decode_payload.
    cbn [getitem]. rewrite H. cbn [mbind result_mbind result_bind].
    change (getitem (VList (VDict r :: more)) (KInt 0)) with (Ok (VDict r)).
    cbn [mbind result_mbind result_bind getitem]. rewrite Hr.
    cbn [mbind result_mbind result_bind].
    destruct x; try done. by destruct (Hx s).
Qed.


(** X11: on a first delivery of a valid record the body returned is the
    message published, it is ASCII, and [json.loads] of it is the item that
    was stored. *)
Theorem published_parses_back amb context w more D data table arn t ms :
  valid D → encode float_repr (VDict (to_dict D)) = Ok data →
  environ !! py "TABLE_NAME" = Some table → environ !! py "TOPIC_ARN" = Some arn →
  put_fault amb = None → publish_fault amb = None →
  tables w !! table = Some t → t !! transactionId D = None →
  topics w !! arn = Some ms →
  ∃ body w',
    handler amb (event_of data more) context w
    = (Ok (VDict [ (py "statusCode", VInt 200); (py "body", VStr body) ]), w')
    ∧ topics w' !! arn = Some (ms ++ [body])
    ∧ stored w' table (transactionId D) = Some (enriched (now amb) D)
    ∧ json_loads body = Ok (VDict (enriched (now amb) D))
    ∧ forallb is_ascii body = true.
Proof.
  intros Hv Henc Htn Harn Hpf Hqf Ht Hk Hms.
  pose proof (enriched_plain (now amb) D Hv) as Hpl.
  exists (dumps (VDict (enriched (now amb) D))),
    (delivered float_repr w table t (transactionId D) (enriched (now amb) D) arn ms).
  split.
  { eapply handler_delivers;
      [by eapply encoded_decodes | done | done | apply build_item_to_dict
      | done | reflexivity | done | done | exact Ht | by rewrite Hk | done]. }
  split; [unfold delivered; cbn [topics]; by rewrite lookup_insert_eq|].
  split.
  { unfold stored, delivered. cbn [tables]. rewrite lookup_insert_eq. cbn.
    by rewrite lookup_insert_eq. }
  split; [by apply JsonFacts.json_loads_dumps | by apply dumps_ascii].
Qed.

(** X12: line 18 decodes without validation: characters of an ASCII
    payload that are neither of the base64 alphabet nor the padding are
    skipped, so the payload with them and the payload without them decode
    alike, and the invocations on them end alike. *)
Theorem junk_in_payload_ignored amb context w s more :
  forallb is_ascii s = true →
  decode_payload (event_of (List.filter significant s) more)
  = decode_payload (event_of s more)
  ∧ handler amb (event_of (List.filter significant s) more) context w
    = handler amb (event_of s more) context w.
Proof.
  intros Hs.
  assert (Hd : decode_payload (event_of (List.filter significant s) more)
               = decode_payload (event_of s more)).
  { unfold decode_payload, event_of.
    assert (E1 : ∀ x, getitem (VDict [(py "records", x)]) (KStr (py "records")) = Ok x)
      by done.
    assert (E2 : ∀ x, getitem (VDict [(py "data", x)]) (KStr (py "data")) = Ok x)
      by done.
    rewrite !E1. cbn [mbind result_mbind result_bind].
    change (getitem (VList (?x :: more)) (KInt 0)) with (Ok x).
    cbn [mbind result_mbind result_bind]. rewrite !E2.
    cbn [mbind result_mbind result_bind]. unfold b64decode.
    by rewrite Hs, (filter_ascii s Hs), a2b_loop_filter. }
  split; [done|]. by rewrite !handler_unfold, Hd.
Qed.

(** X13: the handler checks that the six fields are there, not what
    they are: with a string [transactionId] and an integer [transaction],
    the other four are stored and published as they come, whatever their
    type (floats apart), and fields of the payload beyond the six are
    dropped. *)
Theorem fields_stored_as_they_come amb event context w d k vn vc n vb vt table arn t ms :
  decode_payload event = Ok (VDict d) →
  dict_get d (py "transactionId") = Some (VStr k) →
  dict_get d (py "name") = Some vn → dict_get d (py "city") = Some vc →
  dict_get d (py "transaction") = Some (VInt n) →
  dict_get d (py "bankId") = Some vb → dict_get d (py "createdAt") = Some vt →
  has_float vn = false → has_float vc = false →
  has_float vb = false → has_float vt = false →
  environ !! py "TABLE_NAME" = Some table → environ !! py "TOPIC_ARN" = Some arn →
  put_fault amb = None → publish_fault amb = None →
  tables w !! table = Some t → t !! k = None →
  topics w !! arn = Some ms →
  let it := [ (py "transactionId", VStr k); (py "name", vn); (py "city", vc);
              (py "transaction", VInt n); (py "bankId", vb); (py "createdAt", vt);
              (py "customEnrichment", VInt (n + 500));
              (py "inspectedAt", VStr (datetime_str (now amb))) ] in
  handler amb event context w
  = (Ok (ack float_repr it), delivered float_repr w table t k it arn ms).
Proof.
  intros Hd H1 H2 H3 H4 H5 H6 Hn Hc Hb Ht' Htn Harn Hpf Hqf Ht Hk Hms it.
  assert (Hit : build_item amb (VDict d) = Ok it).
  { unfold build_item. cbn [getitem]. rewrite H1, H2, H3, H4, H5, H6. reflexivity. }
  eapply handler_delivers;
    [exact Hd | done | done | exact Hit | | reflexivity | done | done | exact Ht
    | by rewrite Hk | done].
  unfold it. rewrite !has_float_cons, Hn, Hc, Hb, Ht'. reflexivity.
Qed.


(** X14: a handler that was not told its table serves no record.  Without
    [TABLE_NAME] every invocation, on any event, ends with an exception and
    leaves the world as it was, no call made: the exception of lines 17 to
    19 when the payload cannot be decoded, [KeyError] of [TABLE_NAME]
    otherwise, whatever the fields of the record are. *)
Theorem table_unset_fails amb event context w :
  environ !! py "TABLE_NAME" = None →
  ∃ e, handler amb event context w = (Raise e, w)
       ∧ match decode_payload event with
         | Ok _ => e = KeyError (KStr (py "TABLE_NAME"))
         | Raise e' => e = e'
         end.
Proof.
  intros Htn. rewrite handler_unfold.
  destruct (decode_payload event) as [data|e'].
  - exists (KeyError (KStr (py "TABLE_NAME"))). split; [|done].
    unfold os_environ. by rewrite Htn.
  - by exists e'.
Qed.

(** A first delivery of a valid record, with services that answer. *)
Lemma valid_delivered amb context w more D data table arn t ms :
  valid D → encode float_repr (VDict (to_dict D)) = Ok data →
  environ !! py "TABLE_NAME" = Some table → environ !! py "TOPIC_ARN" = Some arn →
  put_fault amb = None → publish_fault amb = None →
  tables w !! table = Some t → t !! transactionId D = None →
  topics w !! arn = Some ms →
  handler amb (event_of data more) context w
  = (Ok (ack float_repr (enriched (now amb) D)),
     delivered float_repr w table t (transactionId D) (enriched (now amb) D) arn ms).
Proof.
  intros Hv Henc Htn Harn Hpf Hqf Ht Hk Hms.
  eapply handler_delivers;
    [by eapply encoded_decodes | done | done | apply build_item_to_dict
    | apply has_float_enriched | reflexivity | done | done | exact Ht | by rewrite Hk | done].
Qed.

(** X15: two valid records with different [transactionId]s, delivered
    in either order to a table that has neither, leave the same tables:
    both items are stored, each with the time of its own invocation; the
    topic has both messages, in the order of the deliveries. *)
Theorem distinct_records_commute a1 a2 w more1 more2 D1 D2 d1 d2 table arn t ms :
  valid D1 → valid D2 → transactionId D1 ≠ transactionId D2 →
  encode float_repr (VDict (to_dict D1)) = Ok d1 →
  encode float_repr (VDict (to_dict D2)) = Ok d2 →
  environ !! py "TABLE_NAME" = Some table → environ !! py "TOPIC_ARN" = Some arn →
  put_fault a1 = None → publish_fault a1 = None →
  put_fault a2 = None → publish_fault a2 = None →
  tables w !! table = Some t →
  t !! transactionId D1 = None → t !! transactionId D2 = None →
  topics w !! arn = Some ms →
  let e1 := event_of d1 more1 in
  let e2 := event_of d2 more2 in
  let w12 := deliveries float_repr environ [(a1, e1); (a2, e2)] w in
  let w21 := deliveries float_repr environ [(a2, e2); (a1, e1)] w in
  tables w12 = tables w21
  ∧ stored w12 table (transactionId D1) = Some (enriched (now a1) D1)
  ∧ stored w12 table (transactionId D2) = Some (enriched (now a2) D2)
  ∧ topics w12 !! arn
    = Some (ms ++ [dumps (VDict (enriched (now a1) D1)); dumps (VDict (enriched (now a2) D2))])
  ∧ topics w21 !! arn
    = Some (ms ++ [dumps (VDict (enriched (now a2) D2)); dumps (VDict (enriched (now a1) D1))]).
Proof.
  intros Hv1 Hv2 Hne He1 He2 Htn Harn Hp1 Hq1 Hp2 Hq2 Ht Hk1 Hk2 Hms e1 e2 w12 w21.
  assert (Hpair : ∀ a b da db Da Db morea moreb,
    valid Da → valid Db → transactionId Da ≠ transactionId Db →
    encode float_repr (VDict (to_dict Da)) = Ok da →
    encode float_repr (VDict (to_dict Db)) = Ok db →
    put_fault a = None → publish_fault a = None →
    put_fault b = None → publish_fault b = None →
    t !! transactionId Da = None → t !! transactionId Db = None →
    deliveries float_repr environ [(a, event_of da morea); (b, event_of db moreb)] w
    = delivered float_repr
        (delivered float_repr w table t (transactionId Da) (enriched (now a) Da) arn ms)
        table (<[transactionId Da := enriched (now a) Da]> t)
        (transactionId Db) (enriched (now b) Db) arn
        (ms ++ [dumps (VDict (enriched (now a) Da))])).
  { intros a b da db Da Db morea moreb Hva Hvb Hab Hea Heb Hpa Hqa Hpb Hqb Hka Hkb.
    cbn [deliveries].
    rewrite (valid_delivered a VNone w morea Da da table arn t ms) by done.
    cbn [snd].
    rewrite (valid_delivered b VNone _ moreb Db db table arn
               (<[transactionId Da := enriched (now a) Da]> t)
               (ms ++ [dumps (VDict (enriched (now a) Da))])); try done.
    - unfold delivered. cbn [tables]. by rewrite lookup_insert_eq.
    - by rewrite lookup_insert_ne.
    - unfold delivered. cbn [topics]. by rewrite lookup_insert_eq. }
  subst w12 w21 e1 e2.
  rewrite (Hpair a1 a2 d1 d2 D1 D2) by done.
  rewrite (Hpair a2 a1 d2 d1 D2 D1) by done.
  unfold stored, delivered. cbn [tables topics].
  rewrite !insert_insert_eq, !lookup_insert_eq. cbn [mbind option_bind].
  split; [f_equal; by apply insert_insert_ne|].
  split; [by rewrite lookup_insert_ne, lookup_insert_eq|].
  split; [by rewrite lookup_insert_eq|].
  by rewrite <- !app_assoc.
Qed.

End Handler2.

(** The properties at the scenario. *)

Local Abbreviation the_topic := (py "arn:aws:sns:us-east-1:1:abnormalities").
Local Abbreviation collision := (ClientError "ConditionalCheckFailedException").

Lemma publish_failure_after_write_witness :
  ∃ w1,
    handler a_float_repr an_environ topic_down (event_of wire_payload []) VNone a_world
    = (Raise (ClientError "InternalError"), w1)
    ∧ stored w1 (py "abnormalities") (py "t1") = Some (enriched a_time scenario_record)
    ∧ topics w1 = topics a_world
    ∧ ∀ amb', put_fault amb' = None →
        handler a_float_repr an_environ amb' (event_of wire_payload []) VNone w1
        = (Raise collision,
           refused w1 (py "abnormalities") (enriched (now amb') scenario_record) collision).
Proof.
  apply (publish_failure_after_write a_float_repr an_environ topic_down VNone a_world []
           scenario_record wire_payload (py "abnormalities") the_topic ∅
           (ClientError "InternalError")); crunch.
Defined.

Lemma topic_unset_after_write_witness :
  handler a_float_repr an_environ_without_topic (healthy a_time)
    (event_of wire_payload []) VNone a_world
  = (Raise (KeyError (KStr (py "TOPIC_ARN"))),
     {| tables := <[py "abnormalities" := <[py "t1" := enriched a_time scenario_record]> ∅]>
                    (tables a_world);
        topics := topics a_world;
        calls := [CPutItem (py "abnormalities") (enriched a_time scenario_record) None] |}).
Proof.
  apply (topic_unset_after_write a_float_repr an_environ_without_topic (healthy a_time)
           VNone a_world [] scenario_record wire_payload (py "abnormalities") ∅); crunch.
Defined.

Lemma uninspected_row_overwritten_witness :
  stored a_world_with_draft (py "abnormalities") (py "t1") = Some (to_dict scenario_record)
  ∧ handler a_float_repr an_environ (healthy a_time) (event_of wire_payload []) VNone
      a_world_with_draft
    = (Ok (ack a_float_repr (enriched a_time scenario_record)),
       delivered a_float_repr a_world_with_draft (py "abnormalities")
         {[ py "t1" := to_dict scenario_record ]} (py "t1")
         (enriched a_time scenario_record) the_topic []).
Proof.
  split; [crunch|].
  apply (uninspected_row_overwritten a_float_repr an_environ (healthy a_time) VNone
           a_world_with_draft [] scenario_record wire_payload (py "abnormalities")
           the_topic {[ py "t1" := to_dict scenario_record ]} []
           (to_dict scenario_record)); crunch.
Defined.

Lemma invocation_frame_witness :
  is_Some (stored second_delivery.2 (py "abnormalities") (py "t1")).
Proof.
  apply (invocation_frame a_float_repr an_environ (healthy a_later_time)
           (event_of scenario_payload []) VNone first_delivery.2).
  eexists. vm_compute. reflexivity.
Defined.

Lemma redeliveries_change_nothing_witness :
  ∃ table,
    an_environ !! py "TABLE_NAME" = Some table
    ∧ tables (deliveries a_float_repr an_environ
                (redeliveries (event_of wire_payload []) [healthy a_later_time; store_down])
                wire_first.2)
      = tables wire_first.2
    ∧ topics (deliveries a_float_repr an_environ
                (redeliveries (event_of wire_payload []) [healthy a_later_time; store_down])
                wire_first.2)
      = topics wire_first.2
    ∧ calls (deliveries a_float_repr an_environ
               (redeliveries (event_of wire_payload []) [healthy a_later_time; store_down])
               wire_first.2)
      = calls wire_first.2
        ++ [ CPutItem table (enriched a_later_time scenario_record) (Some collision);
             CPutItem table (enriched a_later_time scenario_record)
               (Some (ClientError "ProvisionedThroughputExceededException")) ].
Proof.
  apply (redeliveries_change_nothing a_float_repr an_environ (healthy a_time) VNone a_world
           [] scenario_record wire_payload
           (ack a_float_repr (enriched a_time scenario_record)) wire_first.2
           [healthy a_later_time; store_down]); crunch.
Defined.

Lemma first_missing_field_named_witness :
  handler a_float_repr an_environ (healthy a_time)
    (event_of (payload_of (VDict lacking_two)) []) VNone a_world
  = (Raise (KeyError (KStr (py "name"))), a_world).
Proof.
  apply (first_missing_field_named a_float_repr an_environ (healthy a_time)
           (event_of (payload_of (VDict lacking_two)) []) VNone a_world lacking_two
           (py "name") (py "abnormalities")); crunch.
Defined.

Lemma not_a_number_fails_witness :
  handler a_float_repr an_environ (healthy a_time)
    (event_of (payload_of (VDict amount_as_text)) []) VNone a_world
  = (Raise TypeError, a_world).
Proof.
  apply (not_a_number_fails a_float_repr an_environ (healthy a_time)
           (event_of (payload_of (VDict amount_as_text)) []) VNone a_world amount_as_text
           (VStr (py "1000")) (py "abnormalities")); crunch.
Defined.

Lemma float_amount_fails_witness :
  ∃ it,
    build_item (healthy a_time)
      (VDict [ (py "transactionId", VStr (py "t1")); (py "name", VStr (py "Alice"));
               (py "city", VStr (py "NYC")); (py "transaction", VFloat (FLit (py "10.5")));
               (py "bankId", VStr (py "BANKAAXX"));
               (py "createdAt", VStr (py "2024-01-01T00:00:00")) ]) = Ok it
    ∧ dict_get it (py "customEnrichment") = Some (VFloat (FAdd (FLit (py "10.5")) 500))
    ∧ handler a_float_repr an_environ (healthy a_time)
        (event_of (b64encode float_text) []) VNone a_world
      = (Raise TypeError, refused a_world (py "abnormalities") it TypeError).
Proof.
  apply (float_amount_fails a_float_repr an_environ (healthy a_time)
           (event_of (b64encode float_text) []) VNone a_world); crunch.
Defined.


Lemma malformed_event_fails_witness :
  handler a_float_repr an_environ (healthy a_time) (VDict []) VNone a_world
  = (Raise (KeyError (KStr (py "records"))), a_world)
  ∧ handler a_float_repr an_environ (healthy a_time)
      (VDict [(py "records", VList [])]) VNone a_world
    = (Raise IndexError, a_world)
  ∧ handler a_float_repr an_environ (healthy a_time)
      (VDict [(py "records", VList [VDict [(py "Data", VStr wire_payload)]])]) VNone a_world
    = (Raise (KeyError (KStr (py "data"))), a_world)
  ∧ handler a_float_repr an_environ (healthy a_time)
      (VDict [(py "records", VList [VDict [(py "data", VNone)]])]) VNone a_world
    = (Raise TypeError, a_world).
Proof.
  split; [|split; [|split]].
  - by apply (malformed_event_fails a_float_repr an_environ (healthy a_time) VNone a_world []).
  - by apply (malformed_event_fails a_float_repr an_environ (healthy a_time) VNone a_world
                [(py "records", VList [])]).
  - by eapply (malformed_event_fails a_float_repr an_environ (healthy a_time) VNone a_world
                 [(py "records", VList [VDict [(py "Data", VStr wire_payload)]])]).
  - by eapply (malformed_event_fails a_float_repr an_environ (healthy a_time) VNone a_world
                 [(py "records", VList [VDict [(py "data", VNone)]])]).
Defined.

Lemma published_parses_back_witness :
  ∃ body w',
    handler a_float_repr an_environ (healthy a_time) (event_of wire_payload []) VNone a_world
    = (Ok (VDict [ (py "statusCode", VInt 200); (py "body", VStr body) ]), w')
    ∧ topics w' !! the_topic = Some ([] ++ [body])
    ∧ stored w' (py "abnormalities") (py "t1") = Some (enriched a_time scenario_record)
    ∧ json_loads body = Ok (VDict (enriched a_time scenario_record))
    ∧ forallb is_ascii body = true.
Proof.
  apply (published_parses_back a_float_repr an_environ (healthy a_time) VNone a_world []
           scenario_record wire_payload (py "abnormalities") the_topic ∅ []); crunch.
Defined.

Lemma junk_in_payload_ignored_witness :
  List.filter significant (wrapped wire_payload) = wire_payload
  ∧ decode_payload (event_of (List.filter significant (wrapped wire_payload)) [])
    = decode_payload (event_of (wrapped wire_payload) [])
  ∧ handler a_float_repr an_environ (healthy a_time)
      (event_of (List.filter significant (wrapped wire_payload)) []) VNone a_world
    = handler a_float_repr an_environ (healthy a_time)
        (event_of (wrapped wire_payload) []) VNone a_world.
Proof.
  split; [crunch|].
  apply (junk_in_payload_ignored a_float_repr an_environ (healthy a_time) VNone a_world
           (wrapped wire_payload) []); crunch.
Defined.

Lemma fields_stored_as_they_come_witness :
  let it := [ (py "transactionId", VStr (py "t3")); (py "name", VInt 7);
              (py "city", VNone); (py "transaction", VInt 5);
              (py "bankId", VList [VInt 1]); (py "createdAt", VBool true);
              (py "customEnrichment", VInt (5 + 500));
              (py "inspectedAt", VStr (datetime_str a_time)) ] in
  handler a_float_repr an_environ (healthy a_time)
    (event_of (payload_of (VDict loose_record)) []) VNone a_world
  = (Ok (ack a_float_repr it),
     delivered a_float_repr a_world (py "abnormalities") ∅ (py "t3") it the_topic []).
Proof.
  apply (fields_stored_as_they_come a_float_repr an_environ (healthy a_time)
           (event_of (payload_of (VDict loose_record)) []) VNone a_world loose_record
           (py "t3") (VInt 7) VNone 5 (VList [VInt 1]) (VBool true) (py "abnormalities")
           the_topic ∅ []); crunch.
Defined.

Lemma table_unset_fails_witness :
  ∃ e, handler a_float_repr ∅ (healthy a_time) (event_of wire_payload []) VNone a_world
       = (Raise e, a_world)
       ∧ match decode_payload (event_of wire_payload []) with
         | Ok _ => e = KeyError (KStr (py "TABLE_NAME"))
         | Raise e' => e = e'
         end.
Proof.
  apply (table_unset_fails a_float_repr ∅ (healthy a_time) (event_of wire_payload [])
           VNone a_world).
  reflexivity.
Defined.

Lemma distinct_records_commute_witness :
  let e1 := event_of wire_payload [] in
  let e2 := event_of (payload_of (VDict (to_dict another_record))) [] in
  let w12 := deliveries a_float_repr an_environ
               [(healthy a_time, e1); (healthy a_later_time, e2)] a_world in
  let w21 := deliveries a_float_repr an_environ
               [(healthy a_later_time, e2); (healthy a_time, e1)] a_world in
  tables w12 = tables w21
  ∧ stored w12 (py "abnormalities") (py "t1") = Some (enriched a_time scenario_record)
  ∧ stored w12 (py "abnormalities") (py "t2") = Some (enriched a_later_time another_record)
  ∧ topics w12 !! the_topic
    = Some ([] ++ [ json_dumps a_float_repr (VDict (enriched a_time scenario_record));
                    json_dumps a_float_repr (VDict (enriched a_later_time another_record)) ])
  ∧ topics w21 !! the_topic
    = Some ([] ++ [ json_dumps a_float_repr (VDict (enriched a_later_time another_record));
                    json_dumps a_float_repr (VDict (enriched a_time scenario_record)) ]).
Proof.
  apply (distinct_records_commute a_float_repr an_environ (healthy a_time)
           (healthy a_later_time) a_world [] [] scenario_record another_record wire_payload
           (payload_of (VDict (to_dict another_record))) (py "abnormalities") the_topic
           ∅ []); try crunch.
  vm_compute. discriminate.
Defined.

End HandlerMore.

(** ** Further properties of the generator *)

Module ProducerMore.
Import Json Producer AuxFacts ProducerClaims.

Lemma make_banks_nonempty b : make_banks b ≠ [].
Proof. by rewrite make_banks_eq. Qed.

(** The prompt of line 38. *)
Local Abbreviation prompt :=
  (py "Please enter the stream name that was outputted from cdk deploy - (StreamingSolutionWithCdkStack.RootStreamName): ").

(** The script reaches its loop only with the line typed at the prompt as
    the stream name, and the pool of ten. *)
Lemma startup_inv b g :
  (startup b).2 = Ok g →
  starts b = true
  ∧ ∃ line, stdin b = Some line
      ∧ g = {| rootSteamName := line; banks := make_banks b;
               payload := None; response := None |}.
Proof.
  unfold startup, input, starts. rewrite bootstrap_cases.
  destruct (start_outcome b) as [e|]; [destruct (ResourceInUseException e)|];
    destruct (stdin b) as [line|]; cbn; try done; intros [= <-]; eauto.
Qed.

Lemma startup_Ok b line :
  starts b = true → stdin b = Some line →
  (startup b).2 = Ok {| rootSteamName := line; banks := make_banks b;
                        payload := None; response := None |}.
Proof.
  unfold startup, input, starts. rewrite bootstrap_cases. intros Hs ->.
  destruct (start_outcome b) as [e|]; [rewrite Hs|]; reflexivity.
Qed.

Lemma startup_raises b e :
  (startup b).2 = Raise e →
  (start_outcome b = Some e ∧ ResourceInUseException e = false)
  ∨ (starts b = true ∧ stdin b = None ∧ e = EOFError).
Proof.
  unfold startup, input, starts. rewrite bootstrap_cases.
  destruct (start_outcome b) as [e'|]; [destruct (ResourceInUseException e') eqn:E|];
    destruct (stdin b) as [line|]; cbn; try done; intros [= <-]; eauto.
Qed.

Lemma start_calls_app tr1 tr2 :
  start_calls (tr1 ++ tr2) = (start_calls tr1 + start_calls tr2)%nat.
Proof. unfold start_calls. by rewrite omap_app, length_app. Qed.

Lemma destinations_app tr1 tr2 :
  destinations (tr1 ++ tr2) = destinations tr1 ++ destinations tr2.
Proof. apply omap_app. Qed.

Lemma pauses_app tr1 tr2 : pauses (tr1 ++ tr2) = (pauses tr1 + pauses tr2)%nat.
Proof. unfold pauses. by rewrite omap_app, length_app. Qed.

Lemma waits_app tr1 tr2 : waits (tr1 ++ tr2) = (waits tr1 + waits tr2)%nat.
Proof. unfold waits. by rewrite omap_app, length_app. Qed.

Lemma startup_waits b :
  waits (startup b).1 = if start_outcome b is None then 1%nat else 0%nat.
Proof.
  unfold startup, input. rewrite bootstrap_cases.
  destruct (start_outcome b) as [e|]; [destruct (ResourceInUseException e)|];
    destruct (stdin b); reflexivity.
Qed.

Lemma startup_start_calls b : start_calls (startup b).1 = 1%nat.
Proof.
  unfold startup, input. rewrite bootstrap_cases.
  destruct (start_outcome b) as [e|]; [destruct (ResourceInUseException e)|];
    destruct (stdin b); reflexivity.
Qed.

Lemma startup_destinations b : destinations (startup b).1 = [].
Proof.
  unfold startup, input. rewrite bootstrap_cases.
  destruct (start_outcome b) as [e|]; [destruct (ResourceInUseException e)|];
    destruct (stdin b); reflexivity.
Qed.

Lemma startup_pauses b : pauses (startup b).1 = 0%nat.
Proof.
  unfold startup, input. rewrite bootstrap_cases.
  destruct (start_outcome b) as [e|]; [destruct (ResourceInUseException e)|];
    destruct (stdin b); reflexivity.
Qed.

(** The record of a turn: its shape, and the ranges of what was drawn. *)
Lemma make_payload_inv g t p :
  make_payload g t = Ok p →
  ∃ age amount bank,
    p = record_of t age amount bank
    ∧ 18 ≤ age ≤ 85 ∧ 1000 ≤ amount ≤ 10000 ∧ bank ∈ banks g.
Proof.
  unfold make_payload. intros H.
  destruct (random_int 18 85 (age_draw t)) as [age|] eqn:Ha; [|done].
  destruct (random_int 1000 10000 (transaction_draw t)) as [amount|] eqn:Hm; [|done].
  cbn [mbind result_mbind result_bind] in H.
  destruct (randrange 0 (Z.of_nat (length (banks g))) (bank_draw t)) as [i|]; [|done].
  cbn [mbind result_mbind result_bind] in H.
  destruct (list_index (banks g) i) as [bank|] eqn:Hb; [|done].
  cbn [mbind result_mbind result_bind] in H. apply Ok_inj in H as <-.
  exists age, amount, bank. unfold random_int in Ha, Hm.
  apply randrange_range in Ha, Hm.
  split; [reflexivity|]. split; [lia|]. split; [lia|]. by eapply list_index_elem.
Qed.

Section Loop.

Variable float_repr : pyfloat → list Z.

Local Abbreviation dumps := (json_dumps float_repr).

(** The globals after a turn that the stream accepted. *)
Local Abbreviation after g p r :=
  {| rootSteamName := rootSteamName g; banks := banks g;
     payload := Some p; response := Some r |}.

(** One more turn of the loop, by the stream's answer. *)
Lemma loop_cons g t ticks :
  banks g ≠ [] →
  ∃ p, make_payload g t = Ok p ∧
    loop float_repr g (t :: ticks) =
    match put_record_outcome t with
    | Ok r =>
        ([PutRecord (rootSteamName g) (dumps p) (py "abc"); PPrint r; Sleep 1]
         ++ (loop float_repr (after g p r) ticks).1,
         (loop float_repr (after g p r) ticks).2)
    | Raise e => ([PutRecord (rootSteamName g) (dumps p) (py "abc")], Raise e)
    end.
Proof.
  intros Hne. destruct (make_payload_Ok g t Hne) as [p Hp]. exists p.
  split; [done|]. cbn [loop]. unfold tick. rewrite Hp.
  destruct (put_record_outcome t) as [r|e]; reflexivity.
Qed.

Lemma loop_app l1 : ∀ g l2,
  loop float_repr g (l1 ++ l2) = (g' ← loop float_repr g l1; loop float_repr g' l2).
Proof.
  induction l1 as [|t l1 IH]; intros g l2.
  { cbn. by destruct (loop float_repr g l2). }
  cbn [app loop]. destruct (tick float_repr g t) as [tr [g1|e]]; [|done].
  cbn. rewrite IH. destruct (loop float_repr g1 l1) as [tr1 [g2|e]]; cbn.
  - destruct (loop float_repr g2 l2). cbn. by rewrite app_assoc.
  - done.
Qed.

(** While the stream accepts, the loop keeps the stream name and the pool. *)
Lemma loop_accepts ticks : ∀ g,
  banks g ≠ [] → Forall (λ t, ∃ r, put_record_outcome t = Ok r) ticks →
  ∃ g', (loop float_repr g ticks).2 = Ok g'
        ∧ rootSteamName g' = rootSteamName g ∧ banks g' = banks g
        ∧ length (emitted (loop float_repr g ticks).1) = length ticks.
Proof.
  induction ticks as [|t ticks IH]; intros g Hne Hall.
  { exists g. done. }
  apply Forall_cons in Hall as [[r Hr] Hall].
  destruct (loop_cons g t ticks Hne) as (p & _ & ->). rewrite Hr.
  destruct (IH (after g p r) Hne Hall) as (g' & H1 & H2 & H3 & H4).
  exists g'. cbn [fst snd]. rewrite emitted_app.
  repeat split; try done. rewrite length_app, H4. reflexivity.
Qed.

(** What the records of the loop are. *)
Lemma loop_records ticks : ∀ g data,
  banks g ≠ [] → data ∈ emitted (loop float_repr g ticks).1 →
  ∃ t age amount bank,
    t ∈ ticks ∧ data = dumps (record_of t age amount bank)
    ∧ 18 ≤ age ≤ 85 ∧ 1000 ≤ amount ≤ 10000 ∧ bank ∈ banks g.
Proof.
  induction ticks as [|t ticks IH]; intros g data Hne Hin.
  { by apply elem_of_nil in Hin. }
  destruct (loop_cons g t ticks Hne) as (p & Hp & Hl). rewrite Hl in Hin.
  destruct (make_payload_inv g t p Hp) as (age & amount & bank & -> & Ha & Hm & Hb).
  assert (Hhere : ∃ t0 age0 amount0 bank0,
             t0 ∈ t :: ticks
             ∧ dumps (record_of t age amount bank) = dumps (record_of t0 age0 amount0 bank0)
             ∧ 18 ≤ age0 ≤ 85 ∧ 1000 ≤ amount0 ≤ 10000 ∧ bank0 ∈ banks g).
  { exists t, age, amount, bank. repeat split; try done; try lia. by left. }
  destruct (put_record_outcome t) as [r|e]; cbn [fst] in Hin.
  - rewrite emitted_app in Hin. apply elem_of_app in Hin as [Hin|Hin].
    + apply list_elem_of_singleton in Hin as ->. exact Hhere.
    + destruct (IH (after g (record_of t age amount bank) r) data Hne Hin)
        as (t0 & a0 & m0 & b0 & H0 & H1 & H2 & H3 & H4).
      exists t0, a0, m0, b0. repeat split; try done; try lia. by right.
  - apply list_elem_of_singleton in Hin as ->. exact Hhere.
Qed.

Lemma loop_destinations ticks : ∀ g sk,
  banks g ≠ [] → sk ∈ destinations (loop float_repr g ticks).1 →
  sk = (rootSteamName g, py "abc").
Proof.
  induction ticks as [|t ticks IH]; intros g sk Hne Hin.
  { by apply elem_of_nil in Hin. }
  destruct (loop_cons g t ticks Hne) as (p & Hp & Hl). rewrite Hl in Hin.
  destruct (put_record_outcome t) as [r|e]; cbn [fst] in Hin.
  - rewrite destinations_app in Hin. apply elem_of_app in Hin as [Hin|Hin].
    + by apply list_elem_of_singleton in Hin as ->.
    + by apply (IH (after g p r)).
  - by apply list_elem_of_singleton in Hin as ->.
Qed.

Lemma loop_start_calls ticks : ∀ g,
  banks g ≠ [] → start_calls (loop float_repr g ticks).1 = 0%nat.
Proof.
  induction ticks as [|t ticks IH]; intros g Hne; [done|].
  destruct (loop_cons g t ticks Hne) as (p & Hp & ->).
  destruct (put_record_outcome t) as [r|e]; cbn [fst]; [|done].
  rewrite start_calls_app. by rewrite (IH (after g p r)).
Qed.

Lemma loop_pauses ticks : ∀ g,
  banks g ≠ [] →
  (length (emitted (loop float_repr g ticks).1)
   ≤ S (pauses (loop float_repr g ticks).1))%nat
  ∧ (∀ g', (loop float_repr g ticks).2 = Ok g' →
       length (emitted (loop float_repr g ticks).1)
       = pauses (loop float_repr g ticks).1).
Proof.
  induction ticks as [|t ticks IH]; intros g Hne.
  { cbn. split; [lia | done]. }
  destruct (loop_cons g t ticks Hne) as (p & Hp & ->).
  destruct (put_record_outcome t) as [r|e]; cbn [fst snd].
  - rewrite emitted_app, pauses_app, length_app.
    destruct (IH (after g p r) Hne) as [IH1 IH2].
    change (length (emitted [PutRecord (rootSteamName g) (dumps p) (py "abc");
                             PPrint r; Sleep 1])) with 1%nat.
    change (pauses [PutRecord (rootSteamName g) (dumps p) (py "abc");
                    PPrint r; Sleep 1]) with 1%nat.
    split; [lia|]. intros g' Hg'. by rewrite (IH2 g' Hg').
  - split; [cbn; lia | done].
Qed.

Lemma loop_waits ticks : ∀ g,
  banks g ≠ [] → waits (loop float_repr g ticks).1 = 0%nat.
Proof.
  induction ticks as [|t ticks IH]; intros g Hne; [done|].
  destruct (loop_cons g t ticks Hne) as (p & Hp & ->).
  destruct (put_record_outcome t) as [r|e]; cbn [fst]; [|done].
  rewrite waits_app. by rewrite (IH (after g p r)).
Qed.

Lemma loop_raises ticks : ∀ g e,
  banks g ≠ [] → (loop float_repr g ticks).2 = Raise e →
  ∃ t, t ∈ ticks ∧ put_record_outcome t = Raise e.
Proof.
  induction ticks as [|t ticks IH]; intros g e Hne Hr; [done|].
  destruct (loop_cons g t ticks Hne) as (p & Hp & Hl). rewrite Hl in Hr.
  destruct (put_record_outcome t) as [r|e'] eqn:Ho; cbn [snd] in Hr.
  - destruct (IH (after g p r) e Hne Hr) as (t0 & H0 & H1).
    exists t0. split; [by right | done].
  - injection Hr as ->. exists t. split; [by left | done].
Qed.

(** X16: every record the generator emits is the JSON text of the nine
    fields of lines 50 to 58 for one of the turns, with [age] from 18 to
    85, [transaction] from 1000 to 10000 and [bankId] from the pool. *)
Theorem generated_records b ticks data :
  data ∈ emitted (producer float_repr b ticks).1 →
  ∃ t age amount bank,
    t ∈ ticks ∧ data = dumps (record_of t age amount bank)
    ∧ 18 ≤ age ≤ 85 ∧ 1000 ≤ amount ≤ 10000 ∧ bank ∈ make_banks b.
Proof.
  unfold producer. rewrite bind_fst, emitted_app, startup_emits_nothing.
  destruct (startup b).2 as [g|e] eqn:Hs; [|by intros ?%elem_of_nil].
  destruct (startup_inv b g Hs) as (_ & line & _ & ->). cbn [app].
  apply loop_records. apply make_banks_nonempty.
Qed.

(** X17: every record is appended to the stream whose name was typed
    at the prompt, under the partition key [abc]. *)
Theorem records_go_to_the_typed_stream b ticks stream key :
  (stream, key) ∈ destinations (producer float_repr b ticks).1 →
  stdin b = Some stream ∧ key = py "abc".
Proof.
  unfold producer. rewrite bind_fst, destinations_app, startup_destinations.
  destruct (startup b).2 as [g|e] eqn:Hs; [|by intros ?%elem_of_nil].
  destruct (startup_inv b g Hs) as (_ & line & Hline & ->). cbn [app].
  intros Hin. apply loop_destinations in Hin; [|apply make_banks_nonempty].
  cbn [rootSteamName] in Hin. by injection Hin as -> ->.
Qed.

(** X18: the loop has no handler for the stream's exceptions: when the
    stream refuses a record after accepting the ones before, the script
    ends with that exception; the refused call is its last action (no
    print, no sleep), [put_record] was called once for each turn up to that
    one, and the turns that would follow are never made. *)
Theorem stream_failure_stops_generator b pre t post e line :
  starts b = true → stdin b = Some line →
  Forall (λ t, ∃ r, put_record_outcome t = Ok r) pre →
  put_record_outcome t = Raise e →
  (producer float_repr b (pre ++ t :: post)).2 = Raise e
  ∧ producer float_repr b (pre ++ t :: post) = producer float_repr b (pre ++ [t])
  ∧ length (emitted (producer float_repr b (pre ++ t :: post)).1) = S (length pre)
  ∧ ∃ data, last (producer float_repr b (pre ++ t :: post)).1
            = Some (PutRecord line data (py "abc")).
Proof.
  intros Hst Hline Hpre Ht.
  pose proof (startup_Ok b line Hst Hline) as Hs.
  set (g0 := {| rootSteamName := line; banks := make_banks b;
                payload := None; response := None |}) in *.
  destruct (loop_accepts pre g0 (make_banks_nonempty b) Hpre)
    as (g1 & H1 & Hn & Hb & Hlen).
  assert (Hne : banks g1 ≠ []) by (rewrite Hb; apply make_banks_nonempty).
  assert (Hloop : ∀ rest, ∃ data,
    loop float_repr g0 (pre ++ t :: rest)
    = ((loop float_repr g0 pre).1 ++ [PutRecord line data (py "abc")], Raise e)).
  { intros rest. destruct (loop_cons g1 t rest Hne) as (p & _ & Hl).
    rewrite Ht, Hn in Hl. exists (dumps p). rewrite loop_app.
    destruct (loop float_repr g0 pre) as [tr r]. cbn [snd] in H1. subst r.
    cbn [mbind P_bind fst snd]. by rewrite Hl. }
  assert (Hprod : ∀ rest, ∃ data,
    producer float_repr b (pre ++ t :: rest)
    = ((startup b).1 ++ (loop float_repr g0 pre).1
       ++ [PutRecord line data (py "abc")], Raise e)
    ∧ loop float_repr g0 (pre ++ t :: rest)
      = ((loop float_repr g0 pre).1 ++ [PutRecord line data (py "abc")], Raise e)).
  { intros rest. destruct (Hloop rest) as [data Hd]. exists data. split; [|done].
    unfold producer. destruct (startup b) as [tr r]. cbn [snd] in Hs. subst r.
    cbn [mbind P_bind fst snd]. by rewrite Hd. }
  destruct (Hprod post) as (data & Hp & Hl). destruct (Hprod []) as (data' & Hp' & Hl').
  assert (data' = data) as ->.
  { rewrite !loop_app in Hl, Hl'.
    destruct (loop float_repr g0 pre) as [tr r]. cbn [snd] in H1. subst r.
    cbn [mbind P_bind fst snd] in Hl, Hl'.
    destruct (loop_cons g1 t post Hne) as (p & Hmk & Hc).
    destruct (loop_cons g1 t [] Hne) as (p' & Hmk' & Hc').
    rewrite Hmk in Hmk'. apply Ok_inj in Hmk' as <-.
    rewrite Hc, Ht in Hl. rewrite Hc', Ht in Hl'. cbn [fst snd] in Hl, Hl'.
    apply (f_equal fst) in Hl, Hl'. cbn [fst] in Hl, Hl'.
    apply app_inv_head in Hl, Hl'. congruence. }
  rewrite Hp. split; [done|]. split; [by rewrite Hp'|]. split.
  - cbn [fst]. rewrite !emitted_app, startup_emits_nothing. cbn [app].
    rewrite length_app, Hlen. cbn. lia.
  - exists data. cbn [fst]. by rewrite !app_assoc, last_snoc.
Qed.

(** X19: at the end of input the prompt of line 38 raises [EOFError]:
    the script ends there, the prompt is its last action and no record is
    emitted. *)
Theorem no_stream_name_no_records b ticks :
  starts b = true → stdin b = None →
  (producer float_repr b ticks).2 = Raise EOFError
  ∧ emitted (producer float_repr b ticks).1 = []
  ∧ last (producer float_repr b ticks).1 = Some (Input prompt).
Proof.
  unfold starts, producer, startup, input. rewrite bootstrap_cases. intros Hs ->.
  destruct (start_outcome b) as [e|]; [rewrite Hs|]; done.
Qed.

(** X20: however the script runs and however long, it asks for the
    application to be started once, and that call is its first action. *)
Theorem application_started_once b ticks :
  start_calls (producer float_repr b ticks).1 = 1%nat
  ∧ ∃ tr, (producer float_repr b ticks).1
          = StartApplication (py "abnormality-detector") (py "1.1") (py "NOW") :: tr.
Proof.
  split.
  - unfold producer. rewrite bind_fst, start_calls_app, startup_start_calls.
    destruct (startup b).2 as [g|e] eqn:Hs; [|done].
    destruct (startup_inv b g Hs) as (_ & line & _ & ->).
    by rewrite loop_start_calls by apply make_banks_nonempty.
  - unfold producer. rewrite bind_fst. unfold startup, input. rewrite bootstrap_cases.
    destruct (start_outcome b) as [e|]; [destruct (ResourceInUseException e)|];
      destruct (stdin b); cbn; eauto.
Qed.

(** X21: the script sleeps one second after each record (line 64): at
    any point the calls of [put_record] made are at most one more than the
    pauses of one second, and as many when the last turn was completed. *)
Theorem one_record_a_second b ticks :
  (length (emitted (producer float_repr b ticks).1)
   ≤ S (pauses (producer float_repr b ticks).1))%nat
  ∧ (∀ g, (producer float_repr b ticks).2 = Ok g →
       length (emitted (producer float_repr b ticks).1)
       = pauses (producer float_repr b ticks).1).
Proof.
  unfold producer.
  rewrite bind_fst, bind_snd, emitted_app, pauses_app, startup_emits_nothing,
    startup_pauses.
  destruct (startup b).2 as [g|e] eqn:Hs; [|by cbn; split; [lia|]].
  destruct (startup_inv b g Hs) as (_ & line & _ & ->). cbn [app Nat.add].
  apply loop_pauses. apply make_banks_nonempty.
Qed.

(** X22: the script ends with an exception in three ways only: the
    start call failed with something other than [ResourceInUseException],
    the input ended at the prompt, or the stream raised on a record.  The
    draws of lines 52, 56 and 57 never raise: the pool is never empty. *)
Theorem generator_failures b ticks e :
  (producer float_repr b ticks).2 = Raise e →
  (start_outcome b = Some e ∧ ResourceInUseException e = false)
  ∨ (starts b = true ∧ stdin b = None ∧ e = EOFError)
  ∨ (starts b = true ∧ ∃ t, t ∈ ticks ∧ put_record_outcome t = Raise e).
Proof.
  unfold producer. rewrite bind_snd.
  destruct (startup b).2 as [g|e'] eqn:Hs.
  - destruct (startup_inv b g Hs) as (Hst & line & _ & ->). intros Hr.
    right; right. split; [done|].
    by apply loop_raises in Hr; [|apply make_banks_nonempty].
  - intros [= ->]. destruct (startup_raises b e Hs) as [?|?]; eauto.
Qed.

(** X24: the script waits thirty seconds once, before the prompt, when
    its start call was accepted, and never otherwise: not when the
    application was already running, and not in the loop. *)
Theorem waits_only_after_a_start b ticks :
  waits (producer float_repr b ticks).1
  = (if start_outcome b is None then 1%nat else 0%nat)
  ∧ (start_outcome b = None →
     ∃ tr, (producer float_repr b ticks).1
           = [ StartApplication (py "abnormality-detector") (py "1.1") (py "NOW");
               Print (py "Giving 30 seconds for the kinesis analytics application to boot");
               Sleep 30; Input prompt ] ++ tr).
Proof.
  split.
  - unfold producer. rewrite bind_fst, waits_app, startup_waits.
    destruct (startup b).2 as [g|e] eqn:Hs; [|by rewrite Nat.add_0_r].
    destruct (startup_inv b g Hs) as (_ & line & _ & ->).
    by rewrite loop_waits, Nat.add_0_r by apply make_banks_nonempty.
  - intros Hnone. unfold producer. rewrite bind_fst. unfold startup, input.
    rewrite bootstrap_cases, Hnone. destruct (stdin b); cbn; eauto.
Qed.

End Loop.

(** The properties at a generator of a few turns. *)

Import Scenario.

Lemma generated_records_witness :
  length (emitted (producer a_float_repr boot_in_use three_ticks).1) = 3%nat
  ∧ Forall (λ data, ∃ t age amount bank,
              t ∈ three_ticks
              ∧ data = json_dumps a_float_repr (record_of t age amount bank)
              ∧ 18 ≤ age ≤ 85 ∧ 1000 ≤ amount ≤ 10000 ∧ bank ∈ make_banks boot_in_use)
      (emitted (producer a_float_repr boot_in_use three_ticks).1).
Proof.
  split; [vm_compute; reflexivity|]. apply Forall_forall. intros data Hin.
  exact (generated_records a_float_repr boot_in_use three_ticks data Hin).
Defined.

Lemma records_go_to_the_typed_stream_witness :
  length (destinations (producer a_float_repr boot_fresh three_ticks).1) = 3%nat
  ∧ Forall (λ sk, stdin boot_fresh = Some sk.1 ∧ sk.2 = py "abc")
      (destinations (producer a_float_repr boot_fresh three_ticks).1).
Proof.
  split; [vm_compute; reflexivity|]. apply Forall_forall. intros [stream key] Hin.
  exact (records_go_to_the_typed_stream a_float_repr boot_fresh three_ticks stream key Hin).
Defined.

Lemma stream_failure_stops_generator_witness :
  let ticks := [a_tick 1; a_tick 2] ++ a_tick_refused 3 :: [a_tick 4] in
  (producer a_float_repr boot_in_use ticks).2
  = Raise (ClientError "ProvisionedThroughputExceededException")
  ∧ producer a_float_repr boot_in_use ticks
    = producer a_float_repr boot_in_use ([a_tick 1; a_tick 2] ++ [a_tick_refused 3])
  ∧ length (emitted (producer a_float_repr boot_in_use ticks).1) = 3%nat
  ∧ ∃ data, last (producer a_float_repr boot_in_use ticks).1
            = Some (PutRecord (py "RootStream") data (py "abc")).
Proof.
  apply (stream_failure_stops_generator a_float_repr boot_in_use [a_tick 1; a_tick 2]
           (a_tick_refused 3) [a_tick 4]
           (ClientError "ProvisionedThroughputExceededException") (py "RootStream")).
  - reflexivity.
  - reflexivity.
  - repeat constructor; eexists; reflexivity.
  - reflexivity.
Defined.

Lemma no_stream_name_no_records_witness :
  (producer a_float_repr boot_no_input three_ticks).2 = Raise EOFError
  ∧ emitted (producer a_float_repr boot_no_input three_ticks).1 = []
  ∧ last (producer a_float_repr boot_no_input three_ticks).1
    = Some (Input (py "Please enter the stream name that was outputted from cdk deploy - (StreamingSolutionWithCdkStack.RootStreamName): ")).
Proof.
  apply (no_stream_name_no_records a_float_repr boot_no_input three_ticks); reflexivity.
Defined.

Lemma one_record_a_second_witness :
  length (emitted (producer a_float_repr boot_fresh three_ticks).1)
  = pauses (producer a_float_repr boot_fresh three_ticks).1.
Proof.
  eapply (proj2 (one_record_a_second a_float_repr boot_fresh three_ticks)).
  vm_compute. reflexivity.
Defined.

Lemma generator_failures_witness :
  (start_outcome boot_in_use = Some (ClientError "ProvisionedThroughputExceededException")
   ∧ ResourceInUseException (ClientError "ProvisionedThroughputExceededException") = false)
  ∨ (starts boot_in_use = true ∧ stdin boot_in_use = None
     ∧ ClientError "ProvisionedThroughputExceededException" = EOFError)
  ∨ (starts boot_in_use = true
     ∧ ∃ t, t ∈ [a_tick 1; a_tick_refused 2; a_tick 3]
            ∧ put_record_outcome t
              = Raise (ClientError "ProvisionedThroughputExceededException")).
Proof.
  apply (generator_failures a_float_repr boot_in_use [a_tick 1; a_tick_refused 2; a_tick 3]
           (ClientError "ProvisionedThroughputExceededException")).
  vm_compute. reflexivity.
Defined.

Lemma waits_only_after_a_start_witness :
  ∃ tr, (producer a_float_repr boot_fresh three_ticks).1
        = [ StartApplication (py "abnormality-detector") (py "1.1") (py "NOW");
            Print (py "Giving 30 seconds for the kinesis analytics application to boot");
            Sleep 30;
            Input (py "Please enter the stream name that was outputted from cdk deploy - (StreamingSolutionWithCdkStack.RootStreamName): ") ]
          ++ tr.
Proof.
  apply (waits_only_after_a_start a_float_repr boot_fresh three_ticks). reflexivity.
Defined.

End ProducerMore.

(** ** The generator and the handler together *)

Module EndToEnd.
Import Json Contract Fanout AuxFacts TransportFacts HandlerFacts.

Section Pipeline.

Variable float_repr : pyfloat → list Z.
Variable environ : gmap (list Z) (list Z).

Local Abbreviation dumps := (json_dumps float_repr).
Local Abbreviation handler := (Fanout.handler float_repr environ).

Lemma record_of_plain t age amount bank :
  tick_text t = true → text bank = true →
  plain (record_of t age amount bank) = true.
Proof.
  unfold tick_text.
  intros [[[[H1 H2]%andb_true_iff H3]%andb_true_iff H4]%andb_true_iff H5]%andb_true_iff Hb.
  cbn [plain record_of forallb fst snd].
  rewrite H1, H2, H3, H4, H5, Hb, HandlerMore.datetime_str_text. reflexivity.
Qed.

(** X23: the handler accepts what the generator emits.  The record of
    any turn whose strings are text, encoded as the transport does, is
    decoded by lines 17 to 19 to the [dict] the generator built; on a first
    delivery the handler returns 200 and stores and publishes the six
    fields with [customEnrichment] = [transaction] + 500 and [inspectedAt];
    [age], [address] and [state] are dropped. *)
Theorem generated_record_is_accepted g t amb context w more table arn tb ms :
  Producer.banks g ≠ [] → Forall (λ b, text b = true) (Producer.banks g) →
  tick_text t = true →
  environ !! py "TABLE_NAME" = Some table → environ !! py "TOPIC_ARN" = Some arn →
  put_fault amb = None → publish_fault amb = None →
  tables w !! table = Some tb → tb !! Producer.uuid4 t = None →
  topics w !! arn = Some ms →
  ∃ p payload amount bank,
    Producer.make_payload g t = Ok p
    ∧ Producer.emitted (Producer.tick float_repr g t).1 = [dumps p]
    ∧ encode float_repr p = Ok payload
    ∧ 1000 ≤ amount ≤ 10000 ∧ bank ∈ Producer.banks g
    ∧ handler amb (event_of payload more) context w
      = (Ok (ack float_repr (inspected_record t amount bank (now amb))),
         delivered float_repr w table tb (Producer.uuid4 t)
           (inspected_record t amount bank (now amb)) arn ms).
Proof.
  intros Hne Hbanks Ht Htn Harn Hpf Hqf Htb Hk Hms.
  destruct (ProducerClaims.make_payload_Ok g t Hne) as [p Hp].
  destruct (ProducerMore.make_payload_inv g t p Hp)
    as (age & amount & bank & -> & Ha & Hm & Hb).
  assert (Hpl : plain (record_of t age amount bank) = true).
  { apply record_of_plain; [done|]. rewrite Forall_forall in Hbanks. by apply Hbanks. }
  exists (record_of t age amount bank),
    (Base64.b64encode (dumps (record_of t age amount bank))), amount, bank.
  split; [done|]. split.
  { unfold Producer.tick. rewrite Hp.
    by destruct (Producer.put_record_outcome t). }
  split; [by apply encode_plain|]. split; [done|]. split; [done|].
  eapply handler_delivers;
    [by apply decode_payload_encode | done | done | reflexivity
    | | reflexivity | done | done | exact Htb | by rewrite Hk | done].
  reflexivity.
Qed.

End Pipeline.

(** The property at the first turn of the scenario. *)

Import Producer Scenario.

Lemma generated_record_is_accepted_witness :
  ∃ p payload amount bank,
    make_payload a_globals (a_tick 1) = Ok p
    ∧ emitted (tick a_float_repr a_globals (a_tick 1)).1 = [json_dumps a_float_repr p]
    ∧ encode a_float_repr p = Ok payload
    ∧ 1000 ≤ amount ≤ 10000 ∧ bank ∈ banks a_globals
    ∧ handler a_float_repr an_environ (healthy a_later_time) (event_of payload []) VNone
        a_world
      = (Ok (ack a_float_repr (inspected_record (a_tick 1) amount bank a_later_time)),
         delivered a_float_repr a_world (py "abnormalities") ∅ (uuid4 (a_tick 1))
           (inspected_record (a_tick 1) amount bank a_later_time)
           (py "arn:aws:sns:us-east-1:1:abnormalities") []).
Proof.
  apply (generated_record_is_accepted a_float_repr an_environ a_globals (a_tick 1)
           (healthy a_later_time) VNone a_world [] (py "abnormalities")
           (py "arn:aws:sns:us-east-1:1:abnormalities") ∅ []);
    try (vm_compute; reflexivity).
  - vm_compute. discriminate.
  - repeat (constructor; [vm_compute; reflexivity|]). constructor.
Defined.

End EndToEnd.
